(** * Athena: the SOS liquidation protocol

    A shallow embedding of the Ledger Client ([FraxService],
    lib/frax-service.ts), of the Agent Orchestrator ([AthenaAgent],
    lib/athena-agent.ts) and of the hash utility
    (services/cryptoUtils.ts), followed by the properties of the
    specification that concern them.

    JavaScript numbers are IEEE-754 binary64 values and are modelled by the
    primitive floats of the kernel.  Promises are modelled by their
    settlement: an awaited call either yields a value or throws.  Calls that
    leave the program (JSON-RPC, the ethers helpers, the Web Crypto API,
    the random generator, the clock) are answered by explicit oracles. *)

From Stdlib Require Import Floats ZArith Lia Ascii.
From stdpp Require Import gmap strings list pretty.

#[local] Open Scope string_scope.
#[local] Open Scope list_scope.
#[local] Set Warnings "-inexact-float".

(** ** JavaScript values and control *)

Module Js.

Definition number : Type := float.
#[global] Bind Scope float_scope with number.

(** An [Error] object, as far as the program looks at it. *)
Record Error : Type := mkError { message : string }.

(** The settlement of an expression or of an awaited promise. *)
Inductive Completion (A : Type) : Type :=
| Normal (a : A)
| Throw (e : Error).
#[global] Arguments Normal {A} a.
#[global] Arguments Throw {A} e.

(** Sequencing: a throw skips what follows. *)
#[global] Instance Completion_ret : MRet Completion := @Normal.
#[global] Instance Completion_bind : MBind Completion :=
  fun A B (k : A -> Completion B) (c : Completion A) =>
    match c with
    | Normal a => k a
    | Throw e => Throw e
    end.

(** [try { body } catch (error) { handler }] *)
Definition try_catch {A} (body : Completion A)
  (handler : Error -> Completion A) : Completion A :=
  match body with
  | Normal a => Normal a
  | Throw e => handler e
  end.

(** Reading a property of [null] throws a [TypeError]. *)
Definition nonnull {A} (what : string) (o : option A) : Completion A :=
  match o with
  | Some a => Normal a
  | None =>
      Throw (mkError
        ("Cannot read properties of null (reading '" +:+ what +:+ "')"))
  end.

(** Truthiness of an object reference and of a string. *)
Definition truthy {A} (o : option A) : bool :=
  match o with Some _ => true | None => false end.

Definition truthy_string (s : string) : bool :=
  match s with EmptyString => false | String _ _ => true end.

(** Truthiness of a number: [0], [-0] and [NaN] are falsy. *)
Definition truthy_number (x : number) : bool :=
  negb (PrimFloat.eqb x 0 || PrimFloat.is_nan x).

(** [s.slice(from, to)] for [0 <= from <= to] (strings are held as
    bytes: the program only slices ASCII hashes and addresses). *)
Definition slice (from to : nat) (s : string) : string :=
  String.substring from (to - from) s.

(** [s.substring(from, to)] for [0 <= from <= to]. *)
Definition substring (from to : nat) (s : string) : string :=
  String.substring from (to - from) s.

Definition upper_ascii (c : ascii) : ascii :=
  let n := Ascii.nat_of_ascii c in
  if (97 <=? n)%nat && (n <=? 122)%nat
  then Ascii.ascii_of_nat (n - 32) else c.

Fixpoint toUpperCase (s : string) : string :=
  match s with
  | EmptyString => EmptyString
  | String c s' => String (upper_ascii c) (toUpperCase s')
  end.

(** [s.replace(/-/g, '')] *)
Fixpoint remove_dashes (s : string) : string :=
  match s with
  | EmptyString => EmptyString
  | String c s' =>
      if Ascii.eqb c "-" then remove_dashes s'
      else String c (remove_dashes s')
  end.

(** The sixteen values of [Math.floor(Math.random() * 16)]. *)
Inductive hexdigit : Type :=
| X0 | X1 | X2 | X3 | X4 | X5 | X6 | X7
| X8 | X9 | Xa | Xb | Xc | Xd | Xe | Xf.

(** [n.toString(16)] on such a value. *)
Definition hex_char (d : hexdigit) : ascii :=
  match d with
  | X0 => "0" | X1 => "1" | X2 => "2" | X3 => "3"
  | X4 => "4" | X5 => "5" | X6 => "6" | X7 => "7"
  | X8 => "8" | X9 => "9" | Xa => "a" | Xb => "b"
  | Xc => "c" | Xd => "d" | Xe => "e" | Xf => "f"
  end%char.

Definition hexdigit_of_N (n : N) : hexdigit :=
  match n with
  | 0 => X0 | 1 => X1 | 2 => X2 | 3 => X3
  | 4 => X4 | 5 => X5 | 6 => X6 | 7 => X7
  | 8 => X8 | 9 => X9 | 10 => Xa | 11 => Xb
  | 12 => Xc | 13 => Xd | 14 => Xe | _ => Xf
  end%N.

(** [b.toString(16).padStart(2, '0')] for a byte [b]. *)
Definition byte_hex (b : N) : string :=
  String (hex_char (hexdigit_of_N (b / 16)))
    (String (hex_char (hexdigit_of_N (b mod 16))) EmptyString).

(** [xs.join('')] *)
Definition join (xs : list string) : string :=
  foldr String.append EmptyString xs.

(** [hay] contains [needle] as a substring. *)
Definition contains (needle hay : string) : Prop :=
  exists pre post, hay = pre +:+ needle +:+ post.

End Js.

Import Js.

(** The optional [metadata] argument of [secureEvidence]. *)
Module Metadata.
Record t : Type := mk {
  category : option string;
  riskLevel : option number;
  summary : option string;
}.
End Metadata.

(** ** The host: built-ins and library helpers the program calls

    These are functions of the JavaScript runtime and of the ethers
    library, not of this repository; the development is parametric in
    them.  Writes to the console are not modelled. *)

Record Runtime : Type := {
  (** [x.toString()] and the interpolation of a number in a template *)
  number_toString : number -> string;
  (** [x.toFixed(digits)] *)
  number_toFixed : number -> nat -> string;
  parseFloat : string -> number;
  (** ethers: base units to a decimal string, and back (the latter throws
      on a string it cannot read at that precision) *)
  formatUnits : Z -> nat -> string;
  parseUnits : string -> nat -> Completion Z;
  (** ethers: [new Wallet(privateKey, provider).address]; the constructor
      throws on an invalid key *)
  Wallet_address : string -> Completion string;
  (** [crypto.subtle.digest('SHA-256', new TextEncoder().encode(m))], as
      the list of the digest's bytes *)
  sha256 : string -> list N;
  (** [JSON.stringify(metadata)] *)
  JSON_stringify : Metadata.t -> string;
  Math_floor : number -> number;
  Math_min : number -> number -> number;
}.

(** ** src/services/cryptoUtils.ts *)

Definition generateHash (rt : Runtime) (message : string) : string :=
  let hashArray := sha256 rt message in
  let hashHex := join (map byte_hex hashArray) in
  "0x" +:+ hashHex.

(** ** src/lib/frax-service.ts: configuration and types *)

Module NetworkConfig.
Record t : Type := mk {
  name : string;
  rpcUrl : string;
  chainId : Z;
  sFraxAddress : string;
  fraxAddress : string;
  usdcAddress : string;
  explorerUrl : string;
}.
End NetworkConfig.

Definition FRAXTAL_MAINNET : NetworkConfig.t :=
  {| NetworkConfig.name := "Fraxtal";
     NetworkConfig.rpcUrl := "https://rpc.frax.com";
     NetworkConfig.chainId := 252;
     NetworkConfig.sFraxAddress := "0xfc00000000000000000000000000000000000008";
     NetworkConfig.fraxAddress := "0xFc00000000000000000000000000000000000001";
     NetworkConfig.usdcAddress := "0xDcc0F2D8F90FDe85b10aC1c8Ab57dc0AE946A543";
     NetworkConfig.explorerUrl := "https://fraxscan.com" |}.

Definition ETHEREUM_MAINNET : NetworkConfig.t :=
  {| NetworkConfig.name := "Ethereum";
     NetworkConfig.rpcUrl := "https://eth.llamarpc.com";
     NetworkConfig.chainId := 1;
     NetworkConfig.sFraxAddress := "0xA663B02CF0a4b149d2aD41910CB81e23e1c41c32";
     NetworkConfig.fraxAddress := "0x853d955aCEf822Db058eb8505911ED77F175b99e";
     NetworkConfig.usdcAddress := "0xA0b86991c6218b36c1d19D4a2e9Eb0cE3606eB48";
     NetworkConfig.explorerUrl := "https://etherscan.io" |}.

Definition FRAXTAL_TESTNET : NetworkConfig.t :=
  {| NetworkConfig.name := "Fraxtal Testnet";
     NetworkConfig.rpcUrl := "https://rpc.testnet.frax.com";
     NetworkConfig.chainId := 2523;
     NetworkConfig.sFraxAddress := "0x0000000000000000000000000000000000000000";
     NetworkConfig.fraxAddress := "0x0000000000000000000000000000000000000000";
     NetworkConfig.usdcAddress := "0x0000000000000000000000000000000000000000";
     NetworkConfig.explorerUrl := "https://holesky.fraxscan.com" |}.

Definition SEPOLIA_TESTNET : NetworkConfig.t :=
  {| NetworkConfig.name := "Sepolia";
     NetworkConfig.rpcUrl := "https://rpc.sepolia.org";
     NetworkConfig.chainId := 11155111;
     NetworkConfig.sFraxAddress := "0x0000000000000000000000000000000000000000";
     NetworkConfig.fraxAddress := "0x0000000000000000000000000000000000000000";
     NetworkConfig.usdcAddress := "0x0000000000000000000000000000000000000000";
     NetworkConfig.explorerUrl := "https://sepolia.etherscan.io" |}.

Module VaultState.
Record t : Type := mk {
  sFraxBalance : number;
  sFraxValueInFrax : number;
  fraxBalance : number;
  usdcBalance : number;
  totalValueUsd : number;
  apy : number;
  isOnline : bool;
  network : string;
}.
End VaultState.

Module TransactionResult.
Record t : Type := mk {
  success : bool;
  txHash : string;
  message : string;
  explorerUrl : option string;
}.
End TransactionResult.

Module SOSResult.
Record t : Type := mk {
  success : bool;
  liquidatedAmount : number;
  transferredAmount : number;
  destinationAddress : string;
  txHashes : list string;
  logs : list string;
}.
End SOSResult.

(** ** The chain, as seen through the contract objects

    One record answers the remote calls of one operation.  Sending a
    transaction settles twice: the send itself, then [tx.wait()], whose
    receipt carries the hash (a missing receipt counts as a throw: the
    program reads [receipt.hash] at once). *)

Module Receipt.
Record t : Type := mk { hash : string }.
End Receipt.

Definition Sent : Type := Completion (Completion Receipt.t).

Record Chain : Type := {
  provider_getBlockNumber : Completion Z;
  sFrax_balanceOf : string -> Completion Z;
  sFrax_convertToAssets : Z -> Completion Z;
  sFrax_deposit : Z -> string -> Sent;
  sFrax_redeem : Z -> string -> string -> Sent;
  frax_balanceOf : string -> Completion Z;
  frax_approve : string -> Z -> Sent;
  frax_transfer : string -> Z -> Sent;
  usdc_balanceOf : string -> Completion Z;
  (** [wallet.sendTransaction({to, value, data})] *)
  wallet_sendTransaction : string -> Z -> string -> Sent;
}.

(** [const receipt = await (await send).wait()] *)
Definition mined (s : Sent) : Completion Receipt.t :=
  tx ← s; tx.

(** Randomness drawn by one operation. *)
Record Entropy : Type := {
  (** the i-th value of [Math.floor(Math.random() * 16)] *)
  Math_random_hex : nat -> hexdigit;
  (** [crypto.randomUUID()], by call site: 0 in the liquidation step of
      the SOS protocol, 1 in its transfer step; it throws where the API
      is missing *)
  crypto_randomUUID : nat -> Completion string;
}.

(** ** src/lib/frax-service.ts: the [FraxService] class *)

Module FraxService.

Record Wallet : Type := mkWallet { address : string }.

(** A contract object, by the address it is bound to. *)
Record Contract : Type := mkContract { target : string }.

Record t : Type := mk {
  provider : option string;
  wallet : option Wallet;
  sFraxContract : option Contract;
  fraxContract : option Contract;
  usdcContract : option Contract;
  activeNetwork : NetworkConfig.t;
  isConnected : bool;
  fallbackStartTime : Z;
  fallbackBaseBalance : number;
}.

Definition set_isConnected (b : bool) (this : t) : t :=
  mk (provider this) (wallet this) (sFraxContract this)
     (fraxContract this) (usdcContract this) (activeNetwork this)
     b (fallbackStartTime this) (fallbackBaseBalance this).

Definition set_fallbackBaseBalance (x : number) (this : t) : t :=
  mk (provider this) (wallet this) (sFraxContract this)
     (fraxContract this) (usdcContract this) (activeNetwork this)
     (isConnected this) (fallbackStartTime this) x.

Inductive Network : Type :=
| fraxtal | fraxtal_testnet | ethereum | sepolia.

(** The field initialisers and the [switch] of the constructor;
    [now] is [Date.now()]. *)
Definition create (now : Z) (network : Network) : t :=
  {| provider := None;
     wallet := None;
     sFraxContract := None;
     fraxContract := None;
     usdcContract := None;
     activeNetwork :=
       match network with
       | ethereum => ETHEREUM_MAINNET
       | sepolia => SEPOLIA_TESTNET
       | fraxtal_testnet => FRAXTAL_TESTNET
       | fraxtal => FRAXTAL_MAINNET
       end;
     isConnected := false;
     fallbackStartTime := now;
     fallbackBaseBalance := 1250 |}.

(** [initializeConnection], once it has settled.  The assignments made
    before a throw stay. *)
Definition initializeConnection (rt : Runtime) (ch : Chain)
    (privateKey : string) (this : t) : t :=
  let net := activeNetwork this in
  let this1 :=
    mk (Some (NetworkConfig.rpcUrl net)) (wallet this)
       (sFraxContract this) (fraxContract this) (usdcContract this)
       net (isConnected this) (fallbackStartTime this)
       (fallbackBaseBalance this) in
  match Wallet_address rt privateKey with
  | Throw _ => set_isConnected false this1
  | Normal addr =>
      let this2 :=
        mk (provider this1) (Some (mkWallet addr))
           (Some (mkContract (NetworkConfig.sFraxAddress net)))
           (Some (mkContract (NetworkConfig.fraxAddress net)))
           (Some (mkContract (NetworkConfig.usdcAddress net)))
           net (isConnected this1) (fallbackStartTime this1)
           (fallbackBaseBalance this1) in
      match provider_getBlockNumber ch with
      | Normal _ => set_isConnected true this2
      | Throw _ => set_isConnected false this2
      end
  end.

(** [new FraxService(privateKey, network)], the connection attempt
    settled; the default network is the test network. *)
Definition new (rt : Runtime) (ch : Chain) (now : Z)
    (privateKey : option string) (network : option Network) : t :=
  let this := create now (default fraxtal_testnet network) in
  match privateKey with
  | Some key =>
      if truthy_string key then initializeConnection rt ch key this
      else this
  | None => this
  end.

Definition getAddress (this : t) : string :=
  match wallet this with
  | Some w => address w
  | None => "0x742d35Cc6634C0532925a3b844Bc454e4438f44e"
  end.

(** [this.wallet!.address] *)
Definition wallet_address (this : t) : Completion string :=
  w ← nonnull "address" (wallet this); mret (address w).

Definition getSimulatedVaultState (this : t) : VaultState.t :=
  {| VaultState.sFraxBalance := 0;
     VaultState.sFraxValueInFrax := 0;
     VaultState.fraxBalance := 0;
     VaultState.usdcBalance := 0;
     VaultState.totalValueUsd := 0;
     VaultState.apy := 5.4;
     VaultState.isOnline := false;
     VaultState.network := "Not Connected" |}.

(** The body of the [try] block of [getVaultState]. *)
Definition readVaultState (rt : Runtime) (ch : Chain) (this : t)
    : Completion VaultState.t :=
  address ← wallet_address this;
  _ ← nonnull "balanceOf" (sFraxContract this);
  sFraxQuery ← mret (sFrax_balanceOf ch address);
  _ ← nonnull "balanceOf" (fraxContract this);
  fraxQuery ← mret (frax_balanceOf ch address);
  _ ← nonnull "balanceOf" (usdcContract this);
  usdcQuery ← mret (usdc_balanceOf ch address);
  (* await Promise.all([...]) *)
  sFraxBal ← sFraxQuery;
  fraxBal ← fraxQuery;
  usdcBal ← usdcQuery;
  sFraxValue ← sFrax_convertToAssets ch sFraxBal;
  let sFraxBalance := parseFloat rt (formatUnits rt sFraxBal 18) in
  let sFraxValueInFrax := parseFloat rt (formatUnits rt sFraxValue 18) in
  let fraxBalance := parseFloat rt (formatUnits rt fraxBal 18) in
  let usdcBalance := parseFloat rt (formatUnits rt usdcBal 6) in
  mret
    {| VaultState.sFraxBalance := sFraxBalance;
       VaultState.sFraxValueInFrax := sFraxValueInFrax;
       VaultState.fraxBalance := fraxBalance;
       VaultState.usdcBalance := usdcBalance;
       VaultState.totalValueUsd :=
         (sFraxValueInFrax + fraxBalance + usdcBalance)%float;
       VaultState.apy := 5.4;
       VaultState.isOnline := true;
       VaultState.network := NetworkConfig.name (activeNetwork this) |}.

Definition getVaultState (rt : Runtime) (ch : Chain) (this : t)
    : Completion VaultState.t :=
  if isConnected this && truthy (wallet this)
     && truthy (sFraxContract this)
  then
    try_catch (readVaultState rt ch this)
      (fun error => (* console.warn *)
         mret (getSimulatedVaultState this))
  else mret (getSimulatedVaultState this).

Definition getAPY (this : t) : Completion number := mret 5.4%float.

(** ['0x' + Array(64).fill(0).map(() =>
      Math.floor(Math.random() * 16).toString(16)).join('')] *)
Definition fakeTxHash (ent : Entropy) : string :=
  "0x" +:+
  join (map (fun i => String (hex_char (Math_random_hex ent i)) EmptyString)
            (seq 0 64)).

Definition explorerLink (this : t) (h : string) : string :=
  NetworkConfig.explorerUrl (activeNetwork this) +:+ "/tx/" +:+ h.

Definition depositToVault (rt : Runtime) (ch : Chain) (ent : Entropy)
    (amountFrax : number) (this : t)
    : Completion TransactionResult.t * t :=
  if isConnected this && truthy (sFraxContract this)
     && truthy (fraxContract this)
  then
    (try_catch
       (amount ← parseUnits rt (number_toString rt amountFrax) 18;
        _ ← mined
              (frax_approve ch
                 (NetworkConfig.sFraxAddress (activeNetwork this)) amount);
        receiver ← wallet_address this;
        receipt ← mined (sFrax_deposit ch amount receiver);
        mret
          {| TransactionResult.success := true;
             TransactionResult.txHash := Receipt.hash receipt;
             TransactionResult.message :=
               "Deposited " +:+ number_toString rt amountFrax
               +:+ " FRAX into sFRAX vault";
             TransactionResult.explorerUrl :=
               Some (explorerLink this (Receipt.hash receipt)) |})
       (fun error =>
          mret
            {| TransactionResult.success := false;
               TransactionResult.txHash := EmptyString;
               TransactionResult.message :=
                 "Deposit failed: " +:+ message error;
               TransactionResult.explorerUrl := None |}),
     this)
  else
    (mret
       {| TransactionResult.success := true;
          TransactionResult.txHash := fakeTxHash ent;
          TransactionResult.message :=
            "[DEMO] Deposited " +:+ number_toString rt amountFrax
            +:+ " FRAX into sFRAX vault";
          TransactionResult.explorerUrl := None |},
     set_fallbackBaseBalance
       (fallbackBaseBalance this + amountFrax)%float this).

Definition redeemFromVault (rt : Runtime) (ch : Chain) (ent : Entropy)
    (amountShares : number) (this : t) : Completion TransactionResult.t :=
  if isConnected this && truthy (sFraxContract this)
  then
    try_catch
      (shares ← parseUnits rt (number_toString rt amountShares) 18;
       receiver ← wallet_address this;
       owner ← wallet_address this;
       receipt ← mined (sFrax_redeem ch shares receiver owner);
       mret
         {| TransactionResult.success := true;
            TransactionResult.txHash := Receipt.hash receipt;
            TransactionResult.message :=
              "Redeemed " +:+ number_toString rt amountShares
              +:+ " sFRAX shares";
            TransactionResult.explorerUrl :=
              Some (explorerLink this (Receipt.hash receipt)) |})
      (fun error =>
         mret
           {| TransactionResult.success := false;
              TransactionResult.txHash := EmptyString;
              TransactionResult.message :=
                "Redeem failed: " +:+ message error;
              TransactionResult.explorerUrl := None |})
  else
    mret
      {| TransactionResult.success := true;
         TransactionResult.txHash := fakeTxHash ent;
         TransactionResult.message :=
           "[DEMO] Redeemed " +:+ number_toString rt amountShares
           +:+ " sFRAX to FRAX";
         TransactionResult.explorerUrl := None |}.

Definition transferFrax (rt : Runtime) (ch : Chain) (ent : Entropy)
    (toAddress : string) (amount : number) (this : t)
    : Completion TransactionResult.t :=
  if isConnected this && truthy (fraxContract this)
  then
    try_catch
      (amountWei ← parseUnits rt (number_toString rt amount) 18;
       receipt ← mined (frax_transfer ch toAddress amountWei);
       mret
         {| TransactionResult.success := true;
            TransactionResult.txHash := Receipt.hash receipt;
            TransactionResult.message :=
              "Transferred " +:+ number_toString rt amount +:+ " FRAX to "
              +:+ slice 0 8 toAddress +:+ "...";
            TransactionResult.explorerUrl :=
              Some (explorerLink this (Receipt.hash receipt)) |})
      (fun error =>
         mret
           {| TransactionResult.success := false;
              TransactionResult.txHash := EmptyString;
              TransactionResult.message :=
                "Transfer failed: " +:+ message error;
              TransactionResult.explorerUrl := None |})
  else
    mret
      {| TransactionResult.success := true;
         TransactionResult.txHash := fakeTxHash ent;
         TransactionResult.message :=
           "[DEMO] Transferred " +:+ number_toString rt amount
           +:+ " FRAX to " +:+ slice 0 8 toAddress +:+ "...";
         TransactionResult.explorerUrl := None |}.

(** *** The SOS protocol

    [logs] and [txHashes] are arrays the body pushes to; what was
    pushed before a throw is still there in the [catch] block. *)

Record Journal : Type := mkJournal {
  logs : list string;
  txHashes : list string;
}.

Definition Sos (A : Type) : Type := Journal -> Completion A * Journal.

#[global] Instance Sos_ret : MRet Sos := fun A a j => (Normal a, j).
#[global] Instance Sos_bind : MBind Sos :=
  fun A B (k : A -> Sos B) (m : Sos A) j =>
    match m j with
    | (Normal a, j') => k a j'
    | (Throw e, j') => (Throw e, j')
    end.

Definition await {A} (c : Completion A) : Sos A := fun j => (c, j).

Definition logs_push (line : string) : Sos unit :=
  fun j => (Normal tt, mkJournal (logs j ++ [line]) (txHashes j)).

Definition txHashes_push (h : string) : Sos unit :=
  fun j => (Normal tt, mkJournal (logs j) (txHashes j ++ [h])).

(** ['0x' + crypto.randomUUID().replace(/-/g, '').slice(0, 64)] *)
Definition fakeTx (uuid : string) : string :=
  "0x" +:+ slice 0 64 (remove_dashes uuid).

(** Step 2 of [triggerSOS]: liquidate the shares. *)
Definition liquidate (rt : Runtime) (ch : Chain) (ent : Entropy)
    (vaultState : VaultState.t) (this : t) : Sos unit :=
  if (0 <? VaultState.sFraxBalance vaultState)%float then
    _ ← logs_push "Liquidating sFRAX positions...";
    if isConnected this && truthy (sFraxContract this) then
      shares ← await
        (parseUnits rt
           (number_toString rt (VaultState.sFraxBalance vaultState)) 18);
      receiver ← await (wallet_address this);
      owner ← await (wallet_address this);
      receipt ← await (mined (sFrax_redeem ch shares receiver owner));
      _ ← txHashes_push (Receipt.hash receipt);
      logs_push
        ("Liquidation TX: " +:+ slice 0 10 (Receipt.hash receipt) +:+ "...")
    else
      uuid ← await (crypto_randomUUID ent 0);
      let fakeTx := fakeTx uuid in
      _ ← txHashes_push fakeTx;
      logs_push
        ("[DEMO] Liquidation TX: " +:+ slice 0 10 fakeTx +:+ "...")
  else mret tt.

(** Step 3 of [triggerSOS]: transfer to the safe destination. *)
Definition transferOut (rt : Runtime) (ch : Chain) (ent : Entropy)
    (destinationAddress : string) (totalToTransfer : number) (this : t)
    : Sos unit :=
  _ ← logs_push
        ("Transferring " +:+ number_toFixed rt totalToTransfer 2
         +:+ " FRAX to safe destination...");
  if isConnected this && truthy (fraxContract this) then
    amount ← await
      (parseUnits rt (number_toString rt totalToTransfer) 18);
    receipt ← await (mined (frax_transfer ch destinationAddress amount));
    _ ← txHashes_push (Receipt.hash receipt);
    logs_push ("Transfer TX: " +:+ slice 0 10 (Receipt.hash receipt) +:+ "...")
  else
    uuid ← await (crypto_randomUUID ent 1);
    let fakeTx := fakeTx uuid in
    _ ← txHashes_push fakeTx;
    logs_push ("[DEMO] Transfer TX: " +:+ slice 0 10 fakeTx +:+ "...").

(** The body of the [try] block of [triggerSOS], up to the [return];
    it yields the state read and the amount transferred. *)
Definition sosSteps (rt : Runtime) (ch : Chain) (ent : Entropy)
    (destinationAddress : string) (this : t)
    : Sos (VaultState.t * number) :=
  vaultState ← await (getVaultState rt ch this);
  _ ← logs_push
        ("Balance detected: "
         +:+ number_toFixed rt (VaultState.sFraxBalance vaultState) 2
         +:+ " sFRAX");
  _ ← liquidate rt ch ent vaultState this;
  let totalToTransfer :=
    (VaultState.sFraxValueInFrax vaultState
     + VaultState.fraxBalance vaultState)%float in
  _ ← transferOut rt ch ent destinationAddress totalToTransfer this;
  _ ← logs_push "✅ SOS Protocol Complete. Funds secured.";
  mret (vaultState, totalToTransfer).

Definition journal0 : Journal :=
  mkJournal ["⚠️ INITIATING SOS PROTOCOL..."] [].

Definition triggerSOS (rt : Runtime) (ch : Chain) (ent : Entropy)
    (destinationAddress : string) (this : t)
    : Completion SOSResult.t * t :=
  match sosSteps rt ch ent destinationAddress this journal0 with
  | (Normal (vaultState, totalToTransfer), j) =>
      (mret
         {| SOSResult.success := true;
            SOSResult.liquidatedAmount :=
              VaultState.sFraxBalance vaultState;
            SOSResult.transferredAmount := totalToTransfer;
            SOSResult.destinationAddress := destinationAddress;
            SOSResult.txHashes := txHashes j;
            SOSResult.logs := logs j |},
       set_fallbackBaseBalance 0 this)
  | (Throw error, j) =>
      let logs := logs j ++ ["❌ Error: " +:+ message error] in
      (mret
         {| SOSResult.success := false;
            SOSResult.liquidatedAmount := 0;
            SOSResult.transferredAmount := 0;
            SOSResult.destinationAddress := destinationAddress;
            SOSResult.txHashes := txHashes j;
            SOSResult.logs := logs |},
       this)
  end.

Definition storeEvidenceHash (ch : Chain) (ent : Entropy)
    (hash : string) (metadata : option string) (this : t)
    : Completion TransactionResult.t :=
  let data :=
    "ATHENA_EVIDENCE:" +:+ hash +:+
    match metadata with
    | Some m => if truthy_string m then ":" +:+ m else EmptyString
    | None => EmptyString
    end in
  if isConnected this && truthy (wallet this) && truthy (provider this)
  then
    try_catch
      (self ← wallet_address this;
       (* data: ethers.toUtf8Bytes(data), the bytes of the string *)
       receipt ← mined (wallet_sendTransaction ch self 0 data);
       mret
         {| TransactionResult.success := true;
            TransactionResult.txHash := Receipt.hash receipt;
            TransactionResult.message := "Evidence hash stored on-chain";
            TransactionResult.explorerUrl :=
              Some (explorerLink this (Receipt.hash receipt)) |})
      (fun error =>
         mret
           {| TransactionResult.success := false;
              TransactionResult.txHash := EmptyString;
              TransactionResult.message :=
                "Failed to store evidence: " +:+ message error;
              TransactionResult.explorerUrl := None |})
  else
    mret
      {| TransactionResult.success := true;
         TransactionResult.txHash := fakeTxHash ent;
         TransactionResult.message :=
           "[DEMO] Evidence hash recorded (simulated)";
         TransactionResult.explorerUrl := None |}.

Definition isOnline (this : t) : bool := isConnected this.

Definition getNetworkInfo (this : t) : NetworkConfig.t :=
  activeNetwork this.

End FraxService.

(** ** lib/athena-agent.ts: types *)

Inductive CaseStatus : Type := ACTIVE | EVACUATED | ARCHIVED.

Module AthenaCase.
Record t : Type := mk {
  caseId : string;
  depositAddress : string;
  createdAt : Z;
  status : CaseStatus;
}.

(** [c.status = s] *)
Definition set_status (s : CaseStatus) (c : t) : t :=
  mk (caseId c) (depositAddress c) (createdAt c) s.
End AthenaCase.

Inductive EvidenceType : Type := TEXT | IMAGE | AUDIO | VIDEO.

Inductive EvidenceStatus : Type := PENDING | ON_CHAIN | FAILED.

Module EvidenceRecord.
Record t : Type := mk {
  id : string;
  hash : string;
  type : EvidenceType;
  timestamp : Z;
  txHash : option string;
  status : EvidenceStatus;
  metadata : option Metadata.t;
}.
End EvidenceRecord.

Module Strategy.
Record t : Type := mk {
  step1 : string;
  step2 : string;
  step3 : string;
}.
End Strategy.

Module FreedomGoal.
Record t : Type := mk {
  targetAmount : number;
  currentAmount : number;
  currency : string;
}.
End FreedomGoal.

Module EscapePlan.
Record t : Type := mk {
  isReady : bool;
  freedomGoal : FreedomGoal.t;
  strategy : Strategy.t;
  riskLevel : number;
  destination : string;
}.
End EscapePlan.

Module YieldOptimizationResult.
Record t : Type := mk {
  success : bool;
  previousBalance : number;
  newBalance : number;
  apy : number;
  projectedMonthlyYield : number;
  message : string;
}.
End YieldOptimizationResult.

(** Case objects live in a heap and are denoted by their index in it:
    [state.case] holds a reference, and so do the values handed to the
    callers of [createAnonymousCase] and [getState]. *)
Abbreviation CaseRef := nat (only parsing).

Module AgentState.
Record t : Type := mk {
  case : option CaseRef;
  evidence : list EvidenceRecord.t;
  escapePlan : option EscapePlan.t;
  vaultState : option VaultState.t;
  lastUpdated : Z;
}.
End AgentState.

(** What [JSON.stringify(this.state)] writes: the state with the case
    object written out in place of the reference to it. *)
Module SavedState.
Record t : Type := mk {
  case : option AthenaCase.t;
  evidence : list EvidenceRecord.t;
  escapePlan : option EscapePlan.t;
  vaultState : option VaultState.t;
  lastUpdated : Z;
}.
End SavedState.

(** An entry of the key-value store: the JSON text of an agent state, or
    any other text. *)
Inductive Item : Type :=
| StateJson (s : SavedState.t)
| Text (s : string).

(** The global [localStorage]: absent, present but refusing every access
    (each call throws), or a working store. *)
Inductive LocalStorage : Type :=
| Undefined
| Refusing
| Store (items : gmap string Item).

(** ** lib/athena-agent.ts: the [AthenaAgent] class *)

Module AthenaAgent.

Record t : Type := mk {
  state : AgentState.t;
  (** the case objects allocated so far; a reference is an index *)
  heap : list AthenaCase.t;
  fraxService : FraxService.t;
  localStorage : LocalStorage;
}.

Definition set_state (s : AgentState.t) (this : t) : t :=
  mk s (heap this) (fraxService this) (localStorage this).

Definition set_heap (h : list AthenaCase.t) (this : t) : t :=
  mk (state this) h (fraxService this) (localStorage this).

Definition set_fraxService (svc : FraxService.t) (this : t) : t :=
  mk (state this) (heap this) svc (localStorage this).

Definition set_localStorage (ls : LocalStorage) (this : t) : t :=
  mk (state this) (heap this) (fraxService this) ls.

Definition emptyState (now : Z) : AgentState.t :=
  {| AgentState.case := None;
     AgentState.evidence := [];
     AgentState.escapePlan := None;
     AgentState.vaultState := None;
     AgentState.lastUpdated := now |}.

(** *** State management *)

Definition stringify (this : t) : SavedState.t :=
  let s := state this in
  {| SavedState.case := c ← AgentState.case s; heap this !! c;
     SavedState.evidence := AgentState.evidence s;
     SavedState.escapePlan := AgentState.escapePlan s;
     SavedState.vaultState := AgentState.vaultState s;
     SavedState.lastUpdated := AgentState.lastUpdated s |}.

(** The three methods of [localStorage] the class calls. *)
Definition setItem (key : string) (value : Item) (ls : LocalStorage)
    : Completion LocalStorage :=
  match ls with
  | Store items => Normal (Store (<[key := value]> items))
  | Refusing => Throw (mkError "The operation is insecure.")
  | Undefined => Throw (mkError "localStorage is not defined")
  end.

Definition getItem (key : string) (ls : LocalStorage)
    : Completion (option Item) :=
  match ls with
  | Store items => Normal (items !! key)
  | Refusing => Throw (mkError "The operation is insecure.")
  | Undefined => Throw (mkError "localStorage is not defined")
  end.

Definition removeItem (key : string) (ls : LocalStorage)
    : Completion LocalStorage :=
  match ls with
  | Store items => Normal (Store (delete key items))
  | Refusing => Throw (mkError "The operation is insecure.")
  | Undefined => Throw (mkError "localStorage is not defined")
  end.

(** [typeof localStorage !== 'undefined'] *)
Definition defined (ls : LocalStorage) : bool :=
  match ls with Undefined => false | Refusing | Store _ => true end.

(** The store as a [try] block leaves it: a store that throws has not
    changed. *)
Definition settled (ls : LocalStorage) (attempt : Completion LocalStorage)
    : LocalStorage :=
  match attempt with Normal ls' => ls' | Throw _ => ls end.

Definition saveState (this : t) : t :=
  let ls := localStorage this in
  let attempt :=
    try_catch
      (if defined ls
       then setItem "athena_agent_state" (StateJson (stringify this)) ls
       else mret ls)
      (fun e => (* Storage might be unavailable *) mret ls) in
  set_localStorage (settled ls attempt) this.

(** [this.state = JSON.parse(saved)]: the parse builds fresh objects, so
    a saved case is allocated anew; text that does not parse throws. *)
Definition restore (saved : Item) (this : t) : Completion t :=
  match saved with
  | StateJson saved =>
      let h := heap this in
      let '(ref, h') :=
        match SavedState.case saved with
        | Some c => (Some (length h), h ++ [c])
        | None => (None, h)
        end in
      mret
        (set_heap h'
           (set_state
              {| AgentState.case := ref;
                 AgentState.evidence := SavedState.evidence saved;
                 AgentState.escapePlan := SavedState.escapePlan saved;
                 AgentState.vaultState := SavedState.vaultState saved;
                 AgentState.lastUpdated := SavedState.lastUpdated saved |}
              this))
  | Text _ => Throw (mkError "Unexpected token in JSON")
  end.

Definition loadState (this : t) : t :=
  let ls := localStorage this in
  let attempt :=
    try_catch
      (if defined ls then
         saved ← getItem "athena_agent_state" ls;
         match saved with
         | Some item => restore item this
         | None => mret this
         end
       else mret this)
      (fun e => (* Storage might be unavailable or corrupted *) mret this) in
  match attempt with Normal this' => this' | Throw _ => this end.

(** [new AthenaAgent()] over the shared ledger client. *)
Definition new (now : Z) (svc : FraxService.t) (ls : LocalStorage) : t :=
  loadState (mk (emptyState now) [] svc ls).

(** [clearLocalState] assigns the empty state, then removes the
    persisted copies inside a [try] whose [catch] ignores the error. *)
Definition clearLocalState (now : Z) (this : t) : Completion unit * t :=
  let this1 := set_state (emptyState now) this in
  let ls := localStorage this1 in
  let attempt :=
    try_catch
      (if defined ls then
         ls1 ← removeItem "athena_agent_state" ls;
         ls2 ← removeItem "athena_evidence" ls1;
         removeItem "athena_plan" ls2
       else mret ls)
      (fun e => (* Ignore storage errors *) mret ls) in
  match attempt with
  | Normal ls' => (Normal tt, set_localStorage ls' this1)
  | Throw e => (Throw e, this1)
  end.

(** *** Perception *)

Definition perceiveFinancialState (rt : Runtime) (ch : Chain) (now : Z)
    (this : t) : Completion VaultState.t * t :=
  match FraxService.getVaultState rt ch (fraxService this) with
  | Normal vaultState =>
      let s := state this in
      let s' :=
        AgentState.mk (AgentState.case s) (AgentState.evidence s)
          (AgentState.escapePlan s) (Some vaultState) now in
      (Normal vaultState, saveState (set_state s' this))
  | Throw e => (Throw e, this)
  end.

(** [{ ...this.state }]: a copy of the record, sharing what it refers
    to. *)
Definition getState (this : t) : AgentState.t := state this.

(** *** Reasoning and planning *)

(** [timestamp] is [Date.now()], [random36] is
    [Math.random().toString(36)]. *)
Definition createAnonymousCase (timestamp : Z) (random36 : string)
    (this : t) : CaseRef * t :=
  let randomPart := toUpperCase (substring 2 8 random36) in
  let caseId := "ATHENA-" +:+ pretty timestamp +:+ "-" +:+ randomPart in
  let depositAddress := FraxService.getAddress (fraxService this) in
  let newCase :=
    {| AthenaCase.caseId := caseId;
       AthenaCase.depositAddress := depositAddress;
       AthenaCase.createdAt := timestamp;
       AthenaCase.status := ACTIVE |} in
  let ref := length (heap this) in
  let s := state this in
  let s' :=
    AgentState.mk (Some ref) (AgentState.evidence s)
      (AgentState.escapePlan s) (AgentState.vaultState s)
      (AgentState.lastUpdated s) in
  (ref, saveState (set_state s' (set_heap (heap this ++ [newCase]) this))).

Module Params.
Record t : Type := mk {
  dependents : number;
  destination : string;
  hasOwnMoney : bool;
  riskLevel : number;
}.
End Params.

Definition criticalStrategy : Strategy.t :=
  {| Strategy.step1 :=
       "🚨 IMMEDIATE: Document any visible injuries and leave when safe.";
     Strategy.step2 :=
       "📞 Contact emergency services or trusted ally for extraction.";
     Strategy.step3 :=
       "🏃 Head directly to nearest safe shelter or family." |}.

Definition elevatedStrategy : Strategy.t :=
  {| Strategy.step1 :=
       "📝 Start collecting evidence discreetly (photos, messages).";
     Strategy.step2 :=
       "💰 Build freedom fund gradually - target ready in 2-4 weeks.";
     Strategy.step3 :=
       "🗺️ Plan exit route and coordinate with trusted contact." |}.

Definition moderateStrategy : Strategy.t :=
  {| Strategy.step1 :=
       "💭 Assess situation and identify safe communication methods.";
     Strategy.step2 :=
       "💰 Set up stealth savings - small amounts regularly.";
     Strategy.step3 :=
       "📋 Create long-term independence plan with support network." |}.

Definition calculateFreedomBudget (params : Params.t) (this : t)
    : EscapePlan.t * t :=
  let TRANSPORT_PER_PERSON : number := 30%float in
  let EMERGENCY_FOOD : number := 100%float in
  let TEMP_SHELTER_PER_NIGHT : number := 75%float in
  let NIGHTS_NEEDED : number :=
    if (8 <=? Params.riskLevel params)%float then 1%float else 3%float in
  let transportCost :=
    ((Params.dependents params + 1) * TRANSPORT_PER_PERSON)%float in
  let shelterCost :=
    if Params.hasOwnMoney params then 0%float
    else (TEMP_SHELTER_PER_NIGHT * NIGHTS_NEEDED)%float in
  let totalTarget := (transportCost + EMERGENCY_FOOD + shelterCost)%float in
  let strategy :=
    if (8 <=? Params.riskLevel params)%float then criticalStrategy
    else if (5 <=? Params.riskLevel params)%float then elevatedStrategy
    else moderateStrategy in
  let plan :=
    {| EscapePlan.isReady := false;
       EscapePlan.freedomGoal :=
         {| FreedomGoal.targetAmount := totalTarget;
            FreedomGoal.currentAmount :=
              match AgentState.vaultState (state this) with
              | Some v =>
                  if truthy_number (VaultState.totalValueUsd v)
                  then VaultState.totalValueUsd v else 0%float
              | None => 0%float
              end;
            FreedomGoal.currency := "USD" |};
       EscapePlan.strategy := strategy;
       EscapePlan.riskLevel := Params.riskLevel params;
       EscapePlan.destination :=
         if truthy_string (Params.destination params)
         then Params.destination params else "Nearest Safe City" |} in
  let s := state this in
  let s' :=
    AgentState.mk (AgentState.case s) (AgentState.evidence s)
      (Some plan) (AgentState.vaultState s) (AgentState.lastUpdated s) in
  (plan, saveState (set_state s' this)).

(** *** Action execution *)

(** What one call of [secureEvidence] draws from outside: the three
    readings of [Date.now()], in program order, the value of
    [Math.random().toString(36)], and the answers of the chain. *)
Module EvidenceEnv.
Record t : Type := mk {
  nowHash : Z;
  nowId : Z;
  random36 : string;
  nowStamp : Z;
  chain : Chain;
  entropy : Entropy;
}.
End EvidenceEnv.

Definition secureEvidence (rt : Runtime) (env : EvidenceEnv.t)
    (content : string) (type : EvidenceType) (metadata : option Metadata.t)
    (this : t) : Completion EvidenceRecord.t * t :=
  let hash := generateHash rt (content +:+ pretty (EvidenceEnv.nowHash env)) in
  let record :=
    {| EvidenceRecord.id :=
         "EVD-" +:+ pretty (EvidenceEnv.nowId env) +:+ "-"
         +:+ slice 2 6 (EvidenceEnv.random36 env);
       EvidenceRecord.hash := hash;
       EvidenceRecord.type := type;
       EvidenceRecord.timestamp := EvidenceEnv.nowStamp env;
       EvidenceRecord.txHash := None;
       EvidenceRecord.status := PENDING;
       EvidenceRecord.metadata := metadata |} in
  match
    FraxService.storeEvidenceHash (EvidenceEnv.chain env)
      (EvidenceEnv.entropy env) hash (JSON_stringify rt <$> metadata)
      (fraxService this)
  with
  | Throw e => (Throw e, this)
  | Normal result =>
      let record :=
        if TransactionResult.success result then
          EvidenceRecord.mk (EvidenceRecord.id record)
            (EvidenceRecord.hash record) (EvidenceRecord.type record)
            (EvidenceRecord.timestamp record)
            (Some (TransactionResult.txHash result)) ON_CHAIN
            (EvidenceRecord.metadata record)
        else
          EvidenceRecord.mk (EvidenceRecord.id record)
            (EvidenceRecord.hash record) (EvidenceRecord.type record)
            (EvidenceRecord.timestamp record)
            (EvidenceRecord.txHash record) FAILED
            (EvidenceRecord.metadata record) in
      let s := state this in
      let s' :=
        AgentState.mk (AgentState.case s)
          (AgentState.evidence s ++ [record])
          (AgentState.escapePlan s) (AgentState.vaultState s)
          (AgentState.lastUpdated s) in
      (Normal record, saveState (set_state s' this))
  end.

(** What one call of [optimizeYield] draws from outside: clock and chain
    at the first reading, at the deposit, and at the second reading. *)
Module YieldEnv.
Record t : Type := mk {
  nowBefore : Z;
  chainBefore : Chain;
  chainDeposit : Chain;
  entropy : Entropy;
  nowAfter : Z;
  chainAfter : Chain;
}.
End YieldEnv.

Definition optimizeYield (rt : Runtime) (env : YieldEnv.t) (this : t)
    : Completion YieldOptimizationResult.t * t :=
  match
    perceiveFinancialState rt (YieldEnv.chainBefore env)
      (YieldEnv.nowBefore env) this
  with
  | (Throw e, this1) => (Throw e, this1)
  | (Normal currentState, this1) =>
      if (VaultState.fraxBalance currentState <? 1)%float then
        (Normal
           {| YieldOptimizationResult.success := false;
              YieldOptimizationResult.previousBalance :=
                VaultState.sFraxBalance currentState;
              YieldOptimizationResult.newBalance :=
                VaultState.sFraxBalance currentState;
              YieldOptimizationResult.apy := VaultState.apy currentState;
              YieldOptimizationResult.projectedMonthlyYield := 0;
              YieldOptimizationResult.message :=
                "No idle FRAX available to stake" |},
         this1)
      else
        match
          FraxService.depositToVault rt (YieldEnv.chainDeposit env)
            (YieldEnv.entropy env) (VaultState.fraxBalance currentState)
            (fraxService this1)
        with
        | (Throw e, svc) => (Throw e, set_fraxService svc this1)
        | (Normal result, svc) =>
            let this2 := set_fraxService svc this1 in
            if TransactionResult.success result then
              match
                perceiveFinancialState rt (YieldEnv.chainAfter env)
                  (YieldEnv.nowAfter env) this2
              with
              | (Throw e, this3) => (Throw e, this3)
              | (Normal newState, this3) =>
                  let monthlyYield :=
                    (VaultState.sFraxBalance newState
                     * (VaultState.apy currentState / 100) / 12)%float in
                  (Normal
                     {| YieldOptimizationResult.success := true;
                        YieldOptimizationResult.previousBalance :=
                          VaultState.sFraxBalance currentState;
                        YieldOptimizationResult.newBalance :=
                          VaultState.sFraxBalance newState;
                        YieldOptimizationResult.apy :=
                          VaultState.apy currentState;
                        YieldOptimizationResult.projectedMonthlyYield :=
                          monthlyYield;
                        YieldOptimizationResult.message :=
                          "Optimized: +"
                          +:+ number_toFixed rt
                                (VaultState.fraxBalance currentState) 2
                          +:+ " FRAX staked at "
                          +:+ number_toString rt (VaultState.apy currentState)
                          +:+ "% APY" |},
                   this3)
              end
            else
              (Normal
                 {| YieldOptimizationResult.success := false;
                    YieldOptimizationResult.previousBalance :=
                      VaultState.sFraxBalance currentState;
                    YieldOptimizationResult.newBalance :=
                      VaultState.sFraxBalance currentState;
                    YieldOptimizationResult.apy := VaultState.apy currentState;
                    YieldOptimizationResult.projectedMonthlyYield := 0;
                    YieldOptimizationResult.message :=
                      TransactionResult.message result |},
               this2)
        end
  end.

(** [this.state.case.status = 'EVACUATED'], when there is a case: the
    write goes to the case object, whoever else refers to it. *)
Definition markEvacuated (this : t) : t :=
  match AgentState.case (state this) with
  | Some ref =>
      set_heap (alter (AthenaCase.set_status EVACUATED) ref (heap this)) this
  | None => this
  end.

(** [triggerSOS] over any behaviour of the ledger call, a throwing one
    included: the method has no [try] of its own.  [now] is the
    [Date.now()] of the wipe. *)
Definition triggerSOS_over
    (ledgerSOS : FraxService.t -> Completion SOSResult.t * FraxService.t)
    (now : Z) (this : t) : Completion SOSResult.t * t :=
  let this1 := markEvacuated this in
  match ledgerSOS (fraxService this1) with
  | (Throw e, svc) => (Throw e, set_fraxService svc this1)
  | (Normal result, svc) =>
      let this2 := set_fraxService svc this1 in
      if SOSResult.success result then
        match clearLocalState now this2 with
        | (Normal _, this3) => (Normal result, this3)
        | (Throw e, this3) => (Throw e, this3)
        end
      else (Normal result, this2)
  end.

Definition triggerSOS (rt : Runtime) (ch : Chain) (ent : Entropy) (now : Z)
    (safeContactAddress : string) (this : t) : Completion SOSResult.t * t :=
  triggerSOS_over (FraxService.triggerSOS rt ch ent safeContactAddress)
    now this.

Definition quickBalanceCheck (rt : Runtime) (ch : Chain) (now : Z)
    (this : t) : Completion (string * bool) * t :=
  match perceiveFinancialState rt ch now this with
  | (Throw e, this1) => (Throw e, this1)
  | (Normal v, this1) =>
      (Normal
         ("$" +:+ number_toFixed rt (VaultState.totalValueUsd v) 2,
          VaultState.isOnline v),
       this1)
  end.

(** The result is the pair of [percentage] and [donors]. *)
Definition getPoolStatus (rt : Runtime) (ch : Chain) (now : Z)
    (this : t) : Completion (number * number) * t :=
  match perceiveFinancialState rt ch now this with
  | (Throw e, this1) => (Throw e, this1)
  | (Normal v, this1) =>
      match AgentState.escapePlan (state this1) with
      | None => (Normal (0, 0)%float, this1)
      | Some plan =>
          let percentage :=
            Math_min rt
              (VaultState.totalValueUsd v
               / FreedomGoal.targetAmount (EscapePlan.freedomGoal plan)
               * 100)%float
              100%float in
          let donors := (Math_floor rt (percentage / 8) + 1)%float in
          (Normal (percentage, donors), this1)
      end
  end.

Definition isOnline (this : t) : bool :=
  FraxService.isOnline (fraxService this).

(** *** The exposed operations, as a transition system

    An operation comes with what it draws from outside; [step] is its
    effect on the agent. *)
Inductive Op : Type :=
| CreateAnonymousCase (timestamp : Z) (random36 : string)
| SecureEvidence (env : EvidenceEnv.t) (content : string)
    (type : EvidenceType) (metadata : option Metadata.t)
| CalculateFreedomBudget (params : Params.t)
| OptimizeYield (env : YieldEnv.t)
| TriggerSOS (ch : Chain) (ent : Entropy) (now : Z)
    (safeContactAddress : string)
| ClearLocalState (now : Z)
| GetState
| PerceiveFinancialState (ch : Chain) (now : Z)
| QuickBalanceCheck (ch : Chain) (now : Z)
| GetPoolStatus (ch : Chain) (now : Z)
| IsOnline.

Definition step (rt : Runtime) (op : Op) (this : t) : t :=
  match op with
  | CreateAnonymousCase timestamp random36 =>
      snd (createAnonymousCase timestamp random36 this)
  | SecureEvidence env content type metadata =>
      snd (secureEvidence rt env content type metadata this)
  | CalculateFreedomBudget params =>
      snd (calculateFreedomBudget params this)
  | OptimizeYield env => snd (optimizeYield rt env this)
  | TriggerSOS ch ent now safeContactAddress =>
      snd (triggerSOS rt ch ent now safeContactAddress this)
  | ClearLocalState now => snd (clearLocalState now this)
  | GetState => this
  | PerceiveFinancialState ch now =>
      snd (perceiveFinancialState rt ch now this)
  | QuickBalanceCheck ch now => snd (quickBalanceCheck rt ch now this)
  | GetPoolStatus ch now => snd (getPoolStatus rt ch now this)
  | IsOnline => this
  end.

Definition run (rt : Runtime) (ops : list Op) (this : t) : t :=
  foldl (fun a op => step rt op a) this ops.

End AthenaAgent.

(** ** A reference host

    An executable instance of [Runtime], used to run the program on
    concrete inputs.  Base units are converted exactly; a number prints as
    its exact decimal expansion, which is what JavaScript prints for the
    integers and the short binary fractions of the examples.  The digest
    is a placeholder of the right length: no property below depends on
    the bytes of a hash. *)

Module Host.

Definition float_of_Z (z : Z) : float :=
  SF2Prim (binary_normalize 53 1024 z 0 false).

(** The value of a finite float as [m * 2^e]. *)
Definition exact (x : float) : option (Z * Z) :=
  match Prim2SF x with
  | S754_zero _ => Some (0, 0)%Z
  | S754_finite s m e => Some (if s then Z.neg m else Z.pos m, e)
  | S754_infinity _ | S754_nan => None
  end.

Definition zeros (n : nat) : string :=
  join (replicate n "0").

(** The digits of [n], at least [width] of them. *)
Definition digits (width : nat) (n : Z) : string :=
  let s := pretty (Z.to_N n) in
  zeros (width - String.length s) +:+ s.

(** [n / 10^places] written with exactly [places] decimals. *)
Definition fixed (places : nat) (n : Z) : string :=
  let s := digits (S places) n in
  let k := (String.length s - places)%nat in
  match places with
  | O => s
  | S _ =>
      String.substring 0 k s +:+ "." +:+ String.substring k places s
  end.

Fixpoint strip_zeros_rev (cs : list ascii) : list ascii :=
  match cs with
  | c :: cs' => if Ascii.eqb c "0" then strip_zeros_rev cs' else cs
  | [] => []
  end.

(** Drop the trailing zeros of a fraction. *)
Definition strip_zeros (s : string) : string :=
  String.string_of_list_ascii
    (rev (strip_zeros_rev (rev (String.list_ascii_of_string s)))).

Definition toFixed (x : float) (places : nat) : string :=
  match exact x with
  | None => "NaN"
  | Some (m, e) =>
      let scaled := (Z.abs m * 10 ^ Z.of_nat places)%Z in
      let n :=
        if (0 <=? e)%Z then (scaled * 2 ^ e)%Z
        else ((2 * scaled + 2 ^ (- e)) / 2 ^ (1 - e))%Z in
      (if (x <? 0)%float then "-" else EmptyString) +:+ fixed places n
  end.

Definition toString (x : float) : string :=
  match exact x with
  | None => "NaN"
  | Some (m, e) =>
      let sign := if (m <? 0)%Z then "-" else EmptyString in
      if (0 <=? e)%Z then sign +:+ pretty (Z.to_N (Z.abs m * 2 ^ e))
      else
        let k := Z.to_nat (- e) in
        let s := fixed k (Z.abs m * 5 ^ (- e)) in
        let whole := String.substring 0 (String.length s - S k) s in
        let frac := strip_zeros (String.substring (String.length s - k) k s) in
        sign +:+ whole +:+
        match frac with EmptyString => EmptyString | _ => "." +:+ frac end
  end.

Definition digit_value (c : ascii) : option Z :=
  let n := Ascii.nat_of_ascii c in
  if (48 <=? n)%nat && (n <=? 57)%nat then Some (Z.of_nat (n - 48))
  else None.

Fixpoint read_digits (acc : Z) (s : string) : option Z :=
  match s with
  | EmptyString => Some acc
  | String c s' =>
      d ← digit_value c; read_digits (10 * acc + d) s'
  end.

(** Split [whole.frac] at the point. *)
Fixpoint split_point (s : string) : string * option string :=
  match s with
  | EmptyString => (EmptyString, None)
  | String c s' =>
      if Ascii.eqb c "." then (EmptyString, Some s')
      else let '(w, f) := split_point s' in (String c w, f)
  end.

(** An unsigned decimal as [n / 10^k]. *)
Definition read_decimal (s : string) : option (Z * nat) :=
  let '(w, f) := split_point s in
  let f := default EmptyString f in
  match w with
  | EmptyString => None
  | _ => n ← read_digits 0 (w +:+ f); Some (n, String.length f)
  end.

Definition read_signed (s : string) : option (bool * Z * nat) :=
  match s with
  | String "-" s' => '(n, k) ← read_decimal s'; Some (true, n, k)
  | _ => '(n, k) ← read_decimal s; Some (false, n, k)
  end.

Definition parseFloat (s : string) : float :=
  match read_signed s with
  | Some (neg, n, k) =>
      let x := (float_of_Z n / float_of_Z (10 ^ Z.of_nat k))%float in
      if neg then (- x)%float else x
  | None => nan
  end.

Definition formatUnits (value : Z) (decimals : nat) : string :=
  let s := fixed decimals (Z.abs value) in
  let k := (String.length s - S decimals)%nat in
  let frac := strip_zeros (String.substring (S k) decimals s) in
  (if (value <? 0)%Z then "-" else EmptyString) +:+ String.substring 0 k s
  +:+ "." +:+ match frac with EmptyString => "0" | _ => frac end.

Definition parseUnits (s : string) (decimals : nat) : Completion Z :=
  match read_signed s with
  | Some (neg, n, k) =>
      if (k <=? decimals)%nat then
        let v := (n * 10 ^ Z.of_nat (decimals - k))%Z in
        Normal (if neg then (- v)%Z else v)
      else Throw (mkError "too many decimals for format")
  | None => Throw (mkError "invalid FixedNumber string value")
  end.

Definition Wallet_address (privateKey : string) : Completion string :=
  if (String.length privateKey =? 66)%nat
  then Normal "0x1111111111111111111111111111111111111111"
  else Throw (mkError "invalid private key").

Definition floor (x : float) : float :=
  match exact x with
  | Some (m, e) =>
      if (0 <=? e)%Z then x else float_of_Z (m / 2 ^ (- e))
  | None => x
  end.

Definition min (x y : float) : float :=
  if PrimFloat.is_nan x || PrimFloat.is_nan y then nan
  else if (y <? x)%float then y else x.

Definition quoted (s : string) : string :=
  let q := String (Ascii.ascii_of_nat 34) EmptyString in
  q +:+ s +:+ q.

Definition stringify (m : Metadata.t) : string :=
  let field (k : string) (v : option string) : list string :=
    match v with
    | Some text => [quoted k +:+ ":" +:+ text]
    | None => []
    end in
  let fields :=
    field "category" (quoted <$> Metadata.category m)
    ++ field "riskLevel" (toString <$> Metadata.riskLevel m)
    ++ field "summary" (quoted <$> Metadata.summary m) in
  "{" +:+
  match fields with
  | [] => EmptyString
  | f :: fs => f +:+ join (map (fun g => "," +:+ g) fs)
  end +:+ "}".

End Host.

Definition host : Runtime :=
  {| number_toString := Host.toString;
     number_toFixed := Host.toFixed;
     parseFloat := Host.parseFloat;
     formatUnits := Host.formatUnits;
     parseUnits := Host.parseUnits;
     Wallet_address := Host.Wallet_address;
     sha256 := fun _ => replicate 32 0%N;
     JSON_stringify := Host.stringify;
     Math_floor := Host.floor;
     Math_min := Host.min |}.

(** ** Concrete worlds for the examples *)

Module Fixture.

Definition down {A} : Completion A := Throw (mkError "network error").

(** No endpoint answers. *)
Definition unreachable : Chain :=
  {| provider_getBlockNumber := down;
     sFrax_balanceOf := fun _ => down;
     sFrax_convertToAssets := fun _ => down;
     sFrax_deposit := fun _ _ => down;
     sFrax_redeem := fun _ _ _ => down;
     frax_balanceOf := fun _ => down;
     frax_approve := fun _ _ => down;
     frax_transfer := fun _ _ => down;
     usdc_balanceOf := fun _ => down;
     wallet_sendTransaction := fun _ _ _ => down |}.

Definition redeemHash : string :=
  "0xaaaaaaaaaaaaaaaaaaaaaaaaaaaaaaaaaaaaaaaaaaaaaaaaaaaaaaaaaaaaaaaa".

Definition transferHash : string :=
  "0xbbbbbbbbbbbbbbbbbbbbbbbbbbbbbbbbbbbbbbbbbbbbbbbbbbbbbbbbbbbbbbbb".

Definition otherHash : string :=
  "0xcccccccccccccccccccccccccccccccccccccccccccccccccccccccccccccccc".

Definition receipt (h : string) : Sent := Normal (Normal (Receipt.mk h)).

(** A wallet holding 500 shares worth 510 FRAX, 50 FRAX and 7 USDC, on a
    chain where every transaction is mined. *)
Definition funded : Chain :=
  {| provider_getBlockNumber := Normal 1%Z;
     sFrax_balanceOf := fun _ => Normal (500 * 10 ^ 18)%Z;
     sFrax_convertToAssets := fun shares => Normal (shares / 50 * 51)%Z;
     sFrax_deposit := fun _ _ => receipt otherHash;
     sFrax_redeem := fun _ _ _ => receipt redeemHash;
     frax_balanceOf := fun _ => Normal (50 * 10 ^ 18)%Z;
     frax_approve := fun _ _ => receipt otherHash;
     frax_transfer := fun _ _ => receipt transferHash;
     usdc_balanceOf := fun _ => Normal (7 * 10 ^ 6)%Z;
     wallet_sendTransaction := fun _ _ _ => receipt otherHash |}.

(** The same, but the transfer is rejected when sent. *)
Definition transferRejected : Chain :=
  {| provider_getBlockNumber := provider_getBlockNumber funded;
     sFrax_balanceOf := sFrax_balanceOf funded;
     sFrax_convertToAssets := sFrax_convertToAssets funded;
     sFrax_deposit := sFrax_deposit funded;
     sFrax_redeem := sFrax_redeem funded;
     frax_balanceOf := frax_balanceOf funded;
     frax_approve := frax_approve funded;
     frax_transfer := fun _ _ => Throw (mkError "execution reverted");
     usdc_balanceOf := usdc_balanceOf funded;
     wallet_sendTransaction := wallet_sendTransaction funded |}.

(** The same, but the balance queries fail. *)
Definition readFails : Chain :=
  {| provider_getBlockNumber := provider_getBlockNumber funded;
     sFrax_balanceOf := fun _ => down;
     sFrax_convertToAssets := sFrax_convertToAssets funded;
     sFrax_deposit := sFrax_deposit funded;
     sFrax_redeem := sFrax_redeem funded;
     frax_balanceOf := frax_balanceOf funded;
     frax_approve := frax_approve funded;
     frax_transfer := frax_transfer funded;
     usdc_balanceOf := usdc_balanceOf funded;
     wallet_sendTransaction := wallet_sendTransaction funded |}.

Definition entropy : Entropy :=
  {| Math_random_hex := fun i => hexdigit_of_N (N.of_nat i mod 16);
     crypto_randomUUID :=
       fun _ => Normal "123e4567-e89b-42d3-a456-426614174000" |}.

Definition privateKey : string :=
  "0x0123456789abcdef0123456789abcdef0123456789abcdef0123456789abcdef".

Definition safeContact : string := "0xABC0000000000000000000000000000000000def".

(** A client that was never given a key, and one whose connection went
    through. *)
Definition offline : FraxService.t :=
  FraxService.new host unreachable 0 None (Some FraxService.fraxtal).

Definition online : FraxService.t :=
  FraxService.new host funded 0 (Some privateKey) (Some FraxService.fraxtal).

(** A fresh agent over an empty store, and the same after a case was
    opened, evidence secured and a plan computed. *)
Definition fresh : AthenaAgent.t :=
  AthenaAgent.new 0 online (Store ∅).

Definition evidenceEnv : AthenaAgent.EvidenceEnv.t :=
  {| AthenaAgent.EvidenceEnv.nowHash := 1700000000100;
     AthenaAgent.EvidenceEnv.nowId := 1700000000101;
     AthenaAgent.EvidenceEnv.random36 := "0.8f3kq0zt1v";
     AthenaAgent.EvidenceEnv.nowStamp := 1700000000102;
     AthenaAgent.EvidenceEnv.chain := funded;
     AthenaAgent.EvidenceEnv.entropy := entropy |}.

Definition evidenceEnvDown : AthenaAgent.EvidenceEnv.t :=
  {| AthenaAgent.EvidenceEnv.nowHash := 1700000000200;
     AthenaAgent.EvidenceEnv.nowId := 1700000000201;
     AthenaAgent.EvidenceEnv.random36 := "0.p2w9c4mxa7";
     AthenaAgent.EvidenceEnv.nowStamp := 1700000000202;
     AthenaAgent.EvidenceEnv.chain := unreachable;
     AthenaAgent.EvidenceEnv.entropy := entropy |}.

Definition springfield : AthenaAgent.Params.t :=
  AthenaAgent.Params.mk 2 "Springfield" false 9.

Definition engaged : AthenaAgent.t :=
  AthenaAgent.run host
    [AthenaAgent.CreateAnonymousCase 1700000000000 "0.k3j5h2m1xw";
     AthenaAgent.SecureEvidence evidenceEnv "he took my phone" TEXT None;
     AthenaAgent.CalculateFreedomBudget springfield]
    fresh.

(** The same agent after an SOS whose transfer was rejected, and what the
    user does next. *)
Definition evacuated : AthenaAgent.t :=
  snd (AthenaAgent.triggerSOS host transferRejected entropy 5 safeContact
         engaged).

Definition later : list AthenaAgent.Op :=
  [AthenaAgent.GetState;
   AthenaAgent.SecureEvidence evidenceEnvDown "second note" TEXT None;
   AthenaAgent.TriggerSOS funded entropy 9 safeContact;
   AthenaAgent.CreateAnonymousCase 1700000005000 "0.zzq81kd02m";
   AthenaAgent.ClearLocalState 10;
   AthenaAgent.CreateAnonymousCase 1700000009000 "0.c7h2n5b9yx"].

End Fixture.

(** ** Vocabulary of the specification *)

(** Every numeric field of a vault state is zero. *)
Definition allNumericFieldsZero (v : VaultState.t) : Prop :=
  VaultState.sFraxBalance v = 0%float
  /\ VaultState.sFraxValueInFrax v = 0%float
  /\ VaultState.fraxBalance v = 0%float
  /\ VaultState.usdcBalance v = 0%float
  /\ VaultState.totalValueUsd v = 0%float
  /\ VaultState.apy v = 0%float.

(** No numeric field of a vault state is [NaN]. *)
Definition noFieldNaN (v : VaultState.t) : Prop :=
  PrimFloat.is_nan (VaultState.sFraxBalance v) = false
  /\ PrimFloat.is_nan (VaultState.sFraxValueInFrax v) = false
  /\ PrimFloat.is_nan (VaultState.fraxBalance v) = false
  /\ PrimFloat.is_nan (VaultState.usdcBalance v) = false
  /\ PrimFloat.is_nan (VaultState.totalValueUsd v) = false
  /\ PrimFloat.is_nan (VaultState.apy v) = false.

(** The snapshot handed out when there is no live reading. *)
Definition offlineSnapshot : VaultState.t :=
  {| VaultState.sFraxBalance := 0;
     VaultState.sFraxValueInFrax := 0;
     VaultState.fraxBalance := 0;
     VaultState.usdcBalance := 0;
     VaultState.totalValueUsd := 0;
     VaultState.apy := 5.4;
     VaultState.isOnline := false;
     VaultState.network := "Not Connected" |}.

(** The journal of an SOS run after the balance line, when it read [v]. *)
Definition afterReading (rt : Runtime) (v : VaultState.t)
    : FraxService.Journal :=
  FraxService.mkJournal
    (FraxService.logs FraxService.journal0 ++
     ["Balance detected: "
      +:+ number_toFixed rt (VaultState.sFraxBalance v) 2 +:+ " sFRAX"])
    [].

(** The amount an SOS run transfers, when it read [v]. *)
Definition totalOf (v : VaultState.t) : number :=
  (VaultState.sFraxValueInFrax v + VaultState.fraxBalance v)%float.

(** The demo marker of a simulated result. *)
Definition demoMarked (r : TransactionResult.t) : bool :=
  String.prefix "[DEMO]" (TransactionResult.message r).

(** A test on transaction ids tells the id of the simulated result [sim]
    from the id of the live result [live]. *)
Definition tellsApart (test : string -> bool) (sim live : TransactionResult.t)
    : Prop :=
  test (TransactionResult.txHash sim) = true
  /\ test (TransactionResult.txHash live) = false.

(** The three risk tiers of the strategy selection. *)
Inductive Tier : Type := Critical | Elevated | Moderate.

Definition strategyOf (tier : Tier) : Strategy.t :=
  match tier with
  | Critical => AthenaAgent.criticalStrategy
  | Elevated => AthenaAgent.elevatedStrategy
  | Moderate => AthenaAgent.moderateStrategy
  end.

(** The agent state is empty: no case, no evidence, no plan, no vault
    snapshot. *)
Definition isEmpty (s : AgentState.t) : Prop :=
  AgentState.case s = None
  /\ AgentState.evidence s = []
  /\ AgentState.escapePlan s = None
  /\ AgentState.vaultState s = None.

(** A lifecycle status stays, or moves from [ACTIVE] to [EVACUATED]. *)
Definition forward (before after : CaseStatus) : Prop :=
  after = before \/ (before = ACTIVE /\ after = EVACUATED).

(** A case object keeps its identity; its status stays or becomes
    [EVACUATED]. *)
Definition caseEvolves (c c' : AthenaCase.t) : Prop :=
  AthenaCase.caseId c' = AthenaCase.caseId c
  /\ AthenaCase.depositAddress c' = AthenaCase.depositAddress c
  /\ AthenaCase.createdAt c' = AthenaCase.createdAt c
  /\ (AthenaCase.status c' = AthenaCase.status c
      \/ AthenaCase.status c' = EVACUATED).

(** Every case object of [h] is still there in [h'], evolved. *)
Definition heapEvolves (h h' : list AthenaCase.t) : Prop :=
  forall (ref : CaseRef) (c : AthenaCase.t),
    h !! ref = Some c -> exists c', h' !! ref = Some c' /\ caseEvolves c c'.

(** ** lib/adk-agent.backend.ts: the tool functions

    The functions given to the language-model agent as tools.  They work
    on the shared ledger client. *)

Module Backend.

Module Budget.
Record t : Type := mk {
  targetAmount : number;
  breakdown : string;
  urgency : string;
}.
End Budget.

Definition getVaultBalance (rt : Runtime) (ch : Chain)
    (fraxService : FraxService.t) : Completion VaultState.t :=
  FraxService.getVaultState rt ch fraxService.

Definition calculateBudget (rt : Runtime) (params : AthenaAgent.Params.t)
    : Budget.t :=
  let dependents := AthenaAgent.Params.dependents params in
  let riskLevel := AthenaAgent.Params.riskLevel params in
  let TRANSPORT_PER_PERSON : number := 30%float in
  let EMERGENCY_FOOD : number := 100%float in
  let TEMP_SHELTER_PER_NIGHT : number := 75%float in
  let NIGHTS_NEEDED : number :=
    if (8 <=? riskLevel)%float then 1%float else 3%float in
  let transportCost := ((dependents + 1) * TRANSPORT_PER_PERSON)%float in
  let shelterCost :=
    if AthenaAgent.Params.hasOwnMoney params then 0%float
    else (TEMP_SHELTER_PER_NIGHT * NIGHTS_NEEDED)%float in
  let totalTarget := (transportCost + EMERGENCY_FOOD + shelterCost)%float in
  let breakdown :=
    "Transport: $" +:+ number_toString rt transportCost +:+ " ("
    +:+ number_toString rt (dependents + 1)%float +:+ " people), Food: $"
    +:+ number_toString rt EMERGENCY_FOOD +:+ ", Shelter: $"
    +:+ number_toString rt shelterCost in
  let urgency :=
    if (8 <=? riskLevel)%float then "CRITICAL - Immediate action required"
    else if (5 <=? riskLevel)%float then "HIGH - Plan within 2 weeks"
    else "MODERATE - Build savings gradually" in
  {| Budget.targetAmount := totalTarget;
     Budget.breakdown := breakdown;
     Budget.urgency := urgency |}.

Module Secured.
Record t : Type := mk {
  hash : string;
  status : string;
}.
End Secured.

(** [now] is [Date.now()]. *)
Definition secureEvidence (rt : Runtime) (ch : Chain) (ent : Entropy)
    (now : Z) (description type : string) (fraxService : FraxService.t)
    : Completion Secured.t :=
  let content := type +:+ ": " +:+ description +:+ " | " +:+ pretty now in
  let hash := generateHash rt content in
  result ← FraxService.storeEvidenceHash ch ent hash None fraxService;
  mret
    {| Secured.hash :=
         if truthy_string (TransactionResult.txHash result)
         then TransactionResult.txHash result else hash;
       Secured.status :=
         if TransactionResult.success result then "SECURED_ON_CHAIN"
         else "PENDING_SYNC" |}.

Module Emergency.
Record t : Type := mk {
  success : bool;
  message : string;
}.
End Emergency.


End Backend.

(** ** lib/useAthenaAgent.ts: the React hook

    The hook keeps three pieces of React state beside the agent it wraps:
    a copy of the agent state, the last vault state and a loading flag.
    An action is modelled by the values its setters were last called
    with when it completes; [try ... finally] runs its last block on a
    throw as well. *)

Module Hook.

Record t : Type := mk {
  agent : AthenaAgent.t;
  agentState : AgentState.t;
  vaultState : option VaultState.t;
  isLoading : bool;
}.

(** The initial render: [useState(agent.getState())], no vault state, not
    loading. *)
Definition mount (agent : AthenaAgent.t) : t :=
  mk agent (AthenaAgent.getState agent) None false.

(** The effect that runs after the first render. *)
Definition init (rt : Runtime) (ch : Chain) (now : Z) (h : t) : t :=
  match AthenaAgent.perceiveFinancialState rt ch now (agent h) with
  | (Normal state, agent') =>
      mk agent' (AthenaAgent.getState agent') (Some state) false
  | (Throw e, agent') =>
      mk agent' (agentState h) (vaultState h) false
  end.

(** One tick of the 30-second interval. *)
Definition autoRefresh (rt : Runtime) (ch : Chain) (now : Z) (h : t) : t :=
  match AthenaAgent.perceiveFinancialState rt ch now (agent h) with
  | (Normal state, agent') =>
      mk agent' (agentState h) (Some state) (isLoading h)
  | (Throw e, agent') =>
      mk agent' (agentState h) (vaultState h) (isLoading h)
  end.

Definition refreshVaultState (rt : Runtime) (ch : Chain) (now : Z) (h : t)
    : Completion VaultState.t * t :=
  match AthenaAgent.perceiveFinancialState rt ch now (agent h) with
  | (Normal state, agent') =>
      (Normal state,
       mk agent' (AthenaAgent.getState agent') (Some state) false)
  | (Throw e, agent') =>
      (Throw e, mk agent' (agentState h) (vaultState h) false)
  end.

Definition createCase (timestamp : Z) (random36 : string) (h : t)
    : Completion unit * t :=
  let '(_, agent') :=
    AthenaAgent.createAnonymousCase timestamp random36 (agent h) in
  (Normal tt,
   mk agent' (AthenaAgent.getState agent') (vaultState h) (isLoading h)).

Definition secureEvidence (rt : Runtime) (env : AthenaAgent.EvidenceEnv.t)
    (content : string) (type : EvidenceType) (metadata : option Metadata.t)
    (h : t) : Completion EvidenceRecord.t * t :=
  match
    AthenaAgent.secureEvidence rt env content type metadata (agent h)
  with
  | (Normal record, agent') =>
      (Normal record,
       mk agent' (AthenaAgent.getState agent') (vaultState h) false)
  | (Throw e, agent') =>
      (Throw e, mk agent' (agentState h) (vaultState h) false)
  end.

(** [chRefresh] and [nowRefresh] answer the refresh that follows the
    agent's own run. *)
Definition optimizeYield (rt : Runtime) (env : AthenaAgent.YieldEnv.t)
    (chRefresh : Chain) (nowRefresh : Z) (h : t)
    : Completion YieldOptimizationResult.t * t :=
  match AthenaAgent.optimizeYield rt env (agent h) with
  | (Normal result, agent') =>
      let h1 := mk agent' (agentState h) (vaultState h) true in
      match refreshVaultState rt chRefresh nowRefresh h1 with
      | (Normal _, h2) =>
          (Normal result,
           mk (agent h2) (agentState h2) (vaultState h2) false)
      | (Throw e, h2) =>
          (Throw e, mk (agent h2) (agentState h2) (vaultState h2) false)
      end
  | (Throw e, agent') =>
      (Throw e, mk agent' (agentState h) (vaultState h) false)
  end.

Definition triggerSOS (rt : Runtime) (ch : Chain) (ent : Entropy) (now : Z)
    (address : string) (h : t) : Completion SOSResult.t * t :=
  match AthenaAgent.triggerSOS rt ch ent now address (agent h) with
  | (Normal result, agent') =>
      (Normal result,
       mk agent' (AthenaAgent.getState agent') None (isLoading h))
  | (Throw e, agent') =>
      (Throw e, mk agent' (agentState h) (vaultState h) (isLoading h))
  end.

Definition calculateBudget (params : AthenaAgent.Params.t) (h : t)
    : EscapePlan.t * t :=
  let '(plan, agent') :=
    AthenaAgent.calculateFreedomBudget params (agent h) in
  (plan,
   mk agent' (AthenaAgent.getState agent') (vaultState h) (isLoading h)).

Definition quickBalance (rt : Runtime) (ch : Chain) (now : Z) (h : t)
    : Completion string * t :=
  match AthenaAgent.quickBalanceCheck rt ch now (agent h) with
  | (Normal (balance, _), agent') =>
      (Normal balance,
       mk agent' (agentState h) (vaultState h) (isLoading h))
  | (Throw e, agent') =>
      (Throw e, mk agent' (agentState h) (vaultState h) (isLoading h))
  end.

Definition clearState (now : Z) (h : t) : Completion unit * t :=
  match AthenaAgent.clearLocalState now (agent h) with
  | (Normal _, agent') =>
      (Normal tt,
       mk agent' (AthenaAgent.getState agent') None (isLoading h))
  | (Throw e, agent') =>
      (Throw e, mk agent' (agentState h) (vaultState h) (isLoading h))
  end.

End Hook.

(** ** components/PanicButton.tsx: the destination of the SOS *)

Module SafeContact.
Record t : Type := mk {
  name : string;
  method : string;
  addressOrDetails : string;
}.
End SafeContact.

Module PanicButton.

(** [safeContact?.addressOrDetails || '0x742d...'] *)
Definition destinationAddress (safeContact : option SafeContact.t) : string :=
  match safeContact with
  | Some contact =>
      if truthy_string (SafeContact.addressOrDetails contact)
      then SafeContact.addressOrDetails contact
      else "0x742d35Cc6634C0532925a3b844Bc454e4438f44e"
  | None => "0x742d35Cc6634C0532925a3b844Bc454e4438f44e"
  end.

End PanicButton.

(** ** App.tsx: the commands of the calculator

    [handleCommand] acts on the agent and on three pieces of React state;
    what it hands to [setTimeout] is recorded with its delay. *)

Module App.

Inductive AppMode : Type := CALCULATOR | AGENT_DASHBOARD | ONBOARDING_CHAT.

(** A callback given to [setTimeout]. *)
Inductive Deferred : Type :=
| SetMode (mode : AppMode)
| ClearFlash.

Record t : Type := mk {
  mode : AppMode;
  initialTab : string;
  flashMsg : option string;
  timers : list (Z * Deferred);
}.

Definition start : t := mk CALCULATOR "HOME" None [].

(** What one command may draw from outside: clock, randomness and chain. *)
Module Env.
Record t : Type := mk {
  now : Z;
  random36 : string;
  chain : Chain;
}.
End Env.

Definition later (delay : Z) (d : Deferred) (ui : t) : t :=
  mk (mode ui) (initialTab ui) (flashMsg ui) (timers ui ++ [(delay, d)]).

Definition handleCommand (rt : Runtime) (env : Env.t) (cmd : string)
    (ui : t) (agent : AthenaAgent.t) : t * AthenaAgent.t :=
  if String.eqb cmd "GENESIS" then
    let agentState := AthenaAgent.getState agent in
    let agent' :=
      match AgentState.case agentState with
      | None =>
          snd (AthenaAgent.createAnonymousCase (Env.now env)
                 (Env.random36 env) agent)
      | Some _ => agent
      end in
    (later 300 (SetMode AGENT_DASHBOARD)
       (mk ONBOARDING_CHAT "PLAN" (flashMsg ui) (timers ui)),
     agent')
  else if String.eqb cmd "LOGIN" then
    (later 300 (SetMode AGENT_DASHBOARD)
       (mk (mode ui) "HOME" (flashMsg ui) (timers ui)),
     agent)
  else if String.eqb cmd "FLASH_CHECK" then
    let '(outcome, agent') :=
      AthenaAgent.quickBalanceCheck rt (Env.chain env) (Env.now env) agent in
    let flash :=
      match outcome with
      | Normal (balance, _) => balance
      | Throw _ => "$---.--"
      end in
    (later 3000 ClearFlash
       (mk (mode ui) (initialTab ui) (Some flash) (timers ui)),
     agent')
  else if String.eqb cmd "POOL_STATUS" then
    let '(outcome, agent') :=
      AthenaAgent.getPoolStatus rt (Env.chain env) (Env.now env) agent in
    let flash :=
      match outcome with
      | Normal (percentage, _) =>
          "Pool: " +:+ number_toFixed rt percentage 0 +:+ "%"
      | Throw _ => "Pool: 0%"
      end in
    (later 3000 ClearFlash
       (mk (mode ui) (initialTab ui) (Some flash) (timers ui)),
     agent')
  else if String.eqb cmd "SOS" then
    (later 2000 ClearFlash
       (mk (mode ui) (initialTab ui) (Some "⚠️ ALERT SENT") (timers ui)),
     agent)
  else if String.eqb cmd "WIPE" then
    match AthenaAgent.clearLocalState (Env.now env) agent with
    | (Normal _, agent') =>
        (later 2000 ClearFlash
           (mk CALCULATOR (initialTab ui) (Some "CACHE CLEARED") (timers ui)),
         agent')
    | (Throw _, agent') => (ui, agent')
    end
  else (ui, agent).

End App.

(** ** components/Calculator.tsx: the keypad

    [handlePress] works on the display and on a buffer of the keys
    pressed; it may call [onCommand].  The arithmetic itself is left to
    [eval], which is taken from the host. *)

Module Calculator.

Record t : Type := mk {
  display : string;
  inputBuffer : string;
  showManual : bool;
}.

Definition start : t := mk "0" EmptyString false.

(** [s.endsWith(suffix)] *)
Definition endsWith (suffix s : string) : bool :=
  String.prefix
    (String.string_of_list_ascii (rev (String.list_ascii_of_string suffix)))
    (String.string_of_list_ascii (rev (String.list_ascii_of_string s))).

(** [s.replace(/pat/g, rep)] for a non-empty literal pattern: [skip]
    counts the characters of a match still to be dropped. *)
Fixpoint replaceFrom (pat rep : string) (skip : nat) (s : string) : string :=
  match s with
  | EmptyString => EmptyString
  | String c s' =>
      match skip with
      | S k => replaceFrom pat rep k s'
      | O =>
          if String.prefix pat s
          then rep +:+ replaceFrom pat rep (String.length pat - 1) s'
          else String c (replaceFrom pat rep 0 s')
      end
  end.

Definition replaceAll (pat rep s : string) : string :=
  replaceFrom pat rep 0 s.

(** The expression handed to [eval]. *)
Definition expressionOf (display : string) : string :=
  replaceAll "%" "/100" (replaceAll "÷" "/" (replaceAll "x" "*" display)).

(** The result of a press: the new state and the command given to
    [onCommand], if any.  [eval] answers [eval(expression).toString()]. *)
Definition handlePress (eval : string -> Completion string) (val : string)
    (st : t) : t * option string :=
  let newBuffer := inputBuffer st +:+ val in
  if String.eqb val "." && endsWith ".." (display st) then
    (mk "0" EmptyString (showManual st), Some "WIPE")
  else if String.eqb val "C" then
    (mk "0" EmptyString (showManual st), None)
  else if String.eqb val "=" then
    if String.eqb newBuffer "%=" || String.eqb (display st) "%" then
      (mk "0" EmptyString (negb (showManual st)), None)
    else if String.eqb newBuffer "1+1=" then (st, Some "GENESIS")
    else if String.eqb newBuffer "1999=" then (st, Some "LOGIN")
    else if String.eqb newBuffer "9÷11=" then
      (mk "0" EmptyString (showManual st), Some "FLASH_CHECK")
    else if String.eqb newBuffer "0÷0=" then
      (mk "Error" EmptyString (showManual st), Some "SOS")
    else if String.eqb newBuffer "7x7=" then
      (mk "0" EmptyString (showManual st), Some "POOL_STATUS")
    else
      let newDisplay :=
        match eval (expressionOf (display st)) with
        | Normal text => text
        | Throw _ => "Error"
        end in
      (mk newDisplay newBuffer (showManual st), None)
  else
    let newDisplay :=
      if String.eqb (display st) "0" || String.eqb (display st) "Error"
      then val else display st +:+ val in
    (mk newDisplay newBuffer (showManual st), None).

(** A run of presses: the final state and the commands given, in order. *)
Fixpoint pressAll (eval : string -> Completion string) (keys : list string)
    (st : t) : t * list string :=
  match keys with
  | [] => (st, [])
  | key :: keys' =>
      let '(st1, cmd) := handlePress eval key st in
      let '(st2, cmds) := pressAll eval keys' st1 in
      (st2, match cmd with Some c => c :: cmds | None => cmds end)
  end.

(** The keys that spell the strings the buffer is compared with. *)
Definition commandKeys : list (string * list string) :=
  [("GENESIS", ["1"; "+"; "1"; "="]);
   ("LOGIN", ["1"; "9"; "9"; "9"; "="]);
   ("FLASH_CHECK", ["9"; "÷"; "1"; "1"; "="]);
   ("SOS", ["0"; "÷"; "0"; "="]);
   ("POOL_STATUS", ["7"; "x"; "7"; "="])].

End Calculator.

(** ** lib/ipfs-service.ts: uploads through the pinning service *)

Module Ipfs.

Definition PINATA_API_URL : string := "https://api.pinata.cloud".
Definition PINATA_GATEWAY : string := "https://gateway.pinata.cloud/ipfs".
Definition PUBLIC_GATEWAY : string := "https://ipfs.io/ipfs".

Module IPFSUploadResult.
Record t : Type := mk {
  success : bool;
  cid : string;
  ipfsUrl : string;
  gatewayUrl : string;
  size : number;
  timestamp : Z;
  error : option string;
}.
End IPFSUploadResult.

Module EvidenceMetadata.
Record t : Type := mk {
  type : EvidenceType;
  description : string;
  timestamp : Z;
  caseId : option string;
  hash : option string;
}.
End EvidenceMetadata.

(** A [File] or [Blob]: its bytes and its MIME type. *)
Module Blob.
Record t : Type := mk {
  bytes : string;
  type : string;
}.
End Blob.

(** The object given to [JSON.stringify] for the [pinataMetadata] part
    of the form. *)
Module PinataMetadata.
Record t : Type := mk {
  name : string;
  type : EvidenceType;
  description : string;
  timestamp : string;
  caseId : string;
}.
End PinataMetadata.

(** The POST of [uploadToIPFS]: address, bearer token and form. *)
Module Request.
Record t : Type := mk {
  url : string;
  authorization : string;
  file : Blob.t;
  pinataMetadata : PinataMetadata.t;
  cidVersion : Z;
}.
End Request.

(** The answer to it: [response.ok], [response.text()] and, of
    [response.json()], the fields [IpfsHash] and [PinSize]. *)
Module Response.
Record t : Type := mk {
  ok : bool;
  text : Completion string;
  json : Completion (string * number);
}.
End Response.

(** What the module draws from outside. *)
Module Env.
Record t : Type := mk {
  (** [import.meta.env?.VITE_PINATA_JWT] *)
  VITE_PINATA_JWT : option string;
  fetch : Request.t -> Completion Response.t;
  (** the GET of [checkPinStatus], by address and bearer token: the
      field [count] of the parsed answer *)
  fetchPinCount : string -> string -> Completion number;
  (** [Date.now()] in the name of the pin, and [new Date()] *)
  nowName : Z;
  nowResult : Z;
  (** the i-th value of [Math.floor(Math.random() * 62)] *)
  Math_random_62 : nat -> nat;
  (** [Math.floor(Math.random() * 100000)] *)
  Math_random_size : number;
  (** [atob] *)
  atob : string -> Completion string;
}.
End Env.

Definition getPinataJWT (env : Env.t) : option string :=
  match Env.VITE_PINATA_JWT env with
  | Some jwt => if truthy_string jwt then Some jwt else None
  | None => None
  end.

Definition alphabet : string :=
  "ABCDEFGHIJKLMNOPQRSTUVWXYZabcdefghijklmnopqrstuvwxyz0123456789".

(** [s.charAt(i)]: empty when out of range. *)
Definition charAt (i : nat) (s : string) : string :=
  match String.get i s with
  | Some c => String c EmptyString
  | None => EmptyString
  end.

Definition generateDemoResult (env : Env.t) (metadata : EvidenceMetadata.t)
    : IPFSUploadResult.t :=
  let fakeCid :=
    "Qm" +:+
    join (map (fun i => charAt (Env.Math_random_62 env i) alphabet)
              (seq 0 44)) in
  {| IPFSUploadResult.success := true;
     IPFSUploadResult.cid := fakeCid;
     IPFSUploadResult.ipfsUrl := "ipfs://" +:+ fakeCid;
     IPFSUploadResult.gatewayUrl := PUBLIC_GATEWAY +:+ "/" +:+ fakeCid;
     IPFSUploadResult.size := (Env.Math_random_size env + 1000)%float;
     IPFSUploadResult.timestamp := Env.nowResult env;
     IPFSUploadResult.error := None |}.

Definition requestOf (env : Env.t) (jwt : string) (file : Blob.t)
    (metadata : EvidenceMetadata.t) : Request.t :=
  {| Request.url := PINATA_API_URL +:+ "/pinning/pinFileToIPFS";
     Request.authorization := "Bearer " +:+ jwt;
     Request.file := file;
     Request.pinataMetadata :=
       {| PinataMetadata.name :=
            "athena-evidence-" +:+ pretty (Env.nowName env);
          PinataMetadata.type := EvidenceMetadata.type metadata;
          PinataMetadata.description :=
            substring 0 100 (EvidenceMetadata.description metadata);
          PinataMetadata.timestamp :=
            pretty (EvidenceMetadata.timestamp metadata);
          PinataMetadata.caseId :=
            match EvidenceMetadata.caseId metadata with
            | Some id => if truthy_string id then id else "anonymous"
            | None => "anonymous"
            end |};
     Request.cidVersion := 1 |}.

Definition uploadToIPFS (env : Env.t) (file : Blob.t)
    (metadata : EvidenceMetadata.t) : Completion IPFSUploadResult.t :=
  match getPinataJWT env with
  | None => mret (generateDemoResult env metadata)
  | Some jwt =>
      try_catch
        (response ← Env.fetch env (requestOf env jwt file metadata);
         _ ← (if Response.ok response then mret tt
              else
                error ← Response.text response;
                Throw (mkError ("Pinata upload failed: " +:+ error)));
         result ← Response.json response;
         let cid := fst result in
         mret
           {| IPFSUploadResult.success := true;
              IPFSUploadResult.cid := cid;
              IPFSUploadResult.ipfsUrl := "ipfs://" +:+ cid;
              IPFSUploadResult.gatewayUrl := PUBLIC_GATEWAY +:+ "/" +:+ cid;
              IPFSUploadResult.size := snd result;
              IPFSUploadResult.timestamp := Env.nowResult env;
              IPFSUploadResult.error := None |})
        (fun error =>
           mret
             {| IPFSUploadResult.success := false;
                IPFSUploadResult.cid := EmptyString;
                IPFSUploadResult.ipfsUrl := EmptyString;
                IPFSUploadResult.gatewayUrl := EmptyString;
                IPFSUploadResult.size := 0;
                IPFSUploadResult.timestamp := Env.nowResult env;
                IPFSUploadResult.error := Some (message error) |})
  end.

Definition uploadTextToIPFS (env : Env.t) (text : string)
    (metadata : EvidenceMetadata.t) : Completion IPFSUploadResult.t :=
  uploadToIPFS env (Blob.mk text "text/plain") metadata.

(** [s.split(',')] *)
Fixpoint split_comma (s : string) : list string :=
  match s with
  | EmptyString => [EmptyString]
  | String c s' =>
      if Ascii.eqb c ","
      then EmptyString :: split_comma s'
      else
        match split_comma s' with
        | piece :: pieces => String c piece :: pieces
        | [] => [String c EmptyString]
        end
  end.

(** [base64Data.split(',')[1] || base64Data] *)
Definition payloadOf (base64Data : string) : string :=
  match split_comma base64Data !! 1%nat with
  | Some piece => if truthy_string piece then piece else base64Data
  | None => base64Data
  end.

(** The decoding is outside any [try]: a throw of [atob] leaves the
    function. *)
Definition uploadBase64ToIPFS (env : Env.t) (base64Data mimeType : string)
    (metadata : EvidenceMetadata.t) : Completion IPFSUploadResult.t :=
  binaryString ← Env.atob env (payloadOf base64Data);
  uploadToIPFS env (Blob.mk binaryString mimeType) metadata.

Definition checkPinStatus (env : Env.t) (cid : string) : Completion bool :=
  match getPinataJWT env with
  | None => mret false
  | Some jwt =>
      try_catch
        (count ←
           Env.fetchPinCount env
             (PINATA_API_URL +:+ "/data/pinList?status=pinned&hashContains="
              +:+ cid)
             ("Bearer " +:+ jwt);
         mret (0 <? count)%float)
        (fun _ => mret false)
  end.

Definition getEvidenceUrl (cid : string) : string :=
  PUBLIC_GATEWAY +:+ "/" +:+ cid.

End Ipfs.

(** ** Vocabulary of the further properties *)

(** The characters of a string. *)
Definition chars (s : string) : list ascii := String.list_ascii_of_string s.

(** A lowercase hexadecimal digit. *)
Definition isHexDigit (c : ascii) : bool :=
  let n := Ascii.nat_of_ascii c in
  ((48 <=? n)%nat && (n <=? 57)%nat) || ((97 <=? n)%nat && (n <=? 102)%nat).

(** The shape of a transaction hash: [0x] and 64 hexadecimal digits. *)
Definition hashShaped (s : string) : Prop :=
  exists body,
    s = "0x" +:+ body
    /\ String.length body = 64%nat
    /\ forallb isHexDigit (chars body) = true.

(** The guards of the live paths of the ledger client. *)
Definition readsLive (svc : FraxService.t) : bool :=
  FraxService.isConnected svc && truthy (FraxService.wallet svc)
  && truthy (FraxService.sFraxContract svc).

Definition depositsLive (svc : FraxService.t) : bool :=
  FraxService.isConnected svc && truthy (FraxService.sFraxContract svc)
  && truthy (FraxService.fraxContract svc).

Definition redeemsLive (svc : FraxService.t) : bool :=
  FraxService.isConnected svc && truthy (FraxService.sFraxContract svc).

Definition transfersLive (svc : FraxService.t) : bool :=
  FraxService.isConnected svc && truthy (FraxService.fraxContract svc).

Definition storesLive (svc : FraxService.t) : bool :=
  FraxService.isConnected svc && truthy (FraxService.wallet svc)
  && truthy (FraxService.provider svc).

(** A failed transaction result names no transaction, and a result that
    links to the explorer links to its own transaction. *)
Definition resultCoherent (svc : FraxService.t) (r : TransactionResult.t)
    : Prop :=
  (TransactionResult.success r = false ->
   TransactionResult.txHash r = EmptyString
   /\ TransactionResult.explorerUrl r = None)
  /\ (forall url, TransactionResult.explorerUrl r = Some url ->
       TransactionResult.success r = true
       /\ url = FraxService.explorerLink svc (TransactionResult.txHash r)).

(** What the store holds under the key of the agent state. *)
Definition storedState (this : AthenaAgent.t) : option Item :=
  match AthenaAgent.localStorage this with
  | Store items => items !! "athena_agent_state"
  | Refusing | Undefined => None
  end.

(** The operations that end by saving the agent state. *)
Definition savesState (op : AthenaAgent.Op) : bool :=
  match op with
  | AthenaAgent.CreateAnonymousCase _ _
  | AthenaAgent.SecureEvidence _ _ _ _
  | AthenaAgent.CalculateFreedomBudget _
  | AthenaAgent.OptimizeYield _
  | AthenaAgent.PerceiveFinancialState _ _
  | AthenaAgent.QuickBalanceCheck _ _
  | AthenaAgent.GetPoolStatus _ _ => true
  | AthenaAgent.TriggerSOS _ _ _ _
  | AthenaAgent.ClearLocalState _
  | AthenaAgent.GetState
  | AthenaAgent.IsOnline => false
  end.

(** The store of [this] is available and holds, under every key but the
    one of the agent state, what [items0] holds. *)
Definition keepsOthers (items0 : gmap string Item) (this : AthenaAgent.t)
    : Prop :=
  exists items,
    AthenaAgent.localStorage this = Store items
    /\ forall key, key <> "athena_agent_state" ->
         items !! key = items0 !! key.

(** The persisted copy is the serialized state of [this]. *)
Definition inSync (this : AthenaAgent.t) : Prop :=
  storedState this = Some (StateJson (AthenaAgent.stringify this)).

(** More worlds for the examples. *)
Module Scenario.

(** The wallet of [Fixture.funded], on a chain that rejects the redeem. *)
Definition redeemRejected : Chain :=
  {| provider_getBlockNumber := provider_getBlockNumber Fixture.funded;
     sFrax_balanceOf := sFrax_balanceOf Fixture.funded;
     sFrax_convertToAssets := sFrax_convertToAssets Fixture.funded;
     sFrax_deposit := sFrax_deposit Fixture.funded;
     sFrax_redeem := fun _ _ _ => Throw (mkError "insufficient gas");
     frax_balanceOf := frax_balanceOf Fixture.funded;
     frax_approve := frax_approve Fixture.funded;
     frax_transfer := frax_transfer Fixture.funded;
     usdc_balanceOf := usdc_balanceOf Fixture.funded;
     wallet_sendTransaction := wallet_sendTransaction Fixture.funded |}.

(** The chain of [Fixture.funded], where the deposit is mined under the
    hash the draws of [Fixture.entropy] spell. *)
Definition mirror : Chain :=
  {| provider_getBlockNumber := provider_getBlockNumber Fixture.funded;
     sFrax_balanceOf := sFrax_balanceOf Fixture.funded;
     sFrax_convertToAssets := sFrax_convertToAssets Fixture.funded;
     sFrax_deposit :=
       fun _ _ =>
         Fixture.receipt
           "0x0123456789abcdef0123456789abcdef0123456789abcdef0123456789abcdef";
     sFrax_redeem := sFrax_redeem Fixture.funded;
     frax_balanceOf := frax_balanceOf Fixture.funded;
     frax_approve := frax_approve Fixture.funded;
     frax_transfer := frax_transfer Fixture.funded;
     usdc_balanceOf := usdc_balanceOf Fixture.funded;
     wallet_sendTransaction := wallet_sendTransaction Fixture.funded |}.

(** An agent over a client that was never connected. *)
Definition unplugged : AthenaAgent.t :=
  AthenaAgent.new 0 Fixture.offline (Store ∅).

Definition yieldEnv : AthenaAgent.YieldEnv.t :=
  {| AthenaAgent.YieldEnv.nowBefore := 1700000000300;
     AthenaAgent.YieldEnv.chainBefore := Fixture.funded;
     AthenaAgent.YieldEnv.chainDeposit := Fixture.funded;
     AthenaAgent.YieldEnv.entropy := Fixture.entropy;
     AthenaAgent.YieldEnv.nowAfter := 1700000000400;
     AthenaAgent.YieldEnv.chainAfter := Fixture.funded |}.

End Scenario.

(** * Properties *)

(** Two float literals differ when their decodings do. *)
Ltac float_discriminate :=
  let H := fresh in
  intro H; apply (f_equal Prim2SF) in H; vm_compute in H; discriminate H.

Lemma append_empty_r (s : string) : s +:+ EmptyString = s.
Proof.
  induction s as [|c s IH]; [done|].
  change (String c (s +:+ EmptyString) = String c s). by f_equal.
Qed.

(** A string that ends with [needle] contains it. *)
Lemma contains_suffix (pre needle : string) : contains needle (pre +:+ needle).
Proof. exists pre, EmptyString. by rewrite append_empty_r. Qed.

(** ** Strings *)

Lemma chars_append (s1 s2 : string) : chars (s1 +:+ s2) = chars s1 ++ chars s2.
Proof.
  induction s1 as [|c s1 IH]; [done|].
  change (c :: chars (s1 +:+ s2) = c :: chars s1 ++ chars s2). by f_equal.
Qed.

Lemma length_chars (s : string) : length (chars s) = String.length s.
Proof. induction s as [|c s IH]; [done|]. cbn. by f_equal. Qed.

Lemma length_append (s1 s2 : string) :
  String.length (s1 +:+ s2) = (String.length s1 + String.length s2)%nat.
Proof. by rewrite <- !length_chars, chars_append, length_app. Qed.

(** Joining one-character strings. *)
Lemma chars_join_singletons {A} (f : A -> ascii) (l : list A) :
  chars (join (map (fun i => String (f i) EmptyString) l)) = map f l.
Proof.
  induction l as [|x l IH]; [done|].
  change (f x :: chars (join (map (fun i => String (f i) EmptyString) l))
          = f x :: map f l).
  by f_equal.
Qed.

Lemma hex_char_isHexDigit (d : hexdigit) : isHexDigit (hex_char d) = true.
Proof. by destruct d. Qed.

(** ** The ledger client: reading the vault *)

Section VaultReading.

Context (rt : Runtime) (ch : Chain).

Lemma getSimulatedVaultState_eq (svc : FraxService.t) :
  FraxService.getSimulatedVaultState svc = offlineSnapshot.
Proof. reflexivity. Qed.

(** The reading is the live one or the offline snapshot, never a throw. *)
Lemma getVaultState_cases (svc : FraxService.t) :
  FraxService.getVaultState rt ch svc = Normal offlineSnapshot
  \/ exists v,
       FraxService.readVaultState rt ch svc = Normal v
       /\ FraxService.isConnected svc = true
       /\ FraxService.getVaultState rt ch svc = Normal v.
Proof.
  unfold FraxService.getVaultState.
  destruct (FraxService.isConnected svc) eqn:Hconn; cbn [andb]; [|by left].
  destruct (truthy (FraxService.wallet svc) &&
            truthy (FraxService.sFraxContract svc)); [|by left].
  destruct (FraxService.readVaultState rt ch svc) as [v|e]; cbn.
  - right. by exists v.
  - by left.
Qed.

Lemma getVaultState_returns (svc : FraxService.t) :
  exists v, FraxService.getVaultState rt ch svc = Normal v.
Proof.
  destruct (getVaultState_cases svc) as [H | (v & _ & _ & H)]; eauto.
Qed.

(** A live reading is flagged online and totals the three balances. *)
Lemma readVaultState_online (svc : FraxService.t) (v : VaultState.t) :
  FraxService.readVaultState rt ch svc = Normal v ->
  VaultState.isOnline v = true
  /\ VaultState.totalValueUsd v =
       (VaultState.sFraxValueInFrax v + VaultState.fraxBalance v
        + VaultState.usdcBalance v)%float.
Proof.
  unfold FraxService.readVaultState, FraxService.wallet_address.
  destruct (FraxService.wallet svc); [|discriminate].
  destruct (FraxService.sFraxContract svc); [|discriminate].
  destruct (FraxService.fraxContract svc); [|discriminate].
  destruct (FraxService.usdcContract svc); [|discriminate].
  cbn.
  destruct (sFrax_balanceOf ch _) as [bal1|]; [|discriminate].
  destruct (frax_balanceOf ch _) as [bal2|]; [|discriminate].
  destruct (usdc_balanceOf ch _) as [bal3|]; [|discriminate].
  cbn.
  destruct (sFrax_convertToAssets ch bal1) as [val1|]; [|discriminate].
  cbn. intros [= <-]. by cbn.
Qed.

Lemma offlineSnapshot_noFieldNaN : noFieldNaN offlineSnapshot.
Proof. repeat split. Qed.

(** C2, as amended: without a live connection (the client is not
    connected, it lacks a wallet or the vault contract, or the live read
    throws) [getVaultState] does not throw and returns the offline
    snapshot: the four balances and the total are zero, the yield rate is
    the display default 5.4, [isOnline] is false and the network label is
    "Not Connected"; no numeric field is [NaN]. *)
Theorem offline_snapshot (svc : FraxService.t) :
  FraxService.isConnected svc = false
  \/ FraxService.wallet svc = None
  \/ FraxService.sFraxContract svc = None
  \/ (exists e, FraxService.readVaultState rt ch svc = Throw e) ->
  exists v,
    FraxService.getVaultState rt ch svc = Normal v
    /\ VaultState.sFraxBalance v = 0%float
    /\ VaultState.sFraxValueInFrax v = 0%float
    /\ VaultState.fraxBalance v = 0%float
    /\ VaultState.usdcBalance v = 0%float
    /\ VaultState.totalValueUsd v = 0%float
    /\ VaultState.apy v = 5.4%float
    /\ VaultState.isOnline v = false
    /\ VaultState.network v = "Not Connected"
    /\ noFieldNaN v.
Proof.
  intros H. exists offlineSnapshot.
  split; [|by repeat split].
  unfold FraxService.getVaultState.
  destruct H as [-> | [-> | [-> | [e ->]]]]; cbn;
    rewrite ?andb_false_r; try reflexivity.
  by destruct (_ && _ && _).
Qed.

End VaultReading.

(** A client that was never given a key is not connected, whatever the
    network; one given a key is connected exactly when the key is valid
    and the endpoint answered. *)
Lemma new_without_key (rt : Runtime) (ch : Chain) (now : Z)
    (network : option FraxService.Network) :
  FraxService.isConnected (FraxService.new rt ch now None network) = false.
Proof. reflexivity. Qed.

Lemma offline_snapshot_witness :
  exists v,
    FraxService.getVaultState host Fixture.readFails Fixture.online = Normal v
    /\ VaultState.sFraxBalance v = 0%float
    /\ VaultState.sFraxValueInFrax v = 0%float
    /\ VaultState.fraxBalance v = 0%float
    /\ VaultState.usdcBalance v = 0%float
    /\ VaultState.totalValueUsd v = 0%float
    /\ VaultState.apy v = 5.4%float
    /\ VaultState.isOnline v = false
    /\ VaultState.network v = "Not Connected"
    /\ noFieldNaN v.
Proof.
  apply (offline_snapshot host Fixture.readFails Fixture.online).
  right. right. right. exists (mkError "network error"). vm_compute. reflexivity.
Defined.

(** C2, as stated, fails: the offline snapshot of a client that was never
    connected carries the yield rate 5.4, a numeric field that is not
    zero. *)
Lemma offline_snapshot_apy_not_zero :
  exists v,
    FraxService.getVaultState host Fixture.unreachable Fixture.offline
      = Normal v
    /\ VaultState.isOnline v = false
    /\ VaultState.apy v = 5.4%float
    /\ ~ allNumericFieldsZero v.
Proof.
  exists offlineSnapshot. repeat split.
  intros (_ & _ & _ & _ & _ & Hapy). revert Hapy. cbn. float_discriminate.
Qed.

(** ** The ledger client: the SOS protocol *)

Section Sos.

Context (rt : Runtime) (ch : Chain) (ent : Entropy).

Import FraxService.

(** [sosSteps] is the reading followed by the two steps. *)
Lemma sosSteps_unfold (dest : string) (svc : t) :
  exists v,
    getVaultState rt ch svc = Normal v
    /\ sosSteps rt ch ent dest svc journal0 =
       match liquidate rt ch ent v svc (afterReading rt v) with
       | (Throw e, j) => (Throw e, j)
       | (Normal _, j) =>
           match transferOut rt ch ent dest (totalOf v) svc j with
           | (Throw e, j') => (Throw e, j')
           | (Normal _, j') =>
               (Normal (v, totalOf v),
                mkJournal
                  (logs j' ++ ["✅ SOS Protocol Complete. Funds secured."])
                  (txHashes j'))
           end
       end.
Proof.
  destruct (getVaultState_returns rt ch svc) as [v Hv].
  exists v. split; [exact Hv|].
  unfold sosSteps, mbind, Sos_bind, await, afterReading, totalOf.
  rewrite Hv. cbn.
  destruct (liquidate rt ch ent v svc _) as [[[]|e] j]; [|reflexivity].
  by destruct (transferOut rt ch ent dest _ svc j) as [[[]|e] j'].
Qed.

(** Liquidation leaves no transaction id when it throws, and at most one
    when it completes. *)
Lemma liquidate_txHashes (v : VaultState.t) (svc : t) (j j' : Journal)
    (c : Completion unit) :
  liquidate rt ch ent v svc j = (c, j') ->
  match c with
  | Throw _ => txHashes j' = txHashes j
  | Normal _ =>
      txHashes j' = txHashes j
      \/ exists h, txHashes j' = txHashes j ++ [h]
  end.
Proof.
  unfold liquidate.
  destruct (0 <? VaultState.sFraxBalance v)%float.
  2:{ intros [= <- <-]. by left. }
  unfold mbind, Sos_bind, await, logs_push, txHashes_push. cbn.
  destruct (isConnected svc && truthy (sFraxContract svc)).
  - destruct (parseUnits rt _ 18) as [shares|e]; [|by intros [= <- <-]].
    destruct (wallet_address svc) as [addr|e]; [|by intros [= <- <-]].
    destruct (mined _) as [r|e]; intros [= <- <-]; cbn; [|done].
    right. by eexists.
  - destruct (crypto_randomUUID ent 0) as [uuid|e]; intros [= <- <-]; cbn;
      [|done].
    right. by eexists.
Qed.

(** The transfer step adds an id only when it completes. *)
Lemma transferOut_throw_txHashes (dest : string) (total : number) (svc : t)
    (j j' : Journal) (e : Error) :
  transferOut rt ch ent dest total svc j = (Throw e, j') ->
  txHashes j' = txHashes j.
Proof.
  unfold transferOut, mbind, Sos_bind, await, logs_push, txHashes_push. cbn.
  destruct (isConnected svc && truthy (fraxContract svc)).
  - destruct (parseUnits rt _ 18) as [amount|e']; [|by intros [= <- <-]].
    destruct (mined _) as [r|e']; by intros [= <- <-].
  - destruct (crypto_randomUUID ent 1) as [uuid|e']; by intros [= <- <-].
Qed.

(** C1: a successful SOS transfers the staked value plus the liquid
    balance of the vault state it read (the secondary-token balance is not
    part of the sum), reports the staked shares of that reading as
    liquidated, and returns the destination it was given. *)
Theorem sos_conservation (dest : string) (svc svc' : t) (r : SOSResult.t) :
  triggerSOS rt ch ent dest svc = (Normal r, svc') ->
  SOSResult.success r = true ->
  exists v,
    getVaultState rt ch svc = Normal v
    /\ SOSResult.transferredAmount r =
         (VaultState.sFraxValueInFrax v + VaultState.fraxBalance v)%float
    /\ SOSResult.liquidatedAmount r = VaultState.sFraxBalance v
    /\ SOSResult.destinationAddress r = dest.
Proof.
  unfold triggerSOS.
  destruct (sosSteps_unfold dest svc) as (v & Hv & ->).
  destruct (liquidate rt ch ent v svc (afterReading rt v)) as [[[]|e] j].
  - destruct (transferOut rt ch ent dest (totalOf v) svc j) as [[[]|e] j'].
    + intros [= <- <-] _. by exists v.
    + intros [= <- <-]. discriminate.
  - intros [= <- <-]. discriminate.
Qed.

Lemma triggerSOS_returns (dest : string) (svc : t) :
  exists r svc', triggerSOS rt ch ent dest svc = (Normal r, svc').
Proof.
  unfold triggerSOS.
  destruct (sosSteps rt ch ent dest svc journal0) as [[[v total]|e] j];
    eauto.
Qed.

(** C3: [triggerSOS] always returns.  When a step of the sequence throws,
    the result has [success = false], both amounts zero, the destination
    given, the transaction ids pushed before the throw (none, or the one
    of a liquidation that had completed), and the logs pushed so far
    followed by a line that contains the message of the error. *)
Theorem sos_failure_is_returned (dest : string) (svc : t) :
  (exists r svc', triggerSOS rt ch ent dest svc = (Normal r, svc'))
  /\ forall (e : Error) (j : Journal),
       sosSteps rt ch ent dest svc journal0 = (Throw e, j) ->
       let line := "❌ Error: " +:+ message e in
       triggerSOS rt ch ent dest svc =
         (Normal
            {| SOSResult.success := false;
               SOSResult.liquidatedAmount := 0;
               SOSResult.transferredAmount := 0;
               SOSResult.destinationAddress := dest;
               SOSResult.txHashes := txHashes j;
               SOSResult.logs := logs j ++ [line] |},
          svc)
       /\ last (logs j ++ [line]) = Some line
       /\ contains (message e) line
       /\ (txHashes j = []
           \/ exists v jl h,
                getVaultState rt ch svc = Normal v
                /\ liquidate rt ch ent v svc (afterReading rt v)
                   = (Normal tt, jl)
                /\ txHashes jl = [h]
                /\ txHashes j = [h]).
Proof.
  split; [apply triggerSOS_returns|].
  intros e j Hthrow line. repeat split.
  - unfold triggerSOS. by rewrite Hthrow.
  - apply last_snoc.
  - apply contains_suffix.
  - destruct (sosSteps_unfold dest svc) as (v & Hv & Hsteps).
    rewrite Hsteps in Hthrow. clear Hsteps.
    destruct (liquidate rt ch ent v svc (afterReading rt v))
      as [[[]|e1] j1] eqn:Hliq.
    + destruct (transferOut rt ch ent dest (totalOf v) svc j1)
        as [[[]|e2] j2] eqn:Hout; [discriminate|].
      injection Hthrow as <- <-.
      apply transferOut_throw_txHashes in Hout. rewrite Hout.
      destruct (liquidate_txHashes _ _ _ _ _ Hliq) as [H|[h H]].
      * by left.
      * right. exists v, j1, h. by rewrite H.
    + injection Hthrow as <- <-. left.
      apply (liquidate_txHashes _ _ _ _ _ Hliq).
Qed.

End Sos.

Lemma sos_conservation_witness :
  exists r svc',
    FraxService.triggerSOS host Fixture.funded Fixture.entropy
      Fixture.safeContact Fixture.online = (Normal r, svc')
    /\ SOSResult.success r = true
    /\ SOSResult.transferredAmount r = 560%float
    /\ exists v,
         FraxService.getVaultState host Fixture.funded Fixture.online
           = Normal v
         /\ VaultState.usdcBalance v = 7%float
         /\ SOSResult.transferredAmount r =
              (VaultState.sFraxValueInFrax v + VaultState.fraxBalance v)%float
         /\ SOSResult.liquidatedAmount r = VaultState.sFraxBalance v
         /\ SOSResult.destinationAddress r = Fixture.safeContact.
Proof.
  eexists _, _.
  split; [vm_compute; reflexivity|].
  split; [reflexivity|]. split; [reflexivity|].
  destruct (sos_conservation host Fixture.funded Fixture.entropy
              Fixture.safeContact Fixture.online _ _
              ltac:(vm_compute; reflexivity) eq_refl)
    as (v & Hv & Hsum & Hliq & Hdest).
  exists v. repeat split; try assumption.
  revert Hv. vm_compute. by intros [= <-].
Defined.

(** The liquidation was mined, the transfer was rejected: the failed
    result still carries the id of the liquidation. *)
Lemma sos_failure_is_returned_witness :
  exists e j,
    FraxService.sosSteps host Fixture.transferRejected Fixture.entropy
      Fixture.safeContact Fixture.online FraxService.journal0 = (Throw e, j)
    /\ message e = "execution reverted"
    /\ FraxService.txHashes j = [Fixture.redeemHash]
    /\ FraxService.triggerSOS host Fixture.transferRejected Fixture.entropy
         Fixture.safeContact Fixture.online =
       (Normal
          {| SOSResult.success := false;
             SOSResult.liquidatedAmount := 0;
             SOSResult.transferredAmount := 0;
             SOSResult.destinationAddress := Fixture.safeContact;
             SOSResult.txHashes := FraxService.txHashes j;
             SOSResult.logs :=
               FraxService.logs j ++ ["❌ Error: " +:+ message e] |},
        Fixture.online).
Proof.
  eexists _, _.
  split; [vm_compute; reflexivity|].
  split; [reflexivity|]. split; [reflexivity|].
  apply (proj2 (sos_failure_is_returned host Fixture.transferRejected
                  Fixture.entropy Fixture.safeContact Fixture.online)).
  vm_compute. reflexivity.
Defined.

(** ** The ledger client on the simulated path *)

Section Simulated.

Context (rt : Runtime) (ch : Chain) (ent : Entropy).

Import FraxService.


End Simulated.



Section SimulatedTransactions.

Context (rt : Runtime).

Import FraxService.

(** What a transaction method returns from inside its [try] block. *)
Ltac settle :=
  unfold try_catch, mbind, Completion_bind, mret, Completion_ret, mined,
    wallet_address, nonnull;
  cbv beta;
  repeat match goal with
    | |- context [match ?c with Normal _ => _ | Throw _ => _ end] =>
        lazymatch c with
        | context [match _ with Normal _ => _ | Throw _ => _ end] => fail
        | context [match _ with Some _ => _ | None => _ end] => fail
        | _ => destruct c
        end
    | |- context [match ?o with Some _ => _ | None => _ end] =>
        destruct o
    end.

(** A result obtained on the live path never carries the demo marker,
    whether the transaction went through or not. *)
Lemma live_deposit_unmarked (ch : Chain) (ent : Entropy) (amount : number)
    (svc : t) (r : TransactionResult.t) :
  isConnected svc && truthy (sFraxContract svc) && truthy (fraxContract svc)
    = true ->
  fst (depositToVault rt ch ent amount svc) = Normal r ->
  demoMarked r = false.
Proof.
  intros Hlive. unfold depositToVault. rewrite Hlive. cbn [fst].
  settle; by intros [= <-].
Qed.

Lemma live_redeem_unmarked (ch : Chain) (ent : Entropy) (shares : number)
    (svc : t) (r : TransactionResult.t) :
  isConnected svc && truthy (sFraxContract svc) = true ->
  redeemFromVault rt ch ent shares svc = Normal r ->
  demoMarked r = false.
Proof.
  intros Hlive. unfold redeemFromVault. rewrite Hlive.
  settle; by intros [= <-].
Qed.

Lemma live_transfer_unmarked (ch : Chain) (ent : Entropy) (to : string)
    (amount : number) (svc : t) (r : TransactionResult.t) :
  isConnected svc && truthy (fraxContract svc) = true ->
  transferFrax rt ch ent to amount svc = Normal r ->
  demoMarked r = false.
Proof.
  intros Hlive. unfold transferFrax. rewrite Hlive.
  settle; by intros [= <-].
Qed.

(** C10, as amended: without a live connection, [depositToVault],
    [redeemFromVault] and [transferFrax] return [success = true] with a
    generated transaction id.  The id itself has the shape of a real
    transaction hash, [0x] and 64 lowercase hexadecimal digits, and
    carries no marker; the demo marker is in the message of the result,
    which begins with "[DEMO]" (and the result has no explorer link),
    which no result of the live path does: a caller tells the two apart
    by the message, not by the id. *)
Theorem simulated_results_are_marked (ch : Chain) (ent : Entropy)
    (svc : t) :
  isConnected svc = false ->
  (forall amount, exists r,
     fst (depositToVault rt ch ent amount svc) = Normal r
     /\ TransactionResult.success r = true
     /\ TransactionResult.txHash r = fakeTxHash ent
     /\ hashShaped (TransactionResult.txHash r)
     /\ TransactionResult.explorerUrl r = None
     /\ demoMarked r = true
     /\ forall ch' ent' amount' svc' r',
          isConnected svc' && truthy (sFraxContract svc')
            && truthy (fraxContract svc') = true ->
          fst (depositToVault rt ch' ent' amount' svc') = Normal r' ->
          demoMarked r' <> demoMarked r)
  /\ (forall shares, exists r,
        redeemFromVault rt ch ent shares svc = Normal r
        /\ TransactionResult.success r = true
        /\ TransactionResult.txHash r = fakeTxHash ent
        /\ hashShaped (TransactionResult.txHash r)
        /\ TransactionResult.explorerUrl r = None
        /\ demoMarked r = true
        /\ forall ch' ent' shares' svc' r',
             isConnected svc' && truthy (sFraxContract svc') = true ->
             redeemFromVault rt ch' ent' shares' svc' = Normal r' ->
             demoMarked r' <> demoMarked r)
  /\ (forall to amount, exists r,
        transferFrax rt ch ent to amount svc = Normal r
        /\ TransactionResult.success r = true
        /\ TransactionResult.txHash r = fakeTxHash ent
        /\ hashShaped (TransactionResult.txHash r)
        /\ TransactionResult.explorerUrl r = None
        /\ demoMarked r = true
        /\ forall ch' ent' to' amount' svc' r',
             isConnected svc' && truthy (fraxContract svc') = true ->
             transferFrax rt ch' ent' to' amount' svc' = Normal r' ->
             demoMarked r' <> demoMarked r).
Proof.
  intros Hoff.
  assert (hashShaped (fakeTxHash ent)) as Hshape.
  { unfold fakeTxHash. eexists. split; [reflexivity|].
    rewrite <- length_chars, chars_join_singletons, length_map, length_seq.
    split; [done|].
    apply forallb_forall. intros c Hc. apply in_map_iff in Hc.
    destruct Hc as (i & <- & _). apply hex_char_isHexDigit. }
  split; [|split].
  - intros amount. eexists. unfold depositToVault. rewrite Hoff.
    cbn [andb fst]. split; [reflexivity|]. split; [reflexivity|].
    split; [reflexivity|]. split; [exact Hshape|].
    split; [reflexivity|]. split; [reflexivity|].
    intros ch' ent' amount' svc' r' Hlive Hr'.
    by rewrite (live_deposit_unmarked _ _ _ _ _ Hlive Hr').
  - intros shares. eexists. unfold redeemFromVault. rewrite Hoff.
    cbn [andb]. split; [reflexivity|]. split; [reflexivity|].
    split; [reflexivity|]. split; [exact Hshape|].
    split; [reflexivity|]. split; [reflexivity|].
    intros ch' ent' shares' svc' r' Hlive Hr'.
    by rewrite (live_redeem_unmarked _ _ _ _ _ Hlive Hr').
  - intros to amount. eexists. unfold transferFrax. rewrite Hoff.
    cbn [andb]. split; [reflexivity|]. split; [reflexivity|].
    split; [reflexivity|]. split; [exact Hshape|].
    split; [reflexivity|]. split; [reflexivity|].
    intros ch' ent' to' amount' svc' r' Hlive Hr'.
    by rewrite (live_transfer_unmarked _ _ _ _ _ _ Hlive Hr').
Qed.

End SimulatedTransactions.

Lemma simulated_results_are_marked_witness :
  FraxService.isConnected Fixture.offline = false
  /\ exists r,
       fst (FraxService.depositToVault host Fixture.unreachable
              Fixture.entropy 12.5 Fixture.offline) = Normal r
       /\ TransactionResult.success r = true
       /\ TransactionResult.txHash r =
            "0x0123456789abcdef0123456789abcdef0123456789abcdef0123456789abcdef"
       /\ hashShaped (TransactionResult.txHash r)
       /\ TransactionResult.message r =
            "[DEMO] Deposited 12.5 FRAX into sFRAX vault"
       /\ demoMarked r = true.
Proof.
  split; [reflexivity|].
  destruct (proj1 (simulated_results_are_marked host Fixture.unreachable
                     Fixture.entropy Fixture.offline eq_refl) 12.5%float)
    as (r & Hr & Hok & Hid & Hshape & _ & Hmark & _).
  exists r. split; [exact Hr|]. split; [exact Hok|]. split; [exact Hid|].
  split; [exact Hshape|]. split; [|exact Hmark].
  revert Hr. vm_compute. by intros [= <-].
Defined.

(** C10, as stated, fails: the id of a simulated deposit is not
    distinguishable from the id of a real one.  It has the shape of a
    transaction hash, and a deposit mined on a live connection can come
    back under the very same id, so no test on the id tells the simulated
    result from the live one; only the messages differ. *)
Lemma simulated_id_passes_for_a_live_id :
  exists sim live,
    FraxService.isConnected Fixture.offline = false
    /\ fst (FraxService.depositToVault host Fixture.unreachable
              Fixture.entropy 12.5 Fixture.offline) = Normal sim
    /\ FraxService.isConnected Fixture.online = true
    /\ fst (FraxService.depositToVault host Scenario.mirror
              Fixture.entropy 12.5 Fixture.online) = Normal live
    /\ TransactionResult.success sim = true
    /\ TransactionResult.success live = true
    /\ demoMarked sim = true
    /\ demoMarked live = false
    /\ hashShaped (TransactionResult.txHash sim)
    /\ TransactionResult.txHash sim = TransactionResult.txHash live
    /\ ~ exists test, tellsApart test sim live.
Proof.
  eexists _, _.
  split; [reflexivity|]. split; [vm_compute; reflexivity|].
  split; [reflexivity|]. split; [vm_compute; reflexivity|].
  split; [reflexivity|]. split; [reflexivity|].
  split; [reflexivity|]. split; [reflexivity|].
  split.
  { exists "0123456789abcdef0123456789abcdef0123456789abcdef0123456789abcdef".
    split; [reflexivity|]. split; vm_compute; reflexivity. }
  split; [reflexivity|].
  intros (test & Hsim & Hlive). cbn in Hsim, Hlive. congruence.
Qed.

(** ** Comparisons of numbers *)

Lemma SFleb_negb_SFltb (x y : spec_float) :
  x <> S754_nan -> y <> S754_nan -> SFleb x y = negb (SFltb y x).
Proof.
  intros Hx Hy. unfold SFleb, SFltb.
  destruct x as [sx|sx| |sx mx ex], y as [sy|sy| |sy my ey];
    try congruence; cbn; try (by destruct sx); try (by destruct sy);
    try (by destruct sx, sy).
  rewrite (Z.compare_antisym ex ey).
  change (PosDef.Pos.compare_cont Eq my mx) with (Pos.compare my mx).
  change (PosDef.Pos.compare_cont Eq mx my) with (Pos.compare mx my).
  rewrite (Pos.compare_antisym mx my).
  destruct sx, sy; try reflexivity;
    destruct (ex ?= ey)%Z; cbn; try reflexivity;
    by destruct (mx ?= my)%positive.
Qed.

(** A number that can be ordered against another is not [NaN]. *)
Lemma leb_true_not_nan (a r : float) :
  (a <=? r)%float = true -> Prim2SF r <> S754_nan.
Proof.
  rewrite leb_spec. unfold SFleb. intros H Hr. rewrite Hr in H.
  by destruct (Prim2SF a).
Qed.

(** [!(r >= a)] is [r < a] on numbers that are not [NaN]. *)
Lemma not_geb_ltb (a r : float) :
  Prim2SF a <> S754_nan -> Prim2SF r <> S754_nan ->
  (r <? a)%float = negb (a <=? r)%float.
Proof.
  intros Ha Hr. rewrite ltb_spec, leb_spec.
  rewrite (SFleb_negb_SFltb _ _ Ha Hr). by rewrite negb_involutive.
Qed.

(** ** The orchestrator: the freedom budget *)

Section Budget.

Import AthenaAgent.

Lemma strategies_distinct :
  criticalStrategy <> elevatedStrategy
  /\ criticalStrategy <> moderateStrategy
  /\ elevatedStrategy <> moderateStrategy.
Proof. repeat split; discriminate. Qed.

(** C4: for a risk level between 1 and 10 the target is
    [(dependents + 1) * 30 + 100] plus, without own money, 75 per night
    for one night from risk 8 on and for three nights below; the strategy
    is the critical one exactly from 8 on, the elevated one exactly from 5
    up to but excluding 8, and the moderate one exactly below 5.  With two
    dependents, no own money and risk 9 the target is 265 and the tier is
    critical. *)
Theorem budget_formula_and_tier :
  (forall (params : Params.t) (this : t),
     let r := Params.riskLevel params in
     let plan := fst (calculateFreedomBudget params this) in
     (1 <=? r)%float = true ->
     (r <=? 10)%float = true ->
     FreedomGoal.targetAmount (EscapePlan.freedomGoal plan) =
       ((Params.dependents params + 1) * 30 + 100
        + (if Params.hasOwnMoney params then 0
           else 75 * (if 8 <=? r then 1 else 3)))%float
     /\ (EscapePlan.strategy plan = strategyOf Critical
         <-> (8 <=? r)%float = true)
     /\ (EscapePlan.strategy plan = strategyOf Elevated
         <-> (5 <=? r)%float = true /\ (r <? 8)%float = true)
     /\ (EscapePlan.strategy plan = strategyOf Moderate
         <-> (r <? 5)%float = true))
  /\ (forall this : t,
        let plan :=
          fst (calculateFreedomBudget
                 (Params.mk 2 "Springfield" false 9) this) in
        FreedomGoal.targetAmount (EscapePlan.freedomGoal plan) = 265%float
        /\ EscapePlan.strategy plan = strategyOf Critical).
Proof.
  split; [|by intros this].
  intros params this r plan Hlo Hhi.
  pose proof strategies_distinct as (Hce & Hcm & Hem).
  pose proof (leb_true_not_nan _ _ Hlo) as Hr.
  assert (H58 : (8 <=? r)%float = true -> (5 <=? r)%float = true).
  { rewrite !leb_spec. unfold SFleb, SFcompare.
    change (Prim2SF 8) with (S754_finite false 4503599627370496 (-49)).
    change (Prim2SF 5) with (S754_finite false 5629499534213120 (-50)).
    destruct (Prim2SF r) as [s|s| |s m e]; try done.
    destruct s; [done|].
    destruct (Z.compare_spec (-49) e), (Z.compare_spec (-50) e);
      done || lia. }
  assert (H8 : (r <? 8)%float = negb (8 <=? r)%float)
    by (apply not_geb_ltb; [by vm_compute | exact Hr]).
  assert (H5 : (r <? 5)%float = negb (5 <=? r)%float)
    by (apply not_geb_ltb; [by vm_compute | exact Hr]).
  split; [reflexivity|].
  subst plan. cbn -[PrimFloat.leb PrimFloat.ltb]. fold r.
  rewrite H8, H5.
  destruct (8 <=? r)%float eqn:E8.
  - rewrite (H58 eq_refl). cbn. intuition congruence.
  - destruct (5 <=? r)%float eqn:E5; cbn; intuition congruence.
Qed.

End Budget.

(** The lower boundary of the elevated tier: risk 5, one dependent, own
    money. *)
Lemma budget_formula_and_tier_witness :
  let params := AthenaAgent.Params.mk 1 "Shelbyville" true 5 in
  let plan := fst (AthenaAgent.calculateFreedomBudget params Fixture.fresh) in
  (1 <=? AthenaAgent.Params.riskLevel params)%float = true
  /\ (AthenaAgent.Params.riskLevel params <=? 10)%float = true
  /\ FreedomGoal.targetAmount (EscapePlan.freedomGoal plan) = 160%float
  /\ EscapePlan.strategy plan = strategyOf Elevated.
Proof.
  intros params plan.
  destruct (proj1 budget_formula_and_tier params Fixture.fresh
              eq_refl eq_refl) as (Htarget & _ & Helevated & _).
  split; [reflexivity|]. split; [reflexivity|].
  split; [exact Htarget|]. apply Helevated. by split.
Defined.

(** ** The orchestrator: wiping the local state *)

Section Wipe.

Import AthenaAgent.

Lemma delete_keys_idemp (items : gmap string Item) :
  let wiped :=
    delete "athena_plan"
      (delete "athena_evidence" (delete "athena_agent_state" items)) in
  delete "athena_plan"
    (delete "athena_evidence" (delete "athena_agent_state" wiped)) = wiped.
Proof.
  intros wiped. subst wiped. apply map_eq. intros k.
  rewrite !lookup_delete. by repeat case_decide.
Qed.

(** What [clearLocalState] does to each part of the agent. *)
Lemma clearLocalState_spec (now : Z) (this : t) :
  clearLocalState now this =
    (Normal tt,
     mk (emptyState now) (heap this) (fraxService this)
        match localStorage this with
        | Store items =>
            Store
              (delete "athena_plan"
                 (delete "athena_evidence"
                    (delete "athena_agent_state" items)))
        | ls => ls
        end).
Proof. destruct this as [s h svc [| |items]]; reflexivity. Qed.

(** C7: two calls of [clearLocalState] in a row both return without
    throwing and both leave the empty state: no case, no evidence, no
    plan, no vault snapshot.  The second call changes nothing but the
    [lastUpdated] stamp, which is the time of the call.  A call on an
    agent that never had a case returns as well. *)
Theorem clearLocalState_idempotent (now1 now2 : Z) (this : t) :
  let first := clearLocalState now1 this in
  let second := clearLocalState now2 (snd first) in
  fst first = Normal tt
  /\ fst second = Normal tt
  /\ isEmpty (state (snd first))
  /\ isEmpty (state (snd second))
  /\ state (snd first) = emptyState now1
  /\ state (snd second) = emptyState now2
  /\ heap (snd second) = heap (snd first)
  /\ fraxService (snd second) = fraxService (snd first)
  /\ localStorage (snd second) = localStorage (snd first)
  /\ (now2 = now1 -> snd second = snd first)
  /\ forall now0 svc ls, fst (clearLocalState now1 (new now0 svc ls)) = Normal tt.
Proof.
  intros first second. subst first second.
  rewrite !clearLocalState_spec. cbn.
  assert (Hls :
    match
      match localStorage this with
      | Store items =>
          Store
            (delete "athena_plan"
               (delete "athena_evidence"
                  (delete "athena_agent_state" items)))
      | ls => ls
      end
    with
    | Store items =>
        Store
          (delete "athena_plan"
             (delete "athena_evidence" (delete "athena_agent_state" items)))
    | ls => ls
    end
    = match localStorage this with
      | Store items =>
          Store
            (delete "athena_plan"
               (delete "athena_evidence"
                  (delete "athena_agent_state" items)))
      | ls => ls
      end).
  { destruct (localStorage this) as [| |items]; try reflexivity.
    f_equal. apply delete_keys_idemp. }
  repeat split; try done.
  - intros ->. by rewrite Hls.
  - intros now0 svc ls. by rewrite clearLocalState_spec.
Qed.

End Wipe.

Lemma clearLocalState_idempotent_witness :
  let first := AthenaAgent.clearLocalState 7 Fixture.engaged in
  let second := AthenaAgent.clearLocalState 7 (snd first) in
  AthenaAgent.state Fixture.engaged <> AthenaAgent.emptyState 7
  /\ fst first = Normal tt
  /\ snd second = snd first.
Proof.
  pose proof (clearLocalState_idempotent 7 7 Fixture.engaged) as H.
  cbv zeta in H.
  destruct H as (H1 & _ & _ & _ & _ & _ & _ & _ & _ & H & _).
  split; [discriminate|]. split; [exact H1 | exact (H eq_refl)].
Defined.

(** ** The orchestrator: securing evidence *)

Section Evidence.

Context (rt : Runtime).

Import AthenaAgent.

Lemma storeEvidenceHash_returns (ch : Chain) (ent : Entropy) (h : string)
    (metadata : option string) (svc : FraxService.t) :
  exists result,
    FraxService.storeEvidenceHash ch ent h metadata svc = Normal result
    /\ (TransactionResult.success result = true \/
        TransactionResult.success result = false).
Proof.
  unfold FraxService.storeEvidenceHash.
  destruct (_ && _ && _).
  - unfold try_catch.
    destruct (FraxService.wallet_address svc ≫= _) as [r|e].
    + exists r. split; [done|].
      by destruct (TransactionResult.success r); [left|right].
    + eexists. split; [done|]. by right.
  - eexists. split; [done|]. by left.
Qed.

(** C9: [secureEvidence] returns a record and appends exactly that record
    to the evidence list, whatever the storage call reports; the record
    is [ON_CHAIN] with the transaction id of the result when the ledger
    client reports success, and [FAILED] without a transaction id when it
    reports failure; a record that is [ON_CHAIN] has a transaction id. *)
Theorem secureEvidence_appends_one (env : EvidenceEnv.t) (content : string)
    (type : EvidenceType) (metadata : option Metadata.t) (this : t) :
  exists result record this',
    FraxService.storeEvidenceHash (EvidenceEnv.chain env)
      (EvidenceEnv.entropy env)
      (generateHash rt (content +:+ pretty (EvidenceEnv.nowHash env)))
      (JSON_stringify rt <$> metadata) (fraxService this) = Normal result
    /\ secureEvidence rt env content type metadata this
       = (Normal record, this')
    /\ AgentState.evidence (state this')
       = AgentState.evidence (state this) ++ [record]
    /\ AgentState.case (state this') = AgentState.case (state this)
    /\ AgentState.escapePlan (state this')
       = AgentState.escapePlan (state this)
    /\ heap this' = heap this
    /\ (TransactionResult.success result = true ->
        EvidenceRecord.status record = ON_CHAIN
        /\ EvidenceRecord.txHash record
           = Some (TransactionResult.txHash result))
    /\ (TransactionResult.success result = false ->
        EvidenceRecord.status record = FAILED
        /\ EvidenceRecord.txHash record = None)
    /\ (EvidenceRecord.status record = ON_CHAIN ->
        is_Some (EvidenceRecord.txHash record)).
Proof.
  destruct (storeEvidenceHash_returns (EvidenceEnv.chain env)
              (EvidenceEnv.entropy env)
              (generateHash rt (content +:+ pretty (EvidenceEnv.nowHash env)))
              (JSON_stringify rt <$> metadata) (fraxService this))
    as (result & Hstore & Hcases).
  exists result. unfold secureEvidence. rewrite Hstore.
  eexists _, _. split; [done|]. split; [done|].
  destruct (TransactionResult.success result); cbn;
    repeat split; try done; by eexists.
Qed.

End Evidence.

(** The chain is down when the evidence is sent: the record is kept,
    marked [FAILED]. *)
Lemma secureEvidence_appends_one_witness :
  exists record this',
    AthenaAgent.secureEvidence host Fixture.evidenceEnvDown "second note"
      TEXT None Fixture.engaged = (Normal record, this')
    /\ length (AgentState.evidence (AthenaAgent.state this')) = 2%nat
    /\ EvidenceRecord.status record = FAILED
    /\ EvidenceRecord.txHash record = None.
Proof.
  destruct (secureEvidence_appends_one host Fixture.evidenceEnvDown
              "second note" TEXT None Fixture.engaged)
    as (result & record & this' & Hstore & Hsecure & Happ & _ & _ & _
        & _ & Hfail & _).
  exists record, this'.
  assert (Hresult : TransactionResult.success result = false).
  { revert Hstore. vm_compute. by intros [= <-]. }
  destruct (Hfail Hresult) as [Hstatus Hno].
  repeat split; try assumption.
  rewrite Happ, length_app. reflexivity.
Defined.

(** ** The orchestrator: the SOS entry point *)

Section Evacuation.

Context (rt : Runtime).

Import AthenaAgent.

Lemma markEvacuated_state (this : t) : state (markEvacuated this) = state this.
Proof. unfold markEvacuated. by destruct (AgentState.case (state this)). Qed.

Lemma markEvacuated_lookup (this : t) (ref : CaseRef) (c : AthenaCase.t) :
  AgentState.case (state this) = Some ref ->
  heap this !! ref = Some c ->
  heap (markEvacuated this) !! ref = Some (AthenaCase.set_status EVACUATED c).
Proof.
  intros Hcase Hc. unfold markEvacuated. rewrite Hcase. cbn.
  by rewrite list_lookup_alter_eq, Hc.
Qed.


(** The mark is made in memory: [triggerSOS] does not save the state, so
    after a failed run the persisted copy is the one from before. *)
Lemma failed_sos_leaves_store (ch : Chain) (ent : Entropy) (now : Z)
    (dest : string) (this this' : t) (r : SOSResult.t) :
  triggerSOS rt ch ent now dest this = (Normal r, this') ->
  SOSResult.success r = false ->
  localStorage this' = localStorage this.
Proof.
  unfold triggerSOS, triggerSOS_over.
  destruct (FraxService.triggerSOS rt ch ent dest _) as [[r0|e] svc];
    [|discriminate].
  destruct (SOSResult.success r0) eqn:Hok.
  - destruct (clearLocalState now _) as [[[]|e] this3];
      [|discriminate].
    intros [= <- <-]. congruence.
  - intros [= <- <-] _. unfold markEvacuated.
    by destruct (AgentState.case (state this)).
Qed.


End Evacuation.


(** ** The orchestrator: lifecycle of a case *)

Section Lifecycle.

Context (rt : Runtime).

Import AthenaAgent.

Lemma caseEvolves_refl (c : AthenaCase.t) : caseEvolves c c.
Proof. repeat split. by left. Qed.

Lemma caseEvolves_trans (c1 c2 c3 : AthenaCase.t) :
  caseEvolves c1 c2 -> caseEvolves c2 c3 -> caseEvolves c1 c3.
Proof.
  intros (Hid & Hdep & Hat & Hst) (Hid' & Hdep' & Hat' & Hst').
  repeat split; try congruence.
  destruct Hst' as [Hst' | Hst']; [|by right].
  rewrite Hst'. exact Hst.
Qed.

Lemma heapEvolves_refl (h : list AthenaCase.t) : heapEvolves h h.
Proof. intros ref c Hc. exists c. split; [done | apply caseEvolves_refl]. Qed.

Lemma heapEvolves_trans (h1 h2 h3 : list AthenaCase.t) :
  heapEvolves h1 h2 -> heapEvolves h2 h3 -> heapEvolves h1 h3.
Proof.
  intros H12 H23 ref c Hc.
  destruct (H12 ref c Hc) as (c2 & Hc2 & Hev).
  destruct (H23 ref c2 Hc2) as (c3 & Hc3 & Hev').
  exists c3. split; [done | by eapply caseEvolves_trans].
Qed.

(** Allocating a case object leaves the others alone. *)
Lemma heapEvolves_alloc (h : list AthenaCase.t) (c : AthenaCase.t) :
  heapEvolves h (h ++ [c]).
Proof.
  intros ref c0 Hc0. exists c0.
  split; [by apply lookup_app_l_Some | apply caseEvolves_refl].
Qed.

(** Writing [EVACUATED] into one case object. *)
Lemma heapEvolves_mark (h : list AthenaCase.t) (ref : nat) :
  heapEvolves h (alter (AthenaCase.set_status EVACUATED) ref h).
Proof.
  intros i c Hc. destruct (decide (ref = i)) as [->|Hne].
  - exists (AthenaCase.set_status EVACUATED c).
    rewrite list_lookup_alter_eq, Hc. split; [done|].
    repeat split. by right.
  - exists c. rewrite list_lookup_alter_ne by done.
    split; [done | apply caseEvolves_refl].
Qed.

Lemma heap_saveState (this : t) : heap (saveState this) = heap this.
Proof. reflexivity. Qed.

Lemma heap_markEvacuated (this : t) :
  heapEvolves (heap this) (heap (markEvacuated this)).
Proof.
  unfold markEvacuated. destruct (AgentState.case (state this)).
  - apply heapEvolves_mark.
  - apply heapEvolves_refl.
Qed.

Lemma heap_clearLocalState (now : Z) (this : t) :
  heap (snd (clearLocalState now this)) = heap this.
Proof. by rewrite clearLocalState_spec. Qed.

Lemma heap_perceiveFinancialState (ch : Chain) (now : Z) (this : t) :
  heap (snd (perceiveFinancialState rt ch now this)) = heap this.
Proof.
  unfold perceiveFinancialState.
  by destruct (FraxService.getVaultState rt ch (fraxService this)).
Qed.

Lemma heap_secureEvidence (env : EvidenceEnv.t) (content : string)
    (type : EvidenceType) (metadata : option Metadata.t) (this : t) :
  heap (snd (secureEvidence rt env content type metadata this)) = heap this.
Proof.
  unfold secureEvidence.
  by destruct (FraxService.storeEvidenceHash _ _ _ _ _).
Qed.

Lemma heap_optimizeYield (env : YieldEnv.t) (this : t) :
  heap (snd (optimizeYield rt env this)) = heap this.
Proof.
  unfold optimizeYield.
  pose proof (heap_perceiveFinancialState (YieldEnv.chainBefore env)
                (YieldEnv.nowBefore env) this) as H1.
  destruct (perceiveFinancialState rt (YieldEnv.chainBefore env)
              (YieldEnv.nowBefore env) this) as [[v|e] this1];
    cbn in H1; [|done].
  destruct (VaultState.fraxBalance v <? 1)%float; [done|].
  destruct (FraxService.depositToVault _ _ _ _ _) as [[result|e] svc];
    [|done].
  destruct (TransactionResult.success result); [|done].
  pose proof (heap_perceiveFinancialState (YieldEnv.chainAfter env)
                (YieldEnv.nowAfter env) (set_fraxService svc this1)) as H2.
  destruct (perceiveFinancialState rt (YieldEnv.chainAfter env)
              (YieldEnv.nowAfter env) (set_fraxService svc this1))
    as [[v'|e] this3]; cbn in H2; cbn; congruence.
Qed.

Lemma heap_triggerSOS (ch : Chain) (ent : Entropy) (now : Z) (dest : string)
    (this : t) :
  heapEvolves (heap this) (heap (snd (triggerSOS rt ch ent now dest this))).
Proof.
  unfold triggerSOS, triggerSOS_over.
  destruct (FraxService.triggerSOS rt ch ent dest _) as [[r|e] svc]; cbn;
    [|apply heap_markEvacuated].
  destruct (SOSResult.success r); cbn; [|apply heap_markEvacuated].
  pose proof (heap_clearLocalState now
                (set_fraxService svc (markEvacuated this))) as H.
  destruct (clearLocalState now _) as [[[]|e] this3]; cbn in *;
    rewrite H; apply heap_markEvacuated.
Qed.

(** Every exposed operation lets the case objects evolve. *)
Lemma step_heapEvolves (op : Op) (this : t) :
  heapEvolves (heap this) (heap (step rt op this)).
Proof.
  destruct op; cbn [step].
  - apply heapEvolves_alloc.
  - rewrite heap_secureEvidence. apply heapEvolves_refl.
  - apply heapEvolves_refl.
  - rewrite heap_optimizeYield. apply heapEvolves_refl.
  - apply heap_triggerSOS.
  - rewrite heap_clearLocalState. apply heapEvolves_refl.
  - apply heapEvolves_refl.
  - rewrite heap_perceiveFinancialState. apply heapEvolves_refl.
  - unfold quickBalanceCheck.
    pose proof (heap_perceiveFinancialState ch now this) as H.
    destruct (perceiveFinancialState rt ch now this) as [[v|e] this1];
      cbn in *; rewrite H; apply heapEvolves_refl.
  - unfold getPoolStatus.
    pose proof (heap_perceiveFinancialState ch now this) as H.
    destruct (perceiveFinancialState rt ch now this) as [[v|e] this1];
      cbn in *; [destruct (AgentState.escapePlan (state this1))|];
      cbn; rewrite H; apply heapEvolves_refl.
  - apply heapEvolves_refl.
Qed.

Lemma run_heapEvolves (ops : list Op) (this : t) :
  heapEvolves (heap this) (heap (run rt ops this)).
Proof.
  revert this. induction ops as [|op ops IH]; intros this.
  - apply heapEvolves_refl.
  - eapply heapEvolves_trans; [apply (step_heapEvolves op)|]. apply IH.
Qed.

(** C6: along any sequence of exposed operations a case object stays in
    place with its identity, and its status either stays or becomes
    [EVACUATED].  So a case that is [EVACUATED] stays [EVACUATED], no case
    is ever set to [ACTIVE], and a case that was [ACTIVE] moves, if at
    all, forward to [EVACUATED]. *)
Theorem case_status_never_goes_back (ops : list Op) (this : t)
    (ref : CaseRef) (c : AthenaCase.t) :
  heap this !! ref = Some c ->
  exists c',
    heap (run rt ops this) !! ref = Some c'
    /\ AthenaCase.caseId c' = AthenaCase.caseId c
    /\ AthenaCase.depositAddress c' = AthenaCase.depositAddress c
    /\ AthenaCase.createdAt c' = AthenaCase.createdAt c
    /\ (AthenaCase.status c = EVACUATED -> AthenaCase.status c' = EVACUATED)
    /\ (AthenaCase.status c' = ACTIVE -> AthenaCase.status c = ACTIVE)
    /\ (AthenaCase.status c = ACTIVE ->
        forward (AthenaCase.status c) (AthenaCase.status c')).
Proof.
  intros Hc.
  destruct (run_heapEvolves ops this ref c Hc)
    as (c' & Hc' & Hid & Hdep & Hat & Hst).
  exists c'. repeat split; try assumption.
  - intros Hev. destruct Hst; congruence.
  - intros Hact. destruct Hst; congruence.
  - intros Hact. unfold forward. destruct Hst as [Hst|Hst]; [by left|].
    right. by split.
Qed.

End Lifecycle.

(** A case evacuated by a failed SOS stays evacuated through a successful
    SOS, a wipe and the opening of two further cases, which are other
    objects. *)
Lemma case_status_never_goes_back_witness :
  exists c c',
    AthenaAgent.heap Fixture.evacuated !! 0%nat = Some c
    /\ AthenaCase.status c = EVACUATED
    /\ AthenaAgent.heap (AthenaAgent.run host Fixture.later Fixture.evacuated)
         !! 0%nat = Some c'
    /\ AthenaCase.caseId c' = AthenaCase.caseId c
    /\ AthenaCase.status c' = EVACUATED
    /\ AgentState.case
         (AthenaAgent.state
            (AthenaAgent.run host Fixture.later Fixture.evacuated))
       = Some 2%nat.
Proof.
  eexists.
  destruct (case_status_never_goes_back host Fixture.later Fixture.evacuated
              0%nat _ ltac:(vm_compute; reflexivity))
    as (c' & Hc' & Hid & _ & _ & Hstay & _).
  exists c'. split; [vm_compute; reflexivity|]. split; [reflexivity|].
  split; [exact Hc'|]. split; [exact Hid|]. split; [exact (Hstay eq_refl)|].
  vm_compute. reflexivity.
Defined.

(** * Further properties *)

(** ** The ledger client: construction *)

Section Construction.

Context (rt : Runtime) (ch : Chain).

Import FraxService.

(** X1: a client built by the constructor is connected exactly when it was
    given a non-empty key that makes a wallet and the endpoint answered
    the block-number probe; a connected client has its provider, its
    wallet and its three contracts, bound to the addresses of the chosen
    network, so every method takes its live path exactly when the client
    is connected. *)
Theorem constructed_client (now : Z) (privateKey : option string)
    (network : option Network) :
  let svc := new rt ch now privateKey network in
  (isConnected svc = true <->
   exists key addr n,
     privateKey = Some key
     /\ truthy_string key = true
     /\ Wallet_address rt key = Normal addr
     /\ provider_getBlockNumber ch = Normal n)
  /\ (isConnected svc = true ->
      exists addr,
        wallet svc = Some (mkWallet addr)
        /\ provider svc = Some (NetworkConfig.rpcUrl (activeNetwork svc))
        /\ sFraxContract svc
           = Some (mkContract (NetworkConfig.sFraxAddress (activeNetwork svc)))
        /\ fraxContract svc
           = Some (mkContract (NetworkConfig.fraxAddress (activeNetwork svc)))
        /\ usdcContract svc
           = Some (mkContract (NetworkConfig.usdcAddress (activeNetwork svc))))
  /\ readsLive svc = isConnected svc
  /\ depositsLive svc = isConnected svc
  /\ redeemsLive svc = isConnected svc
  /\ transfersLive svc = isConnected svc
  /\ storesLive svc = isConnected svc.
Proof.
  unfold new, readsLive, depositsLive, redeemsLive, transfersLive, storesLive.
  destruct privateKey as [key|]; cbn.
  2:{ split; [|done]. split; [done|]. by intros (key & _ & _ & [=] & _). }
  destruct (truthy_string key) eqn:Hkey; cbn.
  2:{ split; [|done]. split; [done|].
      intros (k & _ & _ & [= <-] & Hk & _). congruence. }
  unfold initializeConnection.
  destruct (Wallet_address rt key) as [addr|e] eqn:Hw; cbn.
  2:{ split; [|done]. split; [done|].
      intros (k & a & _ & [= <-] & _ & Hk & _). congruence. }
  destruct (provider_getBlockNumber ch) as [n|e] eqn:Hn; cbn.
  - split; [|split; [by eexists|done]].
    split; [|done]. intros _. by exists key, addr, n.
  - split; [|done]. split; [done|].
    intros (k & a & m & _ & _ & _ & [=]).
Qed.

End Construction.

(** ** The ledger client: the vault state *)

Section VaultInvariant.

Context (rt : Runtime) (ch : Chain).

Import FraxService.

(** X2: a vault state handed out by [getVaultState] is either flagged
    online, and then its total is the staked value plus the liquid balance
    plus the secondary balance and it names the active network of a
    connected client, or it is the offline snapshot. *)
Theorem vault_state_invariant (svc : t) (v : VaultState.t) :
  getVaultState rt ch svc = Normal v ->
  (VaultState.isOnline v = true ->
   VaultState.totalValueUsd v =
     (VaultState.sFraxValueInFrax v + VaultState.fraxBalance v
      + VaultState.usdcBalance v)%float
   /\ VaultState.network v = NetworkConfig.name (activeNetwork svc)
   /\ isConnected svc = true)
  /\ (VaultState.isOnline v = false -> v = offlineSnapshot).
Proof.
  intros Hv.
  destruct (getVaultState_cases rt ch svc) as [Hoff | (v' & Hread & Hconn & Hlive)].
  - rewrite Hoff in Hv. injection Hv as <-. split; [discriminate|done].
  - rewrite Hlive in Hv. injection Hv as <-.
    destruct (readVaultState_online rt ch svc v' Hread) as [Hon Htotal].
    split; [|congruence]. intros _. repeat split; try done.
    revert Hread. unfold readVaultState, wallet_address.
    destruct (wallet svc); [|discriminate].
    destruct (sFraxContract svc); [|discriminate].
    destruct (fraxContract svc); [|discriminate].
    destruct (usdcContract svc); [|discriminate].
    cbn.
    destruct (sFrax_balanceOf ch _) as [bal1|]; [|discriminate].
    destruct (frax_balanceOf ch _) as [bal2|]; [|discriminate].
    destruct (usdc_balanceOf ch _) as [bal3|]; [|discriminate].
    cbn.
    destruct (sFrax_convertToAssets ch bal1) as [val1|]; [|discriminate].
    cbn. by intros [= <-].
Qed.

End VaultInvariant.

Lemma vault_state_invariant_witness :
  exists v,
    FraxService.getVaultState host Fixture.funded Fixture.online = Normal v
    /\ VaultState.isOnline v = true
    /\ VaultState.totalValueUsd v = 567%float
    /\ VaultState.totalValueUsd v =
         (VaultState.sFraxValueInFrax v + VaultState.fraxBalance v
          + VaultState.usdcBalance v)%float
    /\ VaultState.network v = "Fraxtal".
Proof.
  eexists. split; [vm_compute; reflexivity|].
  split; [reflexivity|]. split; [reflexivity|].
  destruct (proj1 (vault_state_invariant host Fixture.funded Fixture.online
                     _ ltac:(vm_compute; reflexivity)) eq_refl)
    as (Htotal & Hnet & _).
  split; [exact Htotal | exact Hnet].
Defined.

(** ** The ledger client: transactions *)

Section Transactions.

Context (rt : Runtime) (ch : Chain) (ent : Entropy).

Import FraxService.

(** Destructs the stages of a [try] body, innermost first. *)
Ltac stages :=
  unfold try_catch, mbind, Completion_bind, mret, Completion_ret, mined,
    wallet_address, nonnull;
  cbv beta;
  repeat match goal with
    | |- context [match ?c with Normal _ => _ | Throw _ => _ end] =>
        lazymatch c with
        | context [match _ with Normal _ => _ | Throw _ => _ end] => fail
        | context [match _ with Some _ => _ | None => _ end] => fail
        | _ => destruct c eqn:?
        end
    | |- context [match ?o with Some _ => _ | None => _ end] =>
        destruct o eqn:?
    end.

(** X3: on the live path [depositToVault] reports one outcome for the
    approve-then-deposit pair and leaves the client as it was.  It reports
    success only when both transactions were mined, with the hash of the
    deposit; when the approval fails the result is a failure that carries
    the message of that error, whatever the deposit would have done. *)
Theorem deposit_is_all_or_nothing (amountFrax : number) (svc : t) :
  depositsLive svc = true ->
  exists r,
    depositToVault rt ch ent amountFrax svc = (Normal r, svc)
    /\ (TransactionResult.success r = true ->
        exists amount receiver approval receipt,
          parseUnits rt (number_toString rt amountFrax) 18 = Normal amount
          /\ mined (frax_approve ch
                      (NetworkConfig.sFraxAddress (activeNetwork svc)) amount)
             = Normal approval
          /\ wallet svc = Some (mkWallet receiver)
          /\ mined (sFrax_deposit ch amount receiver) = Normal receipt
          /\ TransactionResult.txHash r = Receipt.hash receipt)
    /\ (forall amount e,
          parseUnits rt (number_toString rt amountFrax) 18 = Normal amount ->
          mined (frax_approve ch
                   (NetworkConfig.sFraxAddress (activeNetwork svc)) amount)
            = Throw e ->
          TransactionResult.success r = false
          /\ TransactionResult.message r = "Deposit failed: " +:+ message e).
Proof.
  unfold depositsLive. intros Hlive. unfold depositToVault. rewrite Hlive.
  destruct (parseUnits rt (number_toString rt amountFrax) 18)
    as [amount|e0] eqn:Hparse; cbn.
  2:{ eexists. split; [done|]. split; [done|]. by intros amount e [=]. }
  destruct (mined (frax_approve ch _ amount)) as [approval|e1] eqn:Happrove;
    cbn.
  2:{ eexists. split; [done|]. split; [done|].
      intros amount' e [= <-]. rewrite Happrove. by intros [= <-]. }
  unfold wallet_address.
  destruct (wallet svc) as [[receiver]|] eqn:Hwallet; cbn.
  2:{ eexists. split; [done|]. split; [done|].
      intros amount' e [= <-]. by rewrite Happrove. }
  destruct (mined (sFrax_deposit ch amount receiver)) as [receipt|e2]
    eqn:Hdeposit; cbn.
  - eexists. split; [done|]. cbn. split.
    + intros _. by exists amount, receiver, approval, receipt.
    + intros amount' e [= <-]. by rewrite Happrove.
  - eexists. split; [done|]. split; [done|].
    intros amount' e [= <-]. by rewrite Happrove.
Qed.

(** X4: whatever the mode and the outcome, the result of a transaction
    method is coherent: a failure carries an empty transaction hash and no
    explorer link, and an explorer link is only given on success and is
    the explorer address of the result's own hash. *)
Theorem transaction_results_are_coherent (svc : t) :
  (forall amount r,
     fst (depositToVault rt ch ent amount svc) = Normal r ->
     resultCoherent svc r)
  /\ (forall shares r,
        redeemFromVault rt ch ent shares svc = Normal r ->
        resultCoherent svc r)
  /\ (forall to amount r,
        transferFrax rt ch ent to amount svc = Normal r ->
        resultCoherent svc r)
  /\ (forall h metadata r,
        storeEvidenceHash ch ent h metadata svc = Normal r ->
        resultCoherent svc r).
Proof.
  unfold resultCoherent. repeat split.
  all: revert H;
    unfold depositToVault, redeemFromVault, transferFrax, storeEvidenceHash;
    match goal with
    | |- context [if ?g then _ else _] => destruct g
    end; cbn [fst]; stages; intros [= <-]; cbn in *; congruence.
Qed.

(** X5: a deposit made without a connection is acknowledged as a success
    and added to the demo balance of the client, but it does not show: the
    client is still not connected and the vault state it reports
    afterwards is still the all-zero offline snapshot. *)
Theorem simulated_deposit_does_not_show (ch' : Chain) (amountFrax : number)
    (svc : t) :
  isConnected svc = false ->
  exists r svc',
    depositToVault rt ch ent amountFrax svc = (Normal r, svc')
    /\ TransactionResult.success r = true
    /\ fallbackBaseBalance svc'
       = (fallbackBaseBalance svc + amountFrax)%float
    /\ isConnected svc' = false
    /\ getVaultState rt ch' svc' = Normal offlineSnapshot.
Proof.
  intros Hoff. unfold depositToVault. rewrite Hoff. cbn.
  eexists _, _. split; [done|]. cbn. repeat split; try done.
  unfold getVaultState. cbn. by rewrite Hoff.
Qed.

(** X6: the transaction id synthesized on the simulated path has the
    shape of a real transaction hash: [0x] followed by 64 lowercase
    hexadecimal digits. *)
Theorem fakeTxHash_is_hash_shaped : hashShaped (fakeTxHash ent).
Proof.
  unfold fakeTxHash. eexists. split; [reflexivity|].
  rewrite <- length_chars, chars_join_singletons, length_map, length_seq.
  split; [done|].
  apply forallb_forall. intros c Hc. apply in_map_iff in Hc.
  destruct Hc as (i & <- & _). apply hex_char_isHexDigit.
Qed.

End Transactions.

Lemma deposit_is_all_or_nothing_witness :
  depositsLive Fixture.online = true
  /\ exists r e,
       FraxService.depositToVault host Fixture.unreachable Fixture.entropy
         12.5 Fixture.online = (Normal r, Fixture.online)
       /\ mined (frax_approve Fixture.unreachable
                   "0xfc00000000000000000000000000000000000008"
                   12500000000000000000) = Throw e
       /\ TransactionResult.success r = false
       /\ TransactionResult.message r = "Deposit failed: network error".
Proof.
  split; [reflexivity|].
  destruct (deposit_is_all_or_nothing host Fixture.unreachable
              Fixture.entropy 12.5 Fixture.online eq_refl)
    as (r & Hr & _ & Hfail).
  exists r, (mkError "network error").
  split; [exact Hr|]. split; [reflexivity|].
  exact (Hfail 12500000000000000000%Z (mkError "network error")
           ltac:(vm_compute; reflexivity) eq_refl).
Defined.

Lemma simulated_deposit_does_not_show_witness :
  exists r svc',
    FraxService.depositToVault host Fixture.unreachable Fixture.entropy
      300 Fixture.offline = (Normal r, svc')
    /\ TransactionResult.success r = true
    /\ FraxService.fallbackBaseBalance svc' = 1550%float
    /\ FraxService.getVaultState host Fixture.funded svc'
       = Normal offlineSnapshot.
Proof.
  destruct (simulated_deposit_does_not_show host Fixture.unreachable
              Fixture.entropy Fixture.funded 300 Fixture.offline eq_refl)
    as (r & svc' & Hr & Hok & Hbal & _ & Hv).
  exists r, svc'. repeat split; assumption.
Defined.

Lemma transaction_results_are_coherent_witness :
  exists r,
    FraxService.transferFrax host Fixture.transferRejected Fixture.entropy
      Fixture.safeContact 560 Fixture.online = Normal r
    /\ TransactionResult.success r = false
    /\ TransactionResult.message r = "Transfer failed: execution reverted"
    /\ resultCoherent Fixture.online r.
Proof.
  eexists. split; [vm_compute; reflexivity|].
  split; [reflexivity|]. split; [reflexivity|].
  apply (proj1 (proj2 (proj2 (transaction_results_are_coherent host
                                Fixture.transferRejected Fixture.entropy
                                Fixture.online)))
           Fixture.safeContact 560%float).
  vm_compute. reflexivity.
Defined.

(** ** The ledger client: more on the SOS protocol *)

Lemma length_substring_0 (n : nat) (s : string) :
  String.length (String.substring 0 n s) = Nat.min n (String.length s).
Proof.
  revert n. induction s as [|c s IH]; intros [|n]; cbn; try done.
  by rewrite IH.
Qed.

Lemma length_remove_dashes (s : string) :
  (String.length (remove_dashes s) <= String.length s)%nat.
Proof.
  induction s as [|c s IH]; cbn; [done|].
  destruct (Ascii.eqb c "-"); cbn; lia.
Qed.

Lemma remove_dashes_no_dash (s : string) :
  forallb (fun c => negb (Ascii.eqb c "-")) (chars (remove_dashes s)) = true.
Proof.
  induction s as [|c s IH]; cbn; [done|].
  destruct (Ascii.eqb c "-") eqn:Hc; [done|]. cbn.
  change (negb (Ascii.eqb c "-") && forallb (fun c => negb (Ascii.eqb c "-"))
            (chars (remove_dashes s)) = true).
  by rewrite Hc, IH.
Qed.

(** X7: the id synthesized by the SOS protocol is [0x] followed by the
    characters of the UUID without its dashes, 64 of them at most.  A
    UUID has fewer than 64 characters, so this id is shorter than a
    transaction hash and does not have its shape. *)
Theorem sos_demo_id_is_not_hash_shaped (uuid : string) :
  (String.length uuid < 64)%nat ->
  FraxService.fakeTx uuid = "0x" +:+ remove_dashes uuid
  /\ (String.length (FraxService.fakeTx uuid) < 66)%nat
  /\ ~ hashShaped (FraxService.fakeTx uuid).
Proof.
  intros Hlen.
  pose proof (length_remove_dashes uuid) as Hle.
  assert (Hid : FraxService.fakeTx uuid = "0x" +:+ remove_dashes uuid).
  { unfold FraxService.fakeTx, slice. f_equal.
    generalize dependent (remove_dashes uuid). intros s Hs.
    assert (Hs' : (String.length s <= 64 - 0)%nat) by lia.
    revert Hs'. generalize (64 - 0)%nat. clear.
    induction s as [|c s IH]; intros [|n] Hn; cbn in *; try done; try lia.
    f_equal. apply IH. lia. }
  split; [exact Hid|].
  assert (Hlt : (String.length (FraxService.fakeTx uuid) < 66)%nat).
  { rewrite Hid, length_append. cbn. lia. }
  split; [exact Hlt|].
  intros (body & Hbody & Hlen64 & _).
  rewrite Hbody, length_append, Hlen64 in Hlt. cbn in Hlt. lia.
Qed.

Lemma sos_demo_id_is_not_hash_shaped_witness :
  (String.length "123e4567-e89b-42d3-a456-426614174000" < 64)%nat
  /\ FraxService.fakeTx "123e4567-e89b-42d3-a456-426614174000"
     = "0x123e4567e89b42d3a456426614174000"
  /\ ~ hashShaped (FraxService.fakeTx "123e4567-e89b-42d3-a456-426614174000").
Proof.
  assert (H : (String.length "123e4567-e89b-42d3-a456-426614174000" < 64)%nat)
    by (cbn; lia).
  split; [exact H|].
  destruct (sos_demo_id_is_not_hash_shaped _ H) as (Hid & _ & Hshape).
  split; [exact Hid | exact Hshape].
Defined.

Section SosRuns.

Context (rt : Runtime) (ch : Chain) (ent : Entropy).

Import FraxService.

(** A completed liquidation keeps the log so far and adds one id when
    there were shares, none otherwise. *)
Lemma liquidate_completed (v : VaultState.t) (svc : t) (j j' : Journal) :
  liquidate rt ch ent v svc j = (Normal tt, j') ->
  (exists more, logs j' = logs j ++ more)
  /\ length (txHashes j') =
       (length (txHashes j)
        + if (0 <? VaultState.sFraxBalance v)%float then 1 else 0)%nat.
Proof.
  unfold liquidate.
  destruct (0 <? VaultState.sFraxBalance v)%float.
  2:{ intros [= <-]. split; [exists []; by rewrite app_nil_r | lia]. }
  unfold mbind, Sos_bind, await, logs_push, txHashes_push. cbn.
  destruct (isConnected svc && truthy (sFraxContract svc)).
  - destruct (parseUnits rt _ 18) as [shares|e]; [|discriminate].
    destruct (wallet_address svc) as [addr|e]; [|discriminate].
    destruct (mined _) as [r|e]; [|discriminate].
    intros [= <-]. cbn. rewrite <- app_assoc, length_app. cbn.
    split; [by eexists | lia].
  - destruct (crypto_randomUUID ent 0) as [uuid|e]; [|discriminate].
    intros [= <-]. cbn. rewrite <- app_assoc, length_app. cbn.
    split; [by eexists | lia].
Qed.

(** A completed transfer keeps the log so far and adds one id. *)
Lemma transferOut_completed (dest : string) (total : number) (svc : t)
    (j j' : Journal) :
  transferOut rt ch ent dest total svc j = (Normal tt, j') ->
  (exists more, logs j' = logs j ++ more)
  /\ length (txHashes j') = S (length (txHashes j)).
Proof.
  unfold transferOut, mbind, Sos_bind, await, logs_push, txHashes_push. cbn.
  destruct (isConnected svc && truthy (fraxContract svc)).
  - destruct (parseUnits rt _ 18) as [amount|e]; [|discriminate].
    destruct (mined _) as [r|e]; [|discriminate].
    intros [= <-]. cbn. rewrite <- !app_assoc, length_app. cbn.
    split; [by eexists | lia].
  - destruct (crypto_randomUUID ent 1) as [uuid|e]; [|discriminate].
    intros [= <-]. cbn. rewrite <- !app_assoc, length_app. cbn.
    split; [by eexists | lia].
Qed.

(** X8: a successful SOS run returns two transaction ids when the vault
    state it read holds shares (one for the liquidation, one for the
    transfer) and a single one when it holds none; its log opens with the
    initiation line and closes with the completion line, and the demo
    balance of the client is reset to zero. *)
Theorem sos_success_ids_and_log (dest : string) (svc svc' : t)
    (r : SOSResult.t) :
  triggerSOS rt ch ent dest svc = (Normal r, svc') ->
  SOSResult.success r = true ->
  exists v,
    getVaultState rt ch svc = Normal v
    /\ length (SOSResult.txHashes r) =
         (if (0 <? VaultState.sFraxBalance v)%float then 2 else 1)%nat
    /\ head (SOSResult.logs r) = Some "⚠️ INITIATING SOS PROTOCOL..."
    /\ last (SOSResult.logs r)
       = Some "✅ SOS Protocol Complete. Funds secured."
    /\ svc' = set_fallbackBaseBalance 0 svc.
Proof.
  unfold triggerSOS.
  destruct (sosSteps_unfold rt ch ent dest svc) as (v & Hv & ->).
  destruct (liquidate rt ch ent v svc (afterReading rt v))
    as [[[]|e] j] eqn:Hliq; [|intros [= <- <-]; discriminate].
  destruct (transferOut rt ch ent dest (totalOf v) svc j)
    as [[[]|e] j'] eqn:Hout; [|intros [= <- <-]; discriminate].
  intros [= <- <-] _. exists v. split; [exact Hv|]. cbn.
  destruct (liquidate_completed _ _ _ _ Hliq) as ((m1 & Hl1) & Hn1).
  destruct (transferOut_completed _ _ _ _ _ Hout) as ((m2 & Hl2) & Hn2).
  split.
  { rewrite Hn2, Hn1. cbn.
    by destruct (0 <? VaultState.sFraxBalance v)%float. }
  split; [by rewrite Hl2, Hl1|]. split; [apply last_snoc | done].
Qed.

(** X9: when the redeem of the liquidation step is rejected, the run stops
    there: no transfer is attempted, the result is a failure without any
    transaction id, and its log ends with the error right after the
    liquidation line. *)
Theorem rejected_redeem_stops_the_run (dest : string) (svc : t)
    (v : VaultState.t) (shares : Z) (owner : string) (e : Error) :
  getVaultState rt ch svc = Normal v ->
  (0 <? VaultState.sFraxBalance v)%float = true ->
  redeemsLive svc = true ->
  parseUnits rt (number_toString rt (VaultState.sFraxBalance v)) 18
    = Normal shares ->
  wallet svc = Some (mkWallet owner) ->
  mined (sFrax_redeem ch shares owner owner) = Throw e ->
  triggerSOS rt ch ent dest svc =
    (Normal
       {| SOSResult.success := false;
          SOSResult.liquidatedAmount := 0;
          SOSResult.transferredAmount := 0;
          SOSResult.destinationAddress := dest;
          SOSResult.txHashes := [];
          SOSResult.logs :=
            ["⚠️ INITIATING SOS PROTOCOL...";
             "Balance detected: "
             +:+ number_toFixed rt (VaultState.sFraxBalance v) 2
             +:+ " sFRAX";
             "Liquidating sFRAX positions...";
             "❌ Error: " +:+ message e] |},
     svc).
Proof.
  unfold redeemsLive. intros Hv Hpos Hlive Hparse Hwallet Hredeem.
  unfold triggerSOS.
  destruct (sosSteps_unfold rt ch ent dest svc) as (v' & Hv' & ->).
  rewrite Hv in Hv'. injection Hv' as <-.
  unfold liquidate. rewrite Hpos, Hlive.
  unfold mbind, Sos_bind, await, logs_push, txHashes_push, wallet_address.
  cbn. rewrite Hparse, Hwallet. cbn. rewrite Hredeem. reflexivity.
Qed.

End SosRuns.

Lemma sos_success_ids_and_log_witness :
  exists r svc',
    FraxService.triggerSOS host Fixture.funded Fixture.entropy
      Fixture.safeContact Fixture.online = (Normal r, svc')
    /\ SOSResult.success r = true
    /\ length (SOSResult.txHashes r) = 2%nat
    /\ last (SOSResult.logs r)
       = Some "✅ SOS Protocol Complete. Funds secured.".
Proof.
  eexists _, _. split; [vm_compute; reflexivity|].
  split; [reflexivity|].
  destruct (sos_success_ids_and_log host Fixture.funded Fixture.entropy
              Fixture.safeContact Fixture.online _ _
              ltac:(vm_compute; reflexivity) eq_refl)
    as (v & Hv & Hids & _ & Hlast & _).
  split; [|exact Hlast].
  revert Hv Hids. vm_compute. by intros [= <-].
Defined.

Lemma rejected_redeem_stops_the_run_witness :
  exists v,
    FraxService.getVaultState host Scenario.redeemRejected Fixture.online
      = Normal v
    /\ (0 <? VaultState.sFraxBalance v)%float = true
    /\ FraxService.triggerSOS host Scenario.redeemRejected Fixture.entropy
         Fixture.safeContact Fixture.online =
       (Normal
          {| SOSResult.success := false;
             SOSResult.liquidatedAmount := 0;
             SOSResult.transferredAmount := 0;
             SOSResult.destinationAddress := Fixture.safeContact;
             SOSResult.txHashes := [];
             SOSResult.logs :=
               ["⚠️ INITIATING SOS PROTOCOL...";
                "Balance detected: 500.00 sFRAX";
                "Liquidating sFRAX positions...";
                "❌ Error: insufficient gas"] |},
        Fixture.online).
Proof.
  eexists. split; [vm_compute; reflexivity|]. split; [reflexivity|].
  exact (rejected_redeem_stops_the_run host Scenario.redeemRejected
           Fixture.entropy Fixture.safeContact Fixture.online _
           (500 * 10 ^ 18)%Z "0x1111111111111111111111111111111111111111"
           (mkError "insufficient gas")
           ltac:(vm_compute; reflexivity) eq_refl eq_refl
           ltac:(vm_compute; reflexivity) eq_refl eq_refl).
Defined.

(** ** The agent: what is persisted *)

Section Persistence.

Context (rt : Runtime).

Import AthenaAgent.

Lemma saveState_store (this : t) (items : gmap string Item) :
  localStorage this = Store items ->
  saveState this =
    set_localStorage
      (Store (<["athena_agent_state" := StateJson (stringify this)]> items))
      this.
Proof. intros H. unfold saveState. by rewrite H. Qed.

Lemma saveState_inSync (items0 : gmap string Item) (this : t) :
  keepsOthers items0 this ->
  keepsOthers items0 (saveState this) /\ inSync (saveState this).
Proof.
  intros (items & Hls & Hframe). rewrite (saveState_store _ _ Hls). split.
  - eexists. split; [reflexivity|]. intros key Hkey.
    rewrite lookup_insert_ne by done. by apply Hframe.
  - unfold inSync, storedState. cbn. by rewrite lookup_insert_eq.
Qed.

Lemma perceive_inSync (items0 : gmap string Item) (ch : Chain) (now : Z)
    (this : t) :
  keepsOthers items0 this ->
  let this' := snd (perceiveFinancialState rt ch now this) in
  keepsOthers items0 this' /\ inSync this'.
Proof.
  intros H. unfold perceiveFinancialState.
  destruct (getVaultState_returns rt ch (fraxService this)) as [v ->].
  cbn. by apply saveState_inSync.
Qed.

Lemma set_fraxService_inSync (items0 : gmap string Item)
    (svc : FraxService.t) (this : t) :
  keepsOthers items0 this /\ inSync this ->
  keepsOthers items0 (set_fraxService svc this)
  /\ inSync (set_fraxService svc this).
Proof. done. Qed.

(** X10: over an available store, every operation that changes the
    state record other than the SOS and the wipe (opening a case,
    securing evidence, computing the budget, optimizing the yield and the
    three readings of the vault) leaves the persisted copy equal to the
    serialized state, and touches no other key of the store. *)
Theorem saved_state_follows_the_state (op : Op) (this : t)
    (items : gmap string Item) :
  savesState op = true ->
  localStorage this = Store items ->
  inSync (step rt op this) /\ keepsOthers items (step rt op this).
Proof.
  intros Hop Hls.
  assert (keepsOthers items this) as Hpre by by exists items.
  cut (keepsOthers items (step rt op this) /\ inSync (step rt op this));
    [tauto|].
  destruct op; try discriminate; cbn [step].
  - by apply saveState_inSync.
  - unfold secureEvidence.
    destruct (storeEvidenceHash_returns (EvidenceEnv.chain env)
                (EvidenceEnv.entropy env)
                (generateHash rt (content +:+ pretty (EvidenceEnv.nowHash env)))
                (JSON_stringify rt <$> metadata) (fraxService this))
      as (r & -> & _).
    cbn. by apply saveState_inSync.
  - by apply saveState_inSync.
  - unfold optimizeYield.
    pose proof (perceive_inSync items (YieldEnv.chainBefore env)
                  (YieldEnv.nowBefore env) this Hpre) as H1.
    destruct (perceiveFinancialState rt (YieldEnv.chainBefore env)
                (YieldEnv.nowBefore env) this) as [[v1|e] this1];
      cbn in H1; [|done].
    destruct (VaultState.fraxBalance v1 <? 1)%float; [done|].
    destruct (FraxService.depositToVault rt _ _ _ _) as [[r|e] svc];
      [|by apply set_fraxService_inSync].
    destruct (TransactionResult.success r);
      [|by apply set_fraxService_inSync].
    pose proof (perceive_inSync items (YieldEnv.chainAfter env)
                  (YieldEnv.nowAfter env) (set_fraxService svc this1)
                  (proj1 (set_fraxService_inSync items svc this1 H1))) as H2.
    by destruct (perceiveFinancialState rt (YieldEnv.chainAfter env)
                   (YieldEnv.nowAfter env) (set_fraxService svc this1))
      as [[v2|e] this3].
  - by apply perceive_inSync.
  - unfold quickBalanceCheck.
    pose proof (perceive_inSync items ch now this Hpre) as H1.
    by destruct (perceiveFinancialState rt ch now this) as [[v|e] this1].
  - unfold getPoolStatus.
    pose proof (perceive_inSync items ch now this Hpre) as H1.
    destruct (perceiveFinancialState rt ch now this) as [[v|e] this1];
      [|done].
    by destruct (AgentState.escapePlan (state this1)).
Qed.

(** Reading back a store that holds a saved state with a case. *)
Lemma new_restores_case (now : Z) (svc : FraxService.t)
    (items : gmap string Item) (saved : SavedState.t) (c : AthenaCase.t) :
  items !! "athena_agent_state" = Some (StateJson saved) ->
  SavedState.case saved = Some c ->
  let re := new now svc (Store items) in
  AgentState.case (state re) = Some 0%nat /\ heap re = [c].
Proof.
  intros Hitem Hcase. unfold new, loadState. cbn. rewrite Hitem. cbn.
  by rewrite Hcase.
Qed.

(** X11: the mark of an SOS is made in memory only.  When the ledger
    run fails, the case of the running agent reads [EVACUATED], while the
    persisted copy is the one from before the call, with the case as it
    was; an agent built from that store afterwards (a reload of the page)
    has the case back with its old status. *)
Theorem failed_sos_mark_is_lost_on_reload (ch : Chain) (ent : Entropy)
    (now : Z) (dest : string) (this this' : t) (r : SOSResult.t)
    (ref : CaseRef) (c : AthenaCase.t) :
  triggerSOS rt ch ent now dest this = (Normal r, this') ->
  SOSResult.success r = false ->
  AgentState.case (state this) = Some ref ->
  heap this !! ref = Some c ->
  inSync this ->
  SavedState.case (stringify this')
    = Some (AthenaCase.set_status EVACUATED c)
  /\ storedState this' = Some (StateJson (stringify this))
  /\ forall now' svc,
       let re := new now' svc (localStorage this') in
       exists ref',
         AgentState.case (state re) = Some ref'
         /\ heap re !! ref' = Some c.
Proof.
  intros Hrun Hfail Hcase Hc Hsync.
  pose proof (failed_sos_leaves_store rt _ _ _ _ _ _ _ Hrun Hfail) as Hls.
  assert (state this' = state this /\ heap this' = heap (markEvacuated this))
    as [Hst Hheap].
  { revert Hrun. unfold triggerSOS, triggerSOS_over.
    destruct (FraxService.triggerSOS rt ch ent dest _) as [[r0|e] svc];
      [|discriminate].
    destruct (SOSResult.success r0) eqn:Hok.
    - destruct (clearLocalState now _) as [[[]|e] this3];
        [|discriminate].
      intros [= <- <-]. congruence.
    - intros [= <- <-]. split; [apply markEvacuated_state|done]. }
  split; [|split].
  - unfold stringify. rewrite Hst, Hcase, Hheap. cbn.
    by apply markEvacuated_lookup.
  - unfold inSync, storedState in *. by rewrite Hls.
  - intros now' svc. rewrite Hls.
    unfold inSync, storedState in Hsync.
    destruct (localStorage this) as [| |items]; [done|done|].
    assert (SavedState.case (stringify this) = Some c) as Hsaved.
    { unfold stringify. cbn. rewrite Hcase. exact Hc. }
    destruct (new_restores_case now' svc items _ c Hsync Hsaved)
      as (H1 & H2).
    exists 0%nat. cbv zeta. by rewrite H1, H2.
Qed.

(** X12: an agent built from the store a wipe leaves starts from the
    empty state with no case object, whatever the store was; and the wipe
    removes the three keys of the application and nothing else. *)
Theorem wipe_survives_reload (now now' : Z) (svc : FraxService.t) (this : t) :
  let wiped := snd (clearLocalState now this) in
  new now' svc (localStorage wiped)
    = mk (emptyState now') [] svc (localStorage wiped)
  /\ storedState wiped = None
  /\ forall items,
       localStorage this = Store items ->
       exists items',
         localStorage wiped = Store items'
         /\ items' !! "athena_agent_state" = None
         /\ items' !! "athena_evidence" = None
         /\ items' !! "athena_plan" = None
         /\ forall key,
              key <> "athena_agent_state" -> key <> "athena_evidence" ->
              key <> "athena_plan" ->
              items' !! key = items !! key.
Proof.
  rewrite clearLocalState_spec. cbn. unfold new, loadState, storedState.
  destruct (localStorage this) as [| |items] eqn:Hls; cbn.
  - split; [done|]. split; [done|]. by intros ? [=].
  - split; [done|]. split; [done|]. by intros ? [=].
  - assert (delete "athena_plan"
              (delete "athena_evidence" (delete "athena_agent_state" items))
              !! "athena_agent_state" = None) as Hnone.
    { rewrite !lookup_delete. by repeat case_decide. }
    rewrite Hnone. cbn. split; [done|]. split; [done|].
    intros ? [= <-]. eexists. split; [done|].
    repeat split; try (rewrite !lookup_delete; by repeat case_decide).
    intros key H1 H2 H3. by rewrite !lookup_delete_ne.
Qed.

End Persistence.

Lemma saved_state_follows_the_state_witness :
  let this' :=
    AthenaAgent.step host
      (AthenaAgent.CalculateFreedomBudget Fixture.springfield) Fixture.fresh in
  inSync this' /\ keepsOthers ∅ this'.
Proof.
  exact (saved_state_follows_the_state host
           (AthenaAgent.CalculateFreedomBudget Fixture.springfield)
           Fixture.fresh ∅ eq_refl ltac:(vm_compute; reflexivity)).
Defined.

Lemma failed_sos_mark_is_lost_on_reload_witness :
  let c :=
    {| AthenaCase.caseId := "ATHENA-1700000000000-K3J5H2";
       AthenaCase.depositAddress :=
         "0x1111111111111111111111111111111111111111";
       AthenaCase.createdAt := 1700000000000;
       AthenaCase.status := ACTIVE |} in
  SavedState.case (AthenaAgent.stringify Fixture.evacuated)
    = Some (AthenaCase.set_status EVACUATED c)
  /\ forall now' svc,
       let re :=
         AthenaAgent.new now' svc (AthenaAgent.localStorage Fixture.evacuated)
       in
       exists ref', AthenaAgent.heap re !! ref' = Some c.
Proof.
  intros c.
  assert (exists r,
            AthenaAgent.triggerSOS host Fixture.transferRejected
              Fixture.entropy 5 Fixture.safeContact Fixture.engaged
              = (Normal r, Fixture.evacuated)
            /\ SOSResult.success r = false) as (r & Hrun & Hfail).
  { eexists. split; vm_compute; reflexivity. }
  destruct (failed_sos_mark_is_lost_on_reload host _ _ _ _ _ _ _ 0%nat c
              Hrun Hfail ltac:(vm_compute; reflexivity)
              ltac:(vm_compute; reflexivity) ltac:(vm_compute; reflexivity))
    as (Hmem & _ & Hreload).
  split; [exact Hmem|]. intros now' svc.
  destruct (Hreload now' svc) as (ref' & _ & Hc). by exists ref'.
Defined.

(** ** The agent: cases, evidence and yield *)

Section AgentActions.

Context (rt : Runtime).

Import AthenaAgent.

Lemma stringify_saveState (this : t) :
  state (saveState this) = state this
  /\ heap (saveState this) = heap this
  /\ fraxService (saveState this) = fraxService this.
Proof. done. Qed.

(** X13: [createAnonymousCase] always allocates a new case object,
    [ACTIVE], stamped with the time of the call and bound to the address
    of the ledger client, and makes it the case of the state, also when
    the agent already had a case: the case objects allocated before stay
    as they were, and the evidence list, the plan and the vault snapshot
    carry over to the new case. *)
Theorem createAnonymousCase_allocates (timestamp : Z) (random36 : string)
    (this : t) :
  let ref := fst (createAnonymousCase timestamp random36 this) in
  let this' := snd (createAnonymousCase timestamp random36 this) in
  heap this !! ref = None
  /\ AgentState.case (state this') = Some ref
  /\ heap this' !! ref
     = Some
         {| AthenaCase.caseId :=
              "ATHENA-" +:+ pretty timestamp +:+ "-"
              +:+ toUpperCase (substring 2 8 random36);
            AthenaCase.depositAddress :=
              FraxService.getAddress (fraxService this);
            AthenaCase.createdAt := timestamp;
            AthenaCase.status := ACTIVE |}
  /\ (forall old c, heap this !! old = Some c -> heap this' !! old = Some c)
  /\ AgentState.evidence (state this') = AgentState.evidence (state this)
  /\ AgentState.escapePlan (state this')
     = AgentState.escapePlan (state this)
  /\ AgentState.vaultState (state this')
     = AgentState.vaultState (state this).
Proof.
  unfold createAnonymousCase. cbn [fst snd].
  destruct (stringify_saveState
    (set_state
       (AgentState.mk (Some (length (heap this)))
          (AgentState.evidence (state this))
          (AgentState.escapePlan (state this))
          (AgentState.vaultState (state this))
          (AgentState.lastUpdated (state this)))
       (set_heap
          (heap this ++
           [{| AthenaCase.caseId :=
                 "ATHENA-" +:+ pretty timestamp +:+ "-"
                 +:+ toUpperCase (substring 2 8 random36);
               AthenaCase.depositAddress :=
                 FraxService.getAddress (fraxService this);
               AthenaCase.createdAt := timestamp;
               AthenaCase.status := ACTIVE |}]) this)))
    as (Hst & Hheap & _).
  cbv zeta. rewrite Hst, Hheap. cbn.
  split; [by apply lookup_ge_None_2|]. split; [done|].
  split; [by apply list_lookup_middle|].
  split; [|done]. intros old c Hold. by apply lookup_app_l_Some.
Qed.

(** The deposit returns a result, whatever the chain does. *)
Lemma depositToVault_returns (ch : Chain) (ent : Entropy) (amount : number)
    (svc : FraxService.t) :
  exists r svc',
    FraxService.depositToVault rt ch ent amount svc = (Normal r, svc').
Proof.
  unfold FraxService.depositToVault.
  destruct (_ && _ && _); [|by eexists _, _].
  unfold try_catch.
  match goal with
  | |- context [match ?body with Normal _ => _ | Throw _ => _ end] =>
      destruct body
  end; by eexists _, _.
Qed.

(** X14: [optimizeYield] always returns a result.  It reads the vault
    first; with less than one idle FRAX it stakes nothing and leaves the
    ledger client alone.  It reports success only when the deposit of the
    whole idle balance succeeded, and then reads the vault again and
    reports the share balance of that second reading, with a monthly
    yield computed from it at the rate of the first reading.  A result
    that is not a success reports the old balance as the new one and no
    yield. *)
Theorem optimizeYield_reports (env : YieldEnv.t) (this : t) :
  exists v1 result this',
    fst (perceiveFinancialState rt (YieldEnv.chainBefore env)
           (YieldEnv.nowBefore env) this) = Normal v1
    /\ optimizeYield rt env this = (Normal result, this')
    /\ YieldOptimizationResult.previousBalance result
       = VaultState.sFraxBalance v1
    /\ YieldOptimizationResult.apy result = VaultState.apy v1
    /\ ((VaultState.fraxBalance v1 <? 1)%float = true ->
        YieldOptimizationResult.success result = false
        /\ YieldOptimizationResult.message result
           = "No idle FRAX available to stake"
        /\ fraxService this' = fraxService this)
    /\ (YieldOptimizationResult.success result = true ->
        (VaultState.fraxBalance v1 <? 1)%float = false
        /\ exists deposit v2,
             fst (FraxService.depositToVault rt (YieldEnv.chainDeposit env)
                    (YieldEnv.entropy env) (VaultState.fraxBalance v1)
                    (fraxService this)) = Normal deposit
             /\ TransactionResult.success deposit = true
             /\ AgentState.vaultState (state this') = Some v2
             /\ YieldOptimizationResult.newBalance result
                = VaultState.sFraxBalance v2
             /\ YieldOptimizationResult.projectedMonthlyYield result
                = (VaultState.sFraxBalance v2
                   * (VaultState.apy v1 / 100) / 12)%float)
    /\ (YieldOptimizationResult.success result = false ->
        YieldOptimizationResult.newBalance result
          = YieldOptimizationResult.previousBalance result
        /\ YieldOptimizationResult.projectedMonthlyYield result = 0%float).
Proof.
  unfold optimizeYield, perceiveFinancialState.
  destruct (getVaultState_returns rt (YieldEnv.chainBefore env)
              (fraxService this)) as [v1 ->].
  cbn [fst]. exists v1.
  destruct (VaultState.fraxBalance v1 <? 1)%float eqn:Hidle.
  { eexists _, _. split; [done|]. split; [done|]. cbn.
    repeat split; done. }
  cbn [fraxService saveState set_state set_localStorage].
  destruct (depositToVault_returns (YieldEnv.chainDeposit env)
              (YieldEnv.entropy env) (VaultState.fraxBalance v1)
              (fraxService this)) as (deposit & svc & Hdep).
  rewrite Hdep. cbn [fst].
  destruct (TransactionResult.success deposit) eqn:Hok.
  2:{ eexists _, _. split; [done|]. split; [done|]. cbn.
      repeat split; done. }
  cbn [fraxService set_fraxService].
  destruct (getVaultState_returns rt (YieldEnv.chainAfter env) svc)
    as [v2 ->].
  eexists _, _. split; [done|]. split; [done|]. cbn.
  split; [done|]. split; [done|]. split; [done|]. split; [|done].
  intros _. split; [done|]. by exists deposit, v2.
Qed.

(** X15: without a connection [optimizeYield] never stakes: the vault
    reads as the offline snapshot, which holds no idle FRAX, so the call
    reports that there is nothing to stake and leaves the ledger client
    as it was, whatever the chain would answer and whatever was deposited
    in demo mode before. *)
Theorem optimizeYield_offline (env : YieldEnv.t) (this : t) :
  FraxService.isConnected (fraxService this) = false ->
  exists this',
    optimizeYield rt env this =
      (Normal
         {| YieldOptimizationResult.success := false;
            YieldOptimizationResult.previousBalance := 0;
            YieldOptimizationResult.newBalance := 0;
            YieldOptimizationResult.apy := 5.4;
            YieldOptimizationResult.projectedMonthlyYield := 0;
            YieldOptimizationResult.message :=
              "No idle FRAX available to stake" |},
       this')
    /\ fraxService this' = fraxService this
    /\ AgentState.vaultState (state this') = Some offlineSnapshot.
Proof.
  intros Hoff. unfold optimizeYield, perceiveFinancialState.
  unfold FraxService.getVaultState. rewrite Hoff. cbn.
  by eexists.
Qed.

(** X16: evidence secured while the ledger client cannot store is kept
    as [ON_CHAIN], with the synthesized transaction id: the chain is not
    consulted, and the record is the same whatever the chain would have
    answered. *)
Theorem offline_evidence_is_marked_on_chain (env : EvidenceEnv.t)
    (content : string) (type : EvidenceType) (metadata : option Metadata.t)
    (this : t) :
  storesLive (fraxService this) = false ->
  exists record this',
    secureEvidence rt env content type metadata this = (Normal record, this')
    /\ EvidenceRecord.status record = ON_CHAIN
    /\ EvidenceRecord.txHash record
       = Some (FraxService.fakeTxHash (EvidenceEnv.entropy env))
    /\ EvidenceRecord.hash record
       = generateHash rt (content +:+ pretty (EvidenceEnv.nowHash env))
    /\ forall ch',
         secureEvidence rt
           (EvidenceEnv.mk (EvidenceEnv.nowHash env) (EvidenceEnv.nowId env)
              (EvidenceEnv.random36 env) (EvidenceEnv.nowStamp env) ch'
              (EvidenceEnv.entropy env))
           content type metadata this
         = (Normal record, this').
Proof.
  unfold storesLive. intros Hoff.
  unfold secureEvidence, FraxService.storeEvidenceHash. cbn.
  rewrite Hoff. cbn. by eexists _, _.
Qed.

End AgentActions.

Lemma optimizeYield_offline_witness :
  exists this',
    AthenaAgent.optimizeYield host Scenario.yieldEnv Scenario.unplugged =
      (Normal
         {| YieldOptimizationResult.success := false;
            YieldOptimizationResult.previousBalance := 0;
            YieldOptimizationResult.newBalance := 0;
            YieldOptimizationResult.apy := 5.4;
            YieldOptimizationResult.projectedMonthlyYield := 0;
            YieldOptimizationResult.message :=
              "No idle FRAX available to stake" |},
       this').
Proof.
  destruct (optimizeYield_offline host Scenario.yieldEnv Scenario.unplugged
              eq_refl) as (this' & H & _).
  by exists this'.
Defined.

Lemma offline_evidence_is_marked_on_chain_witness :
  exists record this',
    AthenaAgent.secureEvidence host Fixture.evidenceEnv "a note" TEXT None
      Scenario.unplugged = (Normal record, this')
    /\ EvidenceRecord.status record = ON_CHAIN.
Proof.
  destruct (offline_evidence_is_marked_on_chain host Fixture.evidenceEnv
              "a note" TEXT None Scenario.unplugged eq_refl)
    as (record & this' & H & Hstatus & _).
  by exists record, this'.
Defined.

(** ** The hash of a piece of evidence *)

Lemma hexdigit_inj (n m : N) :
  (n < 16)%N -> (m < 16)%N ->
  hex_char (hexdigit_of_N n) = hex_char (hexdigit_of_N m) -> n = m.
Proof.
  intros Hn Hm.
  assert (exists k, (k < 16)%nat /\ n = N.of_nat k) as (k & Hk & ->)
    by (exists (N.to_nat n); lia).
  assert (exists j, (j < 16)%nat /\ m = N.of_nat j) as (j & Hj & ->)
    by (exists (N.to_nat m); lia).
  clear Hn Hm.
  do 16 (try (destruct k as [|k]; [|apply Nat.succ_lt_mono in Hk]));
    try (exfalso; lia);
    do 16 (try (destruct j as [|j]; [|apply Nat.succ_lt_mono in Hj]));
    try (exfalso; lia);
    vm_compute; congruence.
Qed.

Lemma byte_hex_inj (b1 b2 : N) :
  (b1 < 256)%N -> (b2 < 256)%N -> byte_hex b1 = byte_hex b2 -> b1 = b2.
Proof.
  intros H1 H2 [= Hhi Hlo].
  apply hexdigit_inj in Hhi; [|by apply N.Div0.div_lt_upper_bound..].
  apply hexdigit_inj in Hlo; [|by apply N.mod_lt..].
  rewrite (N.div_mod' b1 16), (N.div_mod' b2 16). congruence.
Qed.

Lemma join_byte_hex_cons (b : N) (bs : list N) :
  join (map byte_hex (b :: bs))
  = String (hex_char (hexdigit_of_N (b / 16)))
      (String (hex_char (hexdigit_of_N (b mod 16)))
         (join (map byte_hex bs))).
Proof. reflexivity. Qed.

Lemma join_byte_hex_inj (l1 l2 : list N) :
  Forall (fun b => (b < 256)%N) l1 ->
  Forall (fun b => (b < 256)%N) l2 ->
  join (map byte_hex l1) = join (map byte_hex l2) -> l1 = l2.
Proof.
  intros H1. revert l2.
  induction H1 as [|b1 l1 Hb1 _ IH]; intros l2 H2 Heq.
  - destruct l2 as [|b2 l2]; [done|].
    rewrite join_byte_hex_cons in Heq. discriminate.
  - destruct H2 as [|b2 l2 Hb2 H2];
      rewrite !join_byte_hex_cons in Heq; [discriminate|].
    injection Heq as Hhi Hlo Hrest.
    f_equal; [|by apply IH].
    apply byte_hex_inj; [done..|]. unfold byte_hex. congruence.
Qed.

Lemma join_byte_hex_shape (l : list N) :
  String.length (join (map byte_hex l)) = (2 * length l)%nat
  /\ forallb isHexDigit (chars (join (map byte_hex l))) = true.
Proof.
  induction l as [|b l [IHlen IHhex]]; [done|].
  rewrite join_byte_hex_cons. split.
  - cbn [String.length length]. rewrite IHlen. lia.
  - unfold chars in *. cbn [String.list_ascii_of_string forallb].
    by rewrite !hex_char_isHexDigit, IHhex.
Qed.

(** X17: [generateHash] writes the digest in lowercase hexadecimal
    behind [0x]: for a digest of 32 bytes the result has the shape of a
    transaction hash, and two messages get the same hash exactly when
    their digests are equal. *)
Theorem generateHash_encodes_digest (rt : Runtime) (m1 m2 : string) :
  length (sha256 rt m1) = 32%nat ->
  Forall (fun b => (b < 256)%N) (sha256 rt m1) ->
  Forall (fun b => (b < 256)%N) (sha256 rt m2) ->
  hashShaped (generateHash rt m1)
  /\ (generateHash rt m1 = generateHash rt m2 <->
      sha256 rt m1 = sha256 rt m2).
Proof.
  intros Hlen H1 H2. unfold generateHash. split.
  - eexists. split; [reflexivity|].
    destruct (join_byte_hex_shape (sha256 rt m1)) as [Hl Hhex].
    rewrite Hl, Hlen. by split.
  - split; [|by intros ->].
    intros [= Heq]. by apply join_byte_hex_inj.
Qed.

Lemma generateHash_encodes_digest_witness :
  hashShaped (generateHash host "he took my phone").
Proof.
  refine (proj1 (generateHash_encodes_digest host "he took my phone"
                   "second note" eq_refl _ _));
    by repeat constructor.
Defined.

(** ** The tools of the language-model agent *)

Section BackendTools.

Context (rt : Runtime) (ch : Chain) (ent : Entropy).

(** A run of the SOS sequence without a connection. *)
Lemma offline_sos_run (dest uuid : string) (svc : FraxService.t) :
  FraxService.isConnected svc = false ->
  crypto_randomUUID ent 1 = Normal uuid ->
  exists r,
    FraxService.triggerSOS rt ch ent dest svc
      = (Normal r, FraxService.set_fallbackBaseBalance 0 svc)
    /\ SOSResult.success r = true
    /\ SOSResult.liquidatedAmount r = 0%float
    /\ SOSResult.transferredAmount r = 0%float
    /\ SOSResult.txHashes r = [FraxService.fakeTx uuid].
Proof.
  intros Hoff Huuid.
  unfold FraxService.triggerSOS, FraxService.sosSteps,
    FraxService.getVaultState, FraxService.liquidate,
    FraxService.transferOut, mbind, FraxService.Sos_bind,
    FraxService.await, FraxService.logs_push, FraxService.txHashes_push.
  rewrite Hoff. cbn. rewrite Huuid. by eexists.
Qed.

(** X18: the budget tool of the language-model agent and the budget of
    the agent class compute the same target from the same parameters,
    and agree on the tier: the tool's urgency is the critical, the high
    or the moderate one exactly when the agent's strategy is. *)
Theorem budget_tool_agrees_with_agent (params : AthenaAgent.Params.t)
    (this : AthenaAgent.t) :
  let budget := Backend.calculateBudget rt params in
  let plan := fst (AthenaAgent.calculateFreedomBudget params this) in
  Backend.Budget.targetAmount budget
    = FreedomGoal.targetAmount (EscapePlan.freedomGoal plan)
  /\ (Backend.Budget.urgency budget = "CRITICAL - Immediate action required"
      <-> EscapePlan.strategy plan = AthenaAgent.criticalStrategy)
  /\ (Backend.Budget.urgency budget = "HIGH - Plan within 2 weeks"
      <-> EscapePlan.strategy plan = AthenaAgent.elevatedStrategy)
  /\ (Backend.Budget.urgency budget = "MODERATE - Build savings gradually"
      <-> EscapePlan.strategy plan = AthenaAgent.moderateStrategy).
Proof.
  unfold Backend.calculateBudget, AthenaAgent.calculateFreedomBudget.
  cbn [fst Backend.Budget.targetAmount Backend.Budget.urgency
       EscapePlan.freedomGoal EscapePlan.strategy FreedomGoal.targetAmount].
  split; [done|].
  destruct (8 <=? AthenaAgent.Params.riskLevel params)%float;
    [|destruct (5 <=? AthenaAgent.Params.riskLevel params)%float];
    repeat split; intros; done.
Qed.

(** X19: the evidence tool always returns (the digest being total).
    When the ledger client
    cannot store, it answers [SECURED_ON_CHAIN] and gives, as the hash,
    the synthesized transaction id instead of the hash of the content;
    an answer [PENDING_SYNC] carries the hash of the content. *)
Theorem evidence_tool_reports (now : Z) (description type : string)
    (fraxService : FraxService.t) :
  let content := type +:+ ": " +:+ description +:+ " | " +:+ pretty now in
  exists secured,
    Backend.secureEvidence rt ch ent now description type fraxService
      = Normal secured
    /\ (Backend.Secured.status secured = "PENDING_SYNC" ->
        Backend.Secured.hash secured = generateHash rt content)
    /\ (storesLive fraxService = false ->
        secured =
          {| Backend.Secured.hash := FraxService.fakeTxHash ent;
             Backend.Secured.status := "SECURED_ON_CHAIN" |}).
Proof.
  unfold storesLive, Backend.secureEvidence, FraxService.storeEvidenceHash.
  destruct (_ && _ && _).
  - unfold try_catch.
    destruct (FraxService.wallet_address fraxService ≫= _) as [r|e] eqn:Hr;
      cbn.
    + eexists. split; [done|]. split; [|done]. cbn.
      revert Hr. unfold FraxService.wallet_address.
      destruct (FraxService.wallet fraxService) as [[self]|]; [|done]. cbn.
      destruct (mined _) as [receipt|e]; [|done]. cbn.
      by intros [= <-].
    + eexists. split; [done|]. by split.
  - cbn. eexists. split; [done|]. by split.
Qed.


End BackendTools.

(** ** The panic flow: agent, hook and button *)

Section Panic.

Context (rt : Runtime).

Lemma fraxService_markEvacuated (this : AthenaAgent.t) :
  AthenaAgent.fraxService (AthenaAgent.markEvacuated this)
  = AthenaAgent.fraxService this.
Proof.
  unfold AthenaAgent.markEvacuated.
  by destruct (AgentState.case (AthenaAgent.state this)).
Qed.

Lemma sos_result_destination (ch : Chain) (ent : Entropy) (dest : string)
    (svc svc' : FraxService.t) (r : SOSResult.t) :
  FraxService.triggerSOS rt ch ent dest svc = (Normal r, svc') ->
  SOSResult.destinationAddress r = dest
  /\ (SOSResult.success r = false -> svc' = svc).
Proof.
  unfold FraxService.triggerSOS.
  destruct (FraxService.sosSteps rt ch ent dest svc FraxService.journal0)
    as [[[v total]|e] j]; by intros [= <- <-].
Qed.

(** The SOS of the agent returns a result, whatever the chain does. *)
Lemma agent_triggerSOS_returns (ch : Chain) (ent : Entropy) (now : Z)
    (dest : string) (this : AthenaAgent.t) :
  exists r this',
    AthenaAgent.triggerSOS rt ch ent now dest this = (Normal r, this')
    /\ SOSResult.destinationAddress r = dest
    /\ (SOSResult.success r = false ->
        AthenaAgent.fraxService this' = AthenaAgent.fraxService this).
Proof.
  unfold AthenaAgent.triggerSOS, AthenaAgent.triggerSOS_over.
  destruct (triggerSOS_returns rt ch ent dest
              (AthenaAgent.fraxService (AthenaAgent.markEvacuated this)))
    as (r & svc' & Hrun).
  rewrite Hrun.
  destruct (sos_result_destination _ _ _ _ _ _ Hrun) as [Hdest Hsvc].
  destruct (SOSResult.success r) eqn:Hok.
  - rewrite clearLocalState_spec. eexists _, _. split; [done|].
    split; [done|]. intros H. congruence.
  - eexists _, _. split; [done|]. split; [done|]. intros _. cbn.
    rewrite Hsvc by done. apply fraxService_markEvacuated.
Qed.

(** X21: an SOS run without a connection, [crypto.randomUUID] being
    available, moves nothing and wipes all the same: the simulated ledger
    run reports success with both amounts zero, so the agent resets its
    state to empty and removes the persisted copy. *)
Theorem offline_sos_wipes (ch : Chain) (ent : Entropy) (now : Z)
    (dest uuid : string) (this : AthenaAgent.t) :
  FraxService.isConnected (AthenaAgent.fraxService this) = false ->
  crypto_randomUUID ent 1 = Normal uuid ->
  exists r this',
    AthenaAgent.triggerSOS rt ch ent now dest this = (Normal r, this')
    /\ SOSResult.success r = true
    /\ SOSResult.liquidatedAmount r = 0%float
    /\ SOSResult.transferredAmount r = 0%float
    /\ AthenaAgent.state this' = AthenaAgent.emptyState now
    /\ storedState this' = None
    /\ FraxService.isConnected (AthenaAgent.fraxService this') = false.
Proof.
  intros Hoff Huuid.
  unfold AthenaAgent.triggerSOS, AthenaAgent.triggerSOS_over.
  rewrite <- fraxService_markEvacuated in Hoff.
  destruct (offline_sos_run rt ch ent dest uuid _ Hoff Huuid)
    as (r & -> & Hok & Hliq & Hsent & _).
  rewrite Hok, clearLocalState_spec. eexists _, _. split; [done|].
  repeat split; try done.
  unfold storedState. cbn.
  destruct (AthenaAgent.localStorage (AthenaAgent.markEvacuated this));
    try done.
  rewrite !lookup_delete. by repeat case_decide.
Qed.

(** X22: the sequence the panic button runs, the SOS of the hook
    followed by [clearState], always completes and always ends with the
    empty state in the agent and in the hook and with no persisted copy,
    also when the SOS failed and no funds were moved: the address the
    button sends is never empty, and a failed run leaves the ledger
    client as it was. *)
Theorem panic_wipes_whatever_the_outcome (ch : Chain) (ent : Entropy)
    (now1 now2 : Z) (safeContact : option SafeContact.t) (h : Hook.t) :
  let address := PanicButton.destinationAddress safeContact in
  exists r h1 h2,
    Hook.triggerSOS rt ch ent now1 address h = (Normal r, h1)
    /\ Hook.clearState now2 h1 = (Normal tt, h2)
    /\ truthy_string (SOSResult.destinationAddress r) = true
    /\ Hook.agentState h2 = AthenaAgent.emptyState now2
    /\ AthenaAgent.state (Hook.agent h2) = AthenaAgent.emptyState now2
    /\ Hook.vaultState h2 = None
    /\ storedState (Hook.agent h2) = None
    /\ (SOSResult.success r = false ->
        AthenaAgent.fraxService (Hook.agent h2)
        = AthenaAgent.fraxService (Hook.agent h)).
Proof.
  intros address. unfold Hook.triggerSOS, Hook.clearState.
  destruct (agent_triggerSOS_returns ch ent now1 address (Hook.agent h))
    as (r & agent1 & -> & Hdest & Hsvc).
  eexists _, _, _. split; [reflexivity|].
  cbn [Hook.agent]. rewrite clearLocalState_spec.
  split; [reflexivity|]. cbn.
  split.
  { rewrite Hdest. subst address. unfold PanicButton.destinationAddress.
    destruct safeContact as [contact|]; [|done].
    by destruct (truthy_string (SafeContact.addressOrDetails contact)) eqn:H. }
  split; [done|]. split; [done|]. split; [done|].
  split; [|done].
  unfold storedState. cbn.
  destruct (AthenaAgent.localStorage agent1); try done.
  rewrite !lookup_delete. by repeat case_decide.
Qed.

Lemma perceive_returns (ch : Chain) (now : Z) (this : AthenaAgent.t) :
  exists v this',
    AthenaAgent.perceiveFinancialState rt ch now this = (Normal v, this')
    /\ AgentState.lastUpdated (AthenaAgent.state this') = now
    /\ AgentState.vaultState (AthenaAgent.state this') = Some v.
Proof.
  unfold AthenaAgent.perceiveFinancialState.
  destruct (getVaultState_returns rt ch (AthenaAgent.fraxService this))
    as [v ->].
  by eexists _, _.
Qed.

Lemma agent_secureEvidence_returns (env : AthenaAgent.EvidenceEnv.t)
    (content : string) (type : EvidenceType) (metadata : option Metadata.t)
    (this : AthenaAgent.t) :
  exists record this',
    AthenaAgent.secureEvidence rt env content type metadata this
      = (Normal record, this').
Proof.
  unfold AthenaAgent.secureEvidence.
  destruct (storeEvidenceHash_returns (AthenaAgent.EvidenceEnv.chain env)
              (AthenaAgent.EvidenceEnv.entropy env)
              (generateHash rt
                 (content +:+ pretty (AthenaAgent.EvidenceEnv.nowHash env)))
              (JSON_stringify rt <$> metadata)
              (AthenaAgent.fraxService this)) as (r & -> & _).
  by eexists _, _.
Qed.

Lemma agent_optimizeYield_returns (env : AthenaAgent.YieldEnv.t)
    (this : AthenaAgent.t) :
  exists result this',
    AthenaAgent.optimizeYield rt env this = (Normal result, this').
Proof.
  unfold AthenaAgent.optimizeYield.
  destruct (perceive_returns (AthenaAgent.YieldEnv.chainBefore env)
              (AthenaAgent.YieldEnv.nowBefore env) this)
    as (v1 & this1 & -> & _).
  destruct (VaultState.fraxBalance v1 <? 1)%float; [by eexists _, _|].
  destruct (depositToVault_returns rt (AthenaAgent.YieldEnv.chainDeposit env)
              (AthenaAgent.YieldEnv.entropy env) (VaultState.fraxBalance v1)
              (AthenaAgent.fraxService this1)) as (deposit & svc & ->).
  destruct (TransactionResult.success deposit); [|by eexists _, _].
  destruct (perceive_returns (AthenaAgent.YieldEnv.chainAfter env)
              (AthenaAgent.YieldEnv.nowAfter env)
              (AthenaAgent.set_fraxService svc this1))
    as (v2 & this3 & -> & _).
  by eexists _, _.
Qed.

(** X23: every action of the hook completes without throwing (the
    digest and the serialization of the metadata being total).  After
    the actions that change the agent state on purpose (refresh, new
    case, evidence, yield, SOS, budget, wipe) the copy the hook hands to
    the components is the state of the agent, and the loading flag is
    down after those that raise it.  The balance query and the periodic
    refresh change the state of the agent (its vault snapshot and its
    time stamp) but leave the copy as it was. *)
Theorem hook_copy_follows_the_agent (h : Hook.t) :
  (forall ch now,
     exists v h',
       Hook.refreshVaultState rt ch now h = (Normal v, h')
       /\ Hook.agentState h' = AthenaAgent.state (Hook.agent h')
       /\ Hook.vaultState h' = Some v
       /\ Hook.isLoading h' = false)
  /\ (forall timestamp random36,
        exists h',
          Hook.createCase timestamp random36 h = (Normal tt, h')
          /\ Hook.agentState h' = AthenaAgent.state (Hook.agent h'))
  /\ (forall env content type metadata,
        exists record h',
          Hook.secureEvidence rt env content type metadata h
            = (Normal record, h')
          /\ Hook.agentState h' = AthenaAgent.state (Hook.agent h')
          /\ Hook.isLoading h' = false)
  /\ (forall env chRefresh nowRefresh,
        exists result h',
          Hook.optimizeYield rt env chRefresh nowRefresh h
            = (Normal result, h')
          /\ Hook.agentState h' = AthenaAgent.state (Hook.agent h')
          /\ Hook.isLoading h' = false)
  /\ (forall ch ent now address,
        exists r h',
          Hook.triggerSOS rt ch ent now address h = (Normal r, h')
          /\ Hook.agentState h' = AthenaAgent.state (Hook.agent h')
          /\ Hook.vaultState h' = None)
  /\ (forall params,
        let h' := snd (Hook.calculateBudget params h) in
        Hook.agentState h' = AthenaAgent.state (Hook.agent h'))
  /\ (forall now,
        exists h',
          Hook.clearState now h = (Normal tt, h')
          /\ Hook.agentState h' = AthenaAgent.state (Hook.agent h')
          /\ Hook.vaultState h' = None)
  /\ (forall ch now,
        exists balance h',
          Hook.quickBalance rt ch now h = (Normal balance, h')
          /\ Hook.agentState h' = Hook.agentState h
          /\ AgentState.lastUpdated (AthenaAgent.state (Hook.agent h')) = now)
  /\ (forall ch now,
        let h' := Hook.autoRefresh rt ch now h in
        Hook.agentState h' = Hook.agentState h
        /\ AgentState.lastUpdated (AthenaAgent.state (Hook.agent h')) = now).
Proof.
  repeat apply conj.
  - intros ch now. unfold Hook.refreshVaultState.
    destruct (perceive_returns ch now (Hook.agent h)) as (v & a & -> & _).
    by eexists _, _.
  - intros timestamp random36. unfold Hook.createCase.
    destruct (AthenaAgent.createAnonymousCase _ _ _). by eexists.
  - intros env content type metadata. unfold Hook.secureEvidence.
    destruct (agent_secureEvidence_returns env content type metadata
                (Hook.agent h)) as (record & a & ->).
    by eexists _, _.
  - intros env chRefresh nowRefresh. unfold Hook.optimizeYield.
    destruct (agent_optimizeYield_returns env (Hook.agent h))
      as (result & a & ->).
    unfold Hook.refreshVaultState. cbn.
    destruct (perceive_returns chRefresh nowRefresh a) as (v & a' & -> & _).
    by eexists _, _.
  - intros ch ent now address. unfold Hook.triggerSOS.
    destruct (agent_triggerSOS_returns ch ent now address (Hook.agent h))
      as (r & a & -> & _).
    by eexists _, _.
  - intros params. unfold Hook.calculateBudget.
    by destruct (AthenaAgent.calculateFreedomBudget _ _).
  - intros now. unfold Hook.clearState. rewrite clearLocalState_spec.
    by eexists.
  - intros ch now. unfold Hook.quickBalance, AthenaAgent.quickBalanceCheck.
    destruct (perceive_returns ch now (Hook.agent h))
      as (v & a & -> & Hnow & _).
    by eexists _, _.
  - intros ch now. unfold Hook.autoRefresh.
    by destruct (perceive_returns ch now (Hook.agent h))
      as (v & a & -> & Hnow & _).
Qed.

End Panic.

Lemma offline_sos_wipes_witness :
  exists r this',
    AthenaAgent.triggerSOS host Fixture.funded Fixture.entropy 7
      Fixture.safeContact Scenario.unplugged = (Normal r, this')
    /\ SOSResult.success r = true
    /\ AthenaAgent.state this' = AthenaAgent.emptyState 7.
Proof.
  destruct (offline_sos_wipes host Fixture.funded Fixture.entropy 7
              Fixture.safeContact "123e4567-e89b-42d3-a456-426614174000"
              Scenario.unplugged eq_refl eq_refl)
    as (r & this' & Hrun & Hok & _ & _ & Hstate & _).
  by exists r, this'.
Defined.

(** ** The commands of the application *)

Section Commands.

Context (rt : Runtime).

Lemma perceive_frame (ch : Chain) (now : Z) (this : AthenaAgent.t) :
  let this' := snd (AthenaAgent.perceiveFinancialState rt ch now this) in
  AthenaAgent.heap this' = AthenaAgent.heap this
  /\ AthenaAgent.fraxService this' = AthenaAgent.fraxService this
  /\ AgentState.case (AthenaAgent.state this')
     = AgentState.case (AthenaAgent.state this)
  /\ AgentState.evidence (AthenaAgent.state this')
     = AgentState.evidence (AthenaAgent.state this)
  /\ AgentState.escapePlan (AthenaAgent.state this')
     = AgentState.escapePlan (AthenaAgent.state this).
Proof.
  unfold AthenaAgent.perceiveFinancialState.
  by destruct (FraxService.getVaultState rt ch _).
Qed.

Lemma createAnonymousCase_frame (timestamp : Z) (random36 : string)
    (this : AthenaAgent.t) :
  let this' :=
    snd (AthenaAgent.createAnonymousCase timestamp random36 this) in
  AthenaAgent.fraxService this' = AthenaAgent.fraxService this
  /\ (forall ref c,
        AthenaAgent.heap this !! ref = Some c ->
        AthenaAgent.heap this' !! ref = Some c)
  /\ AgentState.evidence (AthenaAgent.state this')
     = AgentState.evidence (AthenaAgent.state this)
  /\ AgentState.escapePlan (AthenaAgent.state this')
     = AgentState.escapePlan (AthenaAgent.state this).
Proof.
  unfold AthenaAgent.createAnonymousCase. cbn [snd].
  split; [done|]. split; [|done].
  intros ref c Hc. cbn. by apply lookup_app_l_Some.
Qed.

(** X24: the [GENESIS] command opens a case only when the agent has
    none: afterwards the agent has a case, an agent that had one is left
    exactly as it was, and a second [GENESIS] changes nothing. *)
Theorem genesis_opens_at_most_one_case (env : App.Env.t) (ui : App.t)
    (agent : AthenaAgent.t) :
  let agent' := snd (App.handleCommand rt env "GENESIS" ui agent) in
  is_Some (AgentState.case (AthenaAgent.state agent'))
  /\ (is_Some (AgentState.case (AthenaAgent.state agent)) -> agent' = agent)
  /\ (AgentState.case (AthenaAgent.state agent) = None ->
      agent' =
        snd (AthenaAgent.createAnonymousCase (App.Env.now env)
               (App.Env.random36 env) agent))
  /\ forall env2 ui2,
       snd (App.handleCommand rt env2 "GENESIS" ui2 agent') = agent'.
Proof.
  assert (forall e u a,
            snd (App.handleCommand rt e "GENESIS" u a) =
              match AgentState.case (AthenaAgent.state a) with
              | None =>
                  snd (AthenaAgent.createAnonymousCase (App.Env.now e)
                         (App.Env.random36 e) a)
              | Some _ => a
              end) as Hcmd by reflexivity.
  cbv zeta. rewrite Hcmd.
  destruct (AgentState.case (AthenaAgent.state agent)) as [ref|] eqn:Hcase.
  - split; [by eexists|]. split; [done|]. split; [done|].
    intros env2 ui2. by rewrite Hcmd, Hcase.
  - assert (is_Some
              (AgentState.case
                 (AthenaAgent.state
                    (snd (AthenaAgent.createAnonymousCase (App.Env.now env)
                            (App.Env.random36 env) agent))))) as Hsome
      by by eexists.
    split; [done|]. split; [by intros [? [=]]|]. split; [done|].
    intros env2 ui2. rewrite Hcmd. by destruct Hsome as [ref ->].
Qed.

(** X25: what a command may touch.  No command changes the ledger
    client or a case object that exists, so the [SOS] code of the
    calculator marks nothing and moves nothing; only [WIPE] drops
    evidence and plan, and it leaves the empty state and no persisted
    copy; a command other than [GENESIS], [FLASH_CHECK], [POOL_STATUS]
    and [WIPE], the [SOS] and [LOGIN] codes included, leaves the agent
    exactly as it was. *)
Theorem commands_frame (env : App.Env.t) (cmd : string) (ui : App.t)
    (agent : AthenaAgent.t) :
  let agent' := snd (App.handleCommand rt env cmd ui agent) in
  AthenaAgent.fraxService agent' = AthenaAgent.fraxService agent
  /\ (forall ref c,
        AthenaAgent.heap agent !! ref = Some c ->
        AthenaAgent.heap agent' !! ref = Some c)
  /\ (cmd <> "WIPE" ->
      AgentState.evidence (AthenaAgent.state agent')
        = AgentState.evidence (AthenaAgent.state agent)
      /\ AgentState.escapePlan (AthenaAgent.state agent')
         = AgentState.escapePlan (AthenaAgent.state agent))
  /\ (cmd = "WIPE" ->
      AthenaAgent.state agent' = AthenaAgent.emptyState (App.Env.now env)
      /\ storedState agent' = None)
  /\ (cmd <> "GENESIS" -> cmd <> "FLASH_CHECK" -> cmd <> "POOL_STATUS" ->
      cmd <> "WIPE" -> agent' = agent).
Proof.
  unfold App.handleCommand.
  destruct (String.eqb_spec cmd "GENESIS") as [->|Hgenesis].
  { cbn [snd].
    destruct (AgentState.case (AthenaAgent.getState agent)); [done|].
    destruct (createAnonymousCase_frame (App.Env.now env)
                (App.Env.random36 env) agent)
      as (Hsvc & Hheap & Hev & Hplan).
    split; [done|]. split; [exact Hheap|]. by repeat split. }
  destruct (String.eqb_spec cmd "LOGIN") as [->|Hlogin]; [done|].
  destruct (String.eqb_spec cmd "FLASH_CHECK") as [->|Hflash].
  { unfold AthenaAgent.quickBalanceCheck.
    pose proof (perceive_frame (App.Env.chain env) (App.Env.now env) agent)
      as (Hheap & Hsvc & _ & Hev & Hplan).
    destruct (AthenaAgent.perceiveFinancialState rt _ _ agent)
      as [[v|e] agent1]; cbn [snd] in *.
    all: split; [done|]; split; [by rewrite Hheap|]; by repeat split. }
  destruct (String.eqb_spec cmd "POOL_STATUS") as [->|Hpool].
  { unfold AthenaAgent.getPoolStatus.
    pose proof (perceive_frame (App.Env.chain env) (App.Env.now env) agent)
      as (Hheap & Hsvc & _ & Hev & Hplan).
    destruct (AthenaAgent.perceiveFinancialState rt _ _ agent)
      as [[v|e] agent1]; cbn [snd] in *.
    2:{ split; [done|]; split; [by rewrite Hheap|]; by repeat split. }
    destruct (AgentState.escapePlan (AthenaAgent.state agent1)) eqn:Hp;
      cbn [snd].
    all: split; [done|]; split; [by rewrite Hheap|].
    all: split; [intros _; split; congruence|by split]. }
  destruct (String.eqb_spec cmd "SOS") as [->|Hsos]; [done|].
  destruct (String.eqb_spec cmd "WIPE") as [->|Hwipe]; [|done].
  rewrite clearLocalState_spec. cbn [snd].
  split; [done|]. split; [done|]. split; [done|]. split; [|done].
  intros _. split; [done|]. unfold storedState. cbn.
  destruct (AthenaAgent.localStorage agent); try done.
  rewrite !lookup_delete. by repeat case_decide.
Qed.

End Commands.

(** ** The keypad *)

Section Keypad.

Context (eval : string -> Completion string).

Import Calculator.

(** X26: from any state of the calculator, the key [C] followed by the
    keys of a command gives exactly that command, once. *)
Theorem cleared_keypad_fires_the_command (st : t) (name : string)
    (keys : list string) :
  In (name, keys) commandKeys ->
  snd (pressAll eval ("C" :: keys) st) = [name].
Proof.
  unfold commandKeys. cbn [In]. destruct st as [d b m].
  intros [H|[H|[H|[H|[H|[]]]]]]; injection H as <- <-; reflexivity.
Qed.

Lemma press_plain (val : string) (st : t) :
  String.eqb val "." = false ->
  String.eqb val "C" = false ->
  String.eqb val "=" = false ->
  handlePress eval val st =
    (mk (if String.eqb (display st) "0" || String.eqb (display st) "Error"
         then val else display st +:+ val)
        (inputBuffer st +:+ val) (showManual st),
     None).
Proof. intros H1 H2 H3. unfold handlePress. by rewrite H1, H2, H3. Qed.

(** What [=] needs to give a command. *)
Lemma press_equals_quiet (st : t) :
  display st <> "%" ->
  Forall (fun code => inputBuffer st +:+ "=" <> code)
    ["%="; "1+1="; "1999="; "9÷11="; "0÷0="; "7x7="] ->
  snd (handlePress eval "=" st) = None.
Proof.
  intros Hd Hcodes.
  repeat match goal with
         | H : Forall _ (_ :: _) |- _ =>
             apply Forall_cons in H; destruct H as [?%String.eqb_neq H]
         end.
  apply String.eqb_neq in Hd.
  unfold handlePress.
  change (String.eqb "=" "." && endsWith ".." (display st)) with false.
  change (String.eqb "=" "C") with false.
  change (String.eqb "=" "=") with true. cbv iota.
  repeat match goal with H : String.eqb _ _ = false |- _ =>
           rewrite H; clear H end.
  reflexivity.
Qed.

Lemma rev_chars_snoc (s key : string) :
  rev (chars (s +:+ key)) = rev (chars key) ++ rev (chars s).
Proof. by rewrite chars_append, rev_app_distr. Qed.

Lemma chars_eq_nil (s : string) : rev (chars s) = [] -> s = EmptyString.
Proof.
  destruct s as [|c s]; [done|]. unfold chars. cbn.
  by destruct (rev _).
Qed.

(** Two strings differ when their characters, read from the end,
    differ. *)
Ltac differ_from_the_end :=
  let H := fresh in
  intros H; apply (f_equal (fun s => rev (chars s))) in H;
  cbv beta in H; rewrite ?rev_chars_snoc in H;
  unfold chars in H; cbn in H;
  simplify_eq;
  try match goal with
      | Hs : rev (String.list_ascii_of_string ?s) = [], Hne : ?s <> _ |- _ =>
          by apply chars_eq_nil in Hs
      end.

(** X27: a command needs the whole buffer.  When keys have been pressed
    since the buffer was last emptied, the keys of a command give no
    command at all: the user has to press [C] first. *)
Theorem dirty_buffer_gives_no_command (st : t) (name : string)
    (keys : list string) :
  inputBuffer st <> EmptyString ->
  In (name, keys) commandKeys ->
  snd (pressAll eval keys st) = [].
Proof.
  intros Hdirty. unfold commandKeys. cbn [In]. destruct st as [d b m].
  cbn [inputBuffer] in Hdirty.
  intros [H|[H|[H|[H|[H|[]]]]]]; injection H as <- <-; cbn [pressAll].
  all: repeat (rewrite press_plain by reflexivity;
               cbn [display inputBuffer showManual]).
  all: match goal with
       | |- context [handlePress eval "=" ?s] =>
           pose proof (press_equals_quiet s) as Hq;
           destruct (handlePress eval "=" s) as [st' [cmd|]];
           cbn [snd] in *; [|reflexivity]
       end.
  all: exfalso; enough (Some cmd = None) by discriminate; apply Hq;
    cbn [display inputBuffer].
  all: repeat match goal with |- Forall _ _ => constructor end.
  all: repeat match goal with
         | |- context [if ?c then _ else _] => destruct c
         end; differ_from_the_end.
Qed.

End Keypad.

Lemma cleared_keypad_fires_the_command_witness :
  snd (Calculator.pressAll (fun _ => Normal "2") ["C"; "0"; "÷"; "0"; "="]
         (Calculator.mk "12" "12" true)) = ["SOS"].
Proof.
  apply (cleared_keypad_fires_the_command (fun _ => Normal "2")
           (Calculator.mk "12" "12" true) "SOS" ["0"; "÷"; "0"; "="]).
  cbn. tauto.
Defined.

Lemma dirty_buffer_gives_no_command_witness :
  snd (Calculator.pressAll (fun _ => Normal "2001") ["1"; "9"; "9"; "9"; "="]
         (Calculator.mk "1+1" "1+1" false)) = [].
Proof.
  apply (dirty_buffer_gives_no_command (fun _ => Normal "2001")
           (Calculator.mk "1+1" "1+1" false) "LOGIN"
           ["1"; "9"; "9"; "9"; "="]).
  - discriminate.
  - cbn. tauto.
Defined.

Section Dots.

Context (eval : string -> Completion string).

Import Calculator.

Lemma reversed_snoc (s : string) (c : ascii) :
  String.string_of_list_ascii
    (rev (String.list_ascii_of_string (s +:+ String c EmptyString)))
  = String c
      (String.string_of_list_ascii (rev (String.list_ascii_of_string s))).
Proof.
  pose proof (chars_append s (String c EmptyString)) as H.
  unfold chars in H. rewrite H, rev_app_distr. reflexivity.
Qed.

Lemma endsWith_dots (s : string) :
  endsWith ".." (s +:+ ".") = endsWith "." s
  /\ endsWith "." (s +:+ ".") = true.
Proof.
  unfold endsWith. rewrite reversed_snoc. cbn. split; [done|].
  by destruct (String.string_of_list_ascii _).
Qed.

Lemma press_dot (st : t) :
  handlePress eval "." st =
    if endsWith ".." (display st)
    then (mk "0" EmptyString (showManual st), Some "WIPE")
    else
      (mk (if String.eqb (display st) "0" || String.eqb (display st) "Error"
           then "." else display st +:+ ".")
          (inputBuffer st +:+ ".") (showManual st),
       None).
Proof. reflexivity. Qed.

Lemma snoc_dot_is_no_result (s : string) :
  String.eqb (s +:+ ".") "0" || String.eqb (s +:+ ".") "Error" = false.
Proof.
  apply orb_false_intro; apply String.eqb_neq; intros H;
    apply (f_equal (fun x => rev (chars x))) in H; cbv beta in H;
    rewrite chars_append, rev_app_distr in H; discriminate.
Qed.

(** X28: three presses of the dot give the [WIPE] command exactly once,
    whatever the calculator shows and whatever was typed before. *)
Theorem three_dots_wipe (st : t) :
  snd (pressAll eval ["."; "."; "."] st) = ["WIPE"].
Proof.
  destruct st as [d b m]. cbn [pressAll]. rewrite press_dot.
  cbn [display inputBuffer showManual].
  destruct (endsWith ".." d) eqn:Hdd; [reflexivity|].
  destruct (String.eqb d "0" || String.eqb d "Error") eqn:Hd;
    [reflexivity|].
  rewrite press_dot. cbn [display inputBuffer showManual].
  destruct (endsWith_dots d) as [-> _].
  destruct (endsWith "." d) eqn:Hdot; [reflexivity|].
  rewrite snoc_dot_is_no_result, press_dot.
  cbn [display inputBuffer showManual].
  destruct (endsWith_dots (d +:+ ".")) as [-> _].
  destruct (endsWith_dots d) as [_ ->]. reflexivity.
Qed.

End Dots.

(** ** Uploads to the pinning service *)

Section Uploads.

Import Ipfs.

Lemma get_in_range (n : nat) (s : string) :
  (n < String.length s)%nat -> exists c, String.get n s = Some c.
Proof.
  revert n. induction s as [|c s IH]; intros n Hn; cbn in Hn; [lia|].
  destruct n as [|n]; [by exists c|]. cbn. apply IH. lia.
Qed.

Lemma demo_cid_length (env : Env.t) :
  (forall i, (Env.Math_random_62 env i < 62)%nat) ->
  String.length
    (join (map (fun i => charAt (Env.Math_random_62 env i) alphabet)
               (seq 0 44))) = 44%nat.
Proof.
  intros Hdraw.
  rewrite (map_ext _
             (fun i =>
                String
                  (default "A"%char
                     (String.get (Env.Math_random_62 env i) alphabet))
                  EmptyString)).
  - by rewrite <- length_chars, chars_join_singletons, length_map, length_seq.
  - intros i. unfold charAt.
    by destruct (get_in_range (Env.Math_random_62 env i) alphabet (Hdraw i))
      as [c ->].
Qed.

(** X29: [uploadToIPFS] always answers with a result.  A success has
    no error and its two addresses are built from its content id, the
    gateway one being the address [getEvidenceUrl] gives; a failure has
    an error and no content id and no address.  Without a token the
    answer is a success that never consulted the service, whose content
    id is [Qm] and, the draws being below 62, 44 more characters.  With a
    token, an answer of the service that is not [ok] makes a failure
    whose error quotes the body of the answer. *)
Theorem upload_always_answers (env : Env.t) (file : Blob.t)
    (metadata : EvidenceMetadata.t) :
  exists r,
    uploadToIPFS env file metadata = Normal r
    /\ IPFSUploadResult.timestamp r = Env.nowResult env
    /\ (IPFSUploadResult.success r = true ->
        IPFSUploadResult.error r = None
        /\ IPFSUploadResult.ipfsUrl r = "ipfs://" +:+ IPFSUploadResult.cid r
        /\ IPFSUploadResult.gatewayUrl r
           = getEvidenceUrl (IPFSUploadResult.cid r))
    /\ (IPFSUploadResult.success r = false ->
        is_Some (IPFSUploadResult.error r)
        /\ IPFSUploadResult.cid r = EmptyString
        /\ IPFSUploadResult.ipfsUrl r = EmptyString
        /\ IPFSUploadResult.gatewayUrl r = EmptyString)
    /\ (getPinataJWT env = None ->
        IPFSUploadResult.success r = true
        /\ (exists rest, IPFSUploadResult.cid r = "Qm" +:+ rest
            /\ ((forall i, (Env.Math_random_62 env i < 62)%nat) ->
                String.length rest = 44%nat))
        /\ forall fetch',
             uploadToIPFS
               (Env.mk (Env.VITE_PINATA_JWT env) fetch'
                  (Env.fetchPinCount env) (Env.nowName env)
                  (Env.nowResult env) (Env.Math_random_62 env)
                  (Env.Math_random_size env) (Env.atob env))
               file metadata = Normal r)
    /\ (forall jwt response body,
          getPinataJWT env = Some jwt ->
          Env.fetch env (requestOf env jwt file metadata) = Normal response ->
          Response.ok response = false ->
          Response.text response = Normal body ->
          IPFSUploadResult.success r = false
          /\ IPFSUploadResult.error r
             = Some ("Pinata upload failed: " +:+ body)).
Proof.
  unfold uploadToIPFS.
  destruct (getPinataJWT env) as [jwt|] eqn:Hjwt.
  - unfold try_catch.
    destruct (Env.fetch env (requestOf env jwt file metadata))
      as [response|e] eqn:Hfetch; cbn.
    2:{ eexists. split; [done|]. cbn. split; [done|]. split; [done|].
        split; [by split; [eexists|]|]. split; [done|].
        intros ? ? ? Hj Hf. injection Hj as <-. congruence. }
    destruct (Response.ok response) eqn:Hok; cbn.
    + destruct (Response.json response) as [[cid size]|e]; cbn.
      * eexists. split; [done|]. cbn. split; [done|]. split; [done|].
        split; [done|]. split; [done|].
        intros ? ? ? Hj Hf. injection Hj as <-. congruence.
      * eexists. split; [done|]. cbn. split; [done|]. split; [done|].
        split; [by split; [eexists|]|]. split; [done|].
        intros ? ? ? Hj Hf. injection Hj as <-. congruence.
    + destruct (Response.text response) as [body|e] eqn:Htext; cbn.
      * eexists. split; [done|]. cbn. split; [done|]. split; [done|].
        split; [by split; [eexists|]|]. split; [done|].
        intros ? ? ? Hj Hf _ Ht. injection Hj as <-. split; [done|].
        congruence.
      * eexists. split; [done|]. cbn. split; [done|]. split; [done|].
        split; [by split; [eexists|]|]. split; [done|].
        intros ? ? ? Hj Hf _ Ht. injection Hj as <-. congruence.
  - eexists. split; [done|]. cbn. split; [done|]. split; [done|].
    split; [done|]. split; [|done]. intros _. split; [done|]. split.
    + eexists. split; [reflexivity|]. apply demo_cid_length.
    + intros fetch'. unfold getPinataJWT in *. cbn. by rewrite Hjwt.
Qed.

Lemma uploadToIPFS_returns (env : Env.t) (file : Blob.t)
    (metadata : EvidenceMetadata.t) :
  exists r, uploadToIPFS env file metadata = Normal r.
Proof.
  unfold uploadToIPFS. destruct (getPinataJWT env); [|by eexists].
  unfold try_catch.
  match goal with
  | |- context [match ?body with Normal _ => _ | Throw _ => _ end] =>
      destruct body
  end; by eexists.
Qed.

Lemma split_comma_free (s : string) :
  ~ In ","%char (chars s) -> split_comma s = [s].
Proof.
  induction s as [|c s IH]; [done|]. unfold chars. cbn. intros Hfree.
  destruct (Ascii.eqb_spec c ","); [tauto|].
  rewrite IH; [done|]. unfold chars. tauto.
Qed.

Lemma split_comma_header (header rest : string) :
  ~ In ","%char (chars header) ->
  split_comma (header +:+ "," +:+ rest) = header :: split_comma rest.
Proof.
  induction header as [|c header IH]; [done|]. unfold chars. cbn.
  intros Hfree.
  change (split_comma (String c (header +:+ "," +:+ rest))
          = String c header :: split_comma rest).
  cbn. destruct (Ascii.eqb_spec c ","); [tauto|].
  rewrite IH; [done|]. unfold chars. tauto.
Qed.

(** X30: [uploadBase64ToIPFS] decodes what follows the comma of a data
    address: for a header and a non-empty payload without commas, the
    address made of both and the bare payload are decoded, and so
    uploaded, alike; and since the decoding is not guarded, the function
    throws exactly when [atob] does. *)
Theorem data_address_payload (header payload : string) :
  ~ In ","%char (chars header) ->
  ~ In ","%char (chars payload) ->
  payload <> EmptyString ->
  payloadOf (header +:+ "," +:+ payload) = payload
  /\ payloadOf payload = payload
  /\ forall env mimeType metadata,
       uploadBase64ToIPFS env (header +:+ "," +:+ payload) mimeType metadata
       = uploadBase64ToIPFS env payload mimeType metadata
       /\ ((exists e,
              uploadBase64ToIPFS env payload mimeType metadata = Throw e)
           <-> exists e, Env.atob env payload = Throw e).
Proof.
  intros Hheader Hpayload Hnonempty.
  assert (payloadOf (header +:+ "," +:+ payload) = payload) as H1.
  { unfold payloadOf.
    rewrite split_comma_header, split_comma_free by done. cbn.
    by destruct payload. }
  assert (payloadOf payload = payload) as H2.
  { unfold payloadOf. by rewrite split_comma_free. }
  split; [done|]. split; [done|]. intros env mimeType metadata.
  unfold uploadBase64ToIPFS. rewrite H1, H2. split; [done|].
  destruct (Env.atob env payload) as [bytes|e]; cbn.
  - destruct (uploadToIPFS_returns env (Blob.mk bytes mimeType) metadata)
      as [r ->].
    split; by intros [? [=]].
  - split; by eexists.
Qed.

End Uploads.

Lemma data_address_payload_witness :
  Ipfs.payloadOf "data:image/png;base64,aGVsbG8=" = "aGVsbG8=".
Proof.
  refine (proj1 (data_address_payload "data:image/png;base64" "aGVsbG8="
                   _ _ _));
    [vm_compute; intuition discriminate
    |vm_compute; intuition discriminate
    |discriminate].
Defined.
